(** * zcf: the router probe, the CLI dispatch and the AI-personality wizard

    A shallow embedding of three source files of the zcf command-line
    installer, followed by the properties established about them:

    - the claude-code-router helper ([isCcrInstalled], [getCcrVersion],
      [installCcr], [startCcrService]) in module [Ccr];
    - [src/cli-setup.ts] ([setupCommands], [handleDefaultCommand], ...) in
      module [Cli];
    - [src/utils/ai-personality.ts] in module [Personality];
    - the configuration merge of the specification in module [Merge].

    JavaScript strings are byte strings here (UTF-8, as they are written to
    disk); asynchronous functions are computations over an explicit world
    with a virtual clock, which may return a value, throw, or never settle. *)

From Stdlib Require Import String Ascii List Bool Arith ZArith NArith Lia.
Import ListNotations.
Open Scope string_scope.

(* ================================================================== *)
(** * JavaScript values used by the sources *)

Module Js.

(** An [Error] object as the sources inspect it: only [message] is read,
    and it is read through [?.], so it may be undefined. *)
Record Error : Type := { message : option string }.

(** [!!s] on a string. *)
Definition truthy (s : string) : bool :=
  match s with
  | EmptyString => false
  | String _ _ => true
  end.

(** [!!v] on a value that is a string or undefined/null. *)
Definition truthy_opt (v : option string) : bool :=
  match v with
  | Some s => truthy s
  | None => false
  end.

(** [!!b] on a boolean or undefined. *)
Definition truthy_flag (v : option bool) : bool :=
  match v with
  | Some b => b
  | None => false
  end.

(** [a || b] where the result is used as a string. *)
Definition or_else (a : option string) (b : string) : string :=
  match a with
  | Some s => if truthy s then s else b
  | None => b
  end.

(** [a || b] where [b] may itself be undefined. *)
Definition or_opt (a b : option string) : option string :=
  if truthy_opt a then a else b.

(** [s.includes(sub)]. *)
Fixpoint includes (s sub : string) : bool :=
  if String.prefix sub s then true
  else match s with
       | EmptyString => false
       | String _ s' => includes s' sub
       end.

(** One argument of a [console.log] / [console.error] call. *)
Inductive Arg : Type :=
| Str (s : string)
| Obj (e : Error).

Inductive Line : Type :=
| Log (args : list Arg)
| Err (args : list Arg).

Inductive Colour : Type := green | cyan | yellow | red | blue | gray.

End Js.

(** The display languages ['zh-CN' | 'en']. *)
Inductive SupportedLang : Type := zh_CN | en.

(* ================================================================== *)
(** * Computations: state, exceptions and calls that never settle *)

Module Eff.

Inductive Completion (E A : Type) : Type :=
| Returns (a : A)
| Throws (e : E).
Arguments Returns {E A} a.
Arguments Throws {E A} e.

(** [None] is a call that never returns (a promise that never settles). *)
Definition t (S E A : Type) : Type := S -> option (Completion E A * S).

Definition ret {S E A} (a : A) : t S E A :=
  fun s => Some (Returns a, s).

Definition throw {S E A} (e : E) : t S E A :=
  fun s => Some (Throws e, s).

Definition bind {S E A B} (m : t S E A) (k : A -> t S E B) : t S E B :=
  fun s =>
    match m s with
    | None => None
    | Some (Returns a, s') => k a s'
    | Some (Throws e, s') => Some (Throws e, s')
    end.

(** [try { body } catch (e) { handler e }]. *)
Definition try_catch {S E A} (body : t S E A) (handler : E -> t S E A)
  : t S E A :=
  fun s =>
    match body s with
    | None => None
    | Some (Returns a, s') => Some (Returns a, s')
    | Some (Throws e, s') => handler e s'
    end.

Definition gets {S E A} (f : S -> A) : t S E A :=
  fun s => Some (Returns (f s), s).

Definition modify {S E} (f : S -> S) : t S E unit :=
  fun s => Some (Returns tt, f s).

(** A computation that hangs. *)
Definition never {S E A} : t S E A := fun _ => None.

End Eff.

Declare Scope eff_scope.
Delimit Scope eff_scope with eff.
Notation "x <- c ;; k" := (Eff.bind c (fun x => k))
  (at level 61, c at next level, right associativity) : eff_scope.
Notation "c ;;; k" := (Eff.bind c (fun _ => k))
  (at level 61, right associativity) : eff_scope.

(* ================================================================== *)
(** * The regular expression of [getCcrVersion]

    The text matched is UTF-8. No byte of a character outside ASCII is a
    digit or a dot, so the bytes matched are those of the UTF-16 code units
    that the expression matches in the JavaScript string. *)

Module RegExp.

(** The atoms the literal [/(\d+\.\d+\.\d+)/] is built from. *)
Inductive Atom : Type :=
| Digit              (* \d : without the u flag, exactly 0-9 *)
| Lit (c : ascii).   (* an escaped literal such as \. *)

Inductive Node : Type :=
| One (a : Atom)
| OneOrMore (a : Atom).   (* a+ , greedy *)

Definition is_digit (c : ascii) : bool :=
  (48 <=? nat_of_ascii c)%nat && (nat_of_ascii c <=? 57)%nat.

Definition atom_matches (a : Atom) (c : ascii) : bool :=
  match a with
  | Digit => is_digit c
  | Lit d => Ascii.eqb c d
  end.

(** The loop of a greedy quantifier over one-character atoms: zero or
    more characters satisfying [p], then [rest]. It first tries to take one
    more character and, if the rest of the pattern fails after that, falls
    back to taking none. *)
Fixpoint more (p : ascii -> bool) (rest : string -> option string)
  (s : string) : option string :=
  match s with
  | String c s' =>
      if p c
      then match more p rest s' with
           | Some m => Some (String c m)
           | None => rest s
           end
      else rest s
  | EmptyString => rest s
  end.

(** Backtracking match of a sequence of nodes at the start of [s]; the
    result is the text matched. *)
Fixpoint match_here (pat : list Node) : string -> option string :=
  match pat with
  | [] => fun _ => Some EmptyString
  | One a :: pat' =>
      fun s =>
        match s with
        | String c s' =>
            if atom_matches a c
            then option_map (String c) (match_here pat' s')
            else None
        | EmptyString => None
        end
  | OneOrMore a :: pat' =>
      fun s =>
        match s with
        | String c s' =>
            if atom_matches a c
            then option_map (String c)
                   (more (atom_matches a) (match_here pat') s')
            else None
        | EmptyString => None
        end
  end.

(** The array a successful [exec] returns: the index of the match, the
    whole match, and capture group 1. *)
Record MatchArray : Type :=
  { index : nat; whole : string; group1 : string }.

(** [RegExp.prototype.exec] for a non-global expression whose single
    capture group encloses the whole pattern: the first start position
    (from [from]) at which the pattern matches. *)
Fixpoint exec_from (pat : list Node) (s : string) (from : nat)
  : option MatchArray :=
  match match_here pat s with
  | Some m => Some {| index := from; whole := m; group1 := m |}
  | None =>
      match s with
      | EmptyString => None
      | String _ s' => exec_from pat s' (S from)
      end
  end.

(** [s.match(re)]. *)
Definition String_match (s : string) (pat : list Node) : option MatchArray :=
  exec_from pat s 0.

(** A continuation that backtracking cannot rescue: it always succeeds,
    or it fails on whatever starts with a character of the loop. *)
Definition settled (p : ascii -> bool) (rest : string -> option string) : Prop :=
  (forall s, rest s <> None) \/
  (forall c s, p c = true -> rest (String c s) = None).

(** The longest prefix of characters satisfying [p], and what follows. *)
Fixpoint span (p : ascii -> bool) (s : string) : string * string :=
  match s with
  | String c s' =>
      if p c then let (ds, t) := span p s' in (String c ds, t)
      else (EmptyString, s)
  | EmptyString => (EmptyString, EmptyString)
  end.

(** [/(\d+\.\d+\.\d+)/] *)
Definition version_re : list Node :=
  [OneOrMore Digit; One (Lit "."); OneOrMore Digit; One (Lit ".");
   OneOrMore Digit].

End RegExp.

(* ================================================================== *)
(** * The claude-code-router helper (isCcrInstalled, getCcrVersion,
      installCcr, startCcrService) *)

Module Ccr.

(** What one run of a shell command does: how long the subprocess lives
    (in ms; [None] when it never exits) and what [exec] reports when it
    closes, an error (command not found, non-zero exit) or its stdout. *)
Record Process : Type :=
  { lifetime : option N;
    result : Js.Error + string }.

(** The machine outside the program: the behaviour of a command, given
    the commands spawned before it. *)
Definition Shell : Type := list string -> string -> Process.

Record Child : Type :=
  { command : string;
    started : N;
    exits : option N }.     (* absolute time at which it closes *)

(** The event loop as far as these functions use it: a clock, the
    subprocesses spawned so far, the [exec] callbacks not yet run (each
    with its due time and the console lines it prints), the console. *)
Record World : Type :=
  { clock : N;
    children : list Child;
    pending : list (N * list Js.Line);
    console : list Js.Line }.

Definition Async (A : Type) : Type := Eff.t World Js.Error A.

(** The strings of [I18N[lang]] these functions print. *)
Record Messages : Type :=
  { ccrAlreadyInstalled : string;
    installingCcr : string;
    ccrInstallSuccess : string;
    ccrInstallFailed : string;
    failedToStartCcrService : string;
    errorStartingCcrService : string }.

(** Callbacks are kept in the order in which they fall due. *)
Fixpoint schedule (due : N) (lines : list Js.Line)
  (q : list (N * list Js.Line)) : list (N * list Js.Line) :=
  match q with
  | [] => [(due, lines)]
  | (d, ls) :: q' =>
      if (due <? d)%N then (due, lines) :: q
      else (d, ls) :: schedule due lines q'
  end.

(** The callbacks due by time [t], run in order, and those left. *)
Fixpoint fire (t : N) (q : list (N * list Js.Line))
  : list Js.Line * list (N * list Js.Line) :=
  match q with
  | [] => ([], [])
  | (d, ls) :: q' =>
      if (d <=? t)%N
      then let (out, left) := fire t q' in ((ls ++ out)%list, left)
      else ([], q)
  end.

(** The program waits until time [t]; callbacks due by then run. *)
Definition advance (t : N) (w : World) : World :=
  let (out, left) := fire t (pending w) in
  {| clock := t;
     children := children w;
     pending := left;
     console := (console w ++ out)%list |}.

Definition history (w : World) : list string := map command (children w).

Definition print (l : Js.Line) : Async unit :=
  Eff.modify (fun w =>
    {| clock := clock w;
       children := children w;
       pending := pending w;
       console := (console w ++ [l])%list |}).

Definition error_of (r : Js.Error + string) : option Js.Error :=
  match r with
  | inl e => Some e
  | inr _ => None
  end.

Section WithHost.

Variable shell : Shell.
Variable I18N : SupportedLang -> Messages.
Variable ansis : Js.Colour -> string -> string.

(** [exec(cmd, callback)]: spawns the subprocess and returns at once;
    the callback runs when the subprocess closes. [callback] gives the
    console lines the callback prints for its [error] argument. *)
Definition exec (cmd : string)
  (callback : option Js.Error -> list Js.Line) : Async unit :=
  Eff.modify (fun w =>
    let p := shell (history w) cmd in
    let close := option_map (N.add (clock w)) (lifetime p) in
    {| clock := clock w;
       children := (children w ++
         [{| command := cmd; started := clock w; exits := close |}])%list;
       pending :=
         match close with
         | Some t => schedule t (callback (error_of (result p))) (pending w)
         | None => pending w
         end;
       console := console w |}).

(** [await execAsync(cmd)] with [execAsync = promisify(exec)]: spawns
    the subprocess and resumes when it has closed, with its stdout or
    with the error thrown; never resumes if the subprocess never
    closes. *)
Definition execAsync (cmd : string) : Async string :=
  fun w =>
    let p := shell (history w) cmd in
    match lifetime p with
    | None => None
    | Some d =>
        let t := (clock w + d)%N in
        let w1 :=
          {| clock := clock w;
             children := (children w ++
               [{| command := cmd; started := clock w; exits := Some t |}])%list;
             pending := pending w;
             console := console w |} in
        match result p with
        | inr stdout => Some (Eff.Returns stdout, advance t w1)
        | inl e => Some (Eff.Throws e, advance t w1)
        end
    end.

(** [await new Promise(resolve => setTimeout(resolve, ms))]. *)
Definition sleep (ms : N) : Async unit :=
  Eff.modify (fun w => advance (clock w + ms)%N w).

Definition isCcrInstalled : Async bool :=
  Eff.try_catch
    (_ <- execAsync "ccr version" ;;
     Eff.ret true)%eff
    (fun _ =>
       Eff.try_catch
         (_ <- execAsync "which ccr" ;;
          Eff.ret true)%eff
         (fun _ => Eff.ret false)).

Definition getCcrVersion : Async (option string) :=
  Eff.try_catch
    (stdout <- execAsync "ccr version" ;;
     let m := RegExp.String_match stdout RegExp.version_re in
     Eff.ret (option_map RegExp.group1 m))%eff
    (fun _ => Eff.ret None).

(** [error.message?.includes('EEXIST')], used as a condition. *)
Definition message_includes (error : Js.Error) (sub : string) : bool :=
  match Js.message error with
  | Some m => Js.includes m sub
  | None => false
  end.

Definition installCcr (scriptLang : SupportedLang) : Async unit :=
  let i18n := I18N scriptLang in
  (installed <- isCcrInstalled ;;
   if installed : bool then
     print (Js.Log [Js.Str (ansis Js.green ("✔ " ++ ccrAlreadyInstalled i18n))])
   else
     print (Js.Log [Js.Str (ansis Js.cyan ("📦 " ++ installingCcr i18n))]) ;;;
     Eff.try_catch
       (_ <- execAsync "npm install -g claude-code-router --force" ;;
        print (Js.Log [Js.Str (ansis Js.green ("✔ " ++ ccrInstallSuccess i18n))]))
       (fun error =>
          if message_includes error "EEXIST" then
            print (Js.Log [Js.Str (ansis Js.yellow ("⚠ " ++ ccrAlreadyInstalled i18n))])
          else
            print (Js.Err [Js.Str (ansis Js.red ("✖ " ++ ccrInstallFailed i18n))]) ;;;
            Eff.throw error))%eff.

(** [exec] reports a failure to spawn through its callback and does not
    throw, so the [catch] of the source is never entered; it is kept as
    the handler of a body that cannot throw. *)
Definition startCcrService (scriptLang : option SupportedLang) : Async unit :=
  let lang := match scriptLang with Some l => l | None => zh_CN end in
  let i18n := I18N lang in
  Eff.try_catch
    (exec "ccr"
       (fun error =>
          match error with
          | Some e =>
              [Js.Err [Js.Str (ansis Js.red (failedToStartCcrService i18n ++ ":"));
                       Js.Obj e]]
          | None => []
          end) ;;;
     sleep 2000)%eff
    (fun error =>
       print (Js.Err [Js.Str (ansis Js.red (errorStartingCcrService i18n ++ ":"));
                      Js.Obj error])).

End WithHost.

(** The commands spawned between two worlds of one run. *)
Definition spawned (w w' : World) : list string :=
  skipn (length (children w)) (history w').

(** Has this subprocess closed by the time the clock shows? *)
Definition closed_by (t : N) (c : Child) : bool :=
  match exits c with
  | Some x => (x <=? t)%N
  | None => false
  end.

(** The subprocesses still running in a world. *)
Definition running (w : World) : list Child :=
  filter (fun c => negb (closed_by (clock w) c)) (children w).

Definition boot : World :=
  {| clock := 0; children := []; pending := []; console := [] |}.

End Ccr.

(* ================================================================== *)
(** * src/cli-setup.ts *)

Module CliOptions.
(** [interface CliOptions]: every field is optional. *)
Record t : Type :=
  { init : option bool;
    lang : option string;
    configLang : option string;
    aiOutputLang : option string;
    force : option bool;
    skipPrompt : option bool;
    installClaude : option string;
    configAction : option string;
    apiType : option string;
    apiKey : option string;
    authToken : option string;
    apiUrl : option string;
    mcpServices : option string;
    mcpApiKeys : option string;
    workflows : option string;
    aiPersonality : option string }.

(** The options object of an invocation that passes no flag. *)
Definition none : t :=
  {| init := None; lang := None; configLang := None; aiOutputLang := None;
     force := None; skipPrompt := None; installClaude := None;
     configAction := None; apiType := None; apiKey := None;
     authToken := None; apiUrl := None; mcpServices := None;
     mcpApiKeys := None; workflows := None; aiPersonality := None |}.
End CliOptions.

Module InitOptions.
(** The object literal passed to [init]; a key left out is undefined. *)
Record t : Type :=
  { lang : option string;
    configLang : option string;
    aiOutputLang : option string;
    force : option bool;
    skipPrompt : option bool;
    installClaude : option string;
    configAction : option string;
    apiType : option string;
    apiKey : option string;
    authToken : option string;
    apiUrl : option string;
    mcpServices : option string;
    mcpApiKeys : option string;
    workflows : option string;
    aiPersonality : option string }.
End InitOptions.

Module Cli.

(** The one call into the command modules that a handler awaits. *)
Inductive Call : Type :=
| init (options : InitOptions.t)
| showMainMenu
| update (configLang : option string)
| ccr (lang : option string)
| executeCcusage (args : list string)
| checkUpdates (lang : option string).

Definition handleDefaultCommand (lang : option string) (options : CliOptions.t)
  : Call :=
  if Js.truthy_flag (CliOptions.init options) then
    (* Backward compatibility: run init directly *)
    init {| InitOptions.lang := Js.or_opt lang (CliOptions.lang options);
            InitOptions.configLang := CliOptions.configLang options;
            InitOptions.aiOutputLang := None;
            InitOptions.force := CliOptions.force options;
            InitOptions.skipPrompt := None;
            InitOptions.installClaude := None;
            InitOptions.configAction := None;
            InitOptions.apiType := None;
            InitOptions.apiKey := None;
            InitOptions.authToken := None;
            InitOptions.apiUrl := None;
            InitOptions.mcpServices := None;
            InitOptions.mcpApiKeys := None;
            InitOptions.workflows := None;
            InitOptions.aiPersonality := None |}
  else
    (* Show menu by default *)
    showMainMenu.

Definition handleInitCommand (options : CliOptions.t) : Call :=
  init {| InitOptions.lang := CliOptions.lang options;
          InitOptions.configLang := CliOptions.configLang options;
          InitOptions.aiOutputLang := CliOptions.aiOutputLang options;
          InitOptions.force := CliOptions.force options;
          InitOptions.skipPrompt := CliOptions.skipPrompt options;
          InitOptions.installClaude := CliOptions.installClaude options;
          InitOptions.configAction := CliOptions.configAction options;
          InitOptions.apiType := CliOptions.apiType options;
          InitOptions.apiKey := CliOptions.apiKey options;
          InitOptions.authToken := CliOptions.authToken options;
          InitOptions.apiUrl := CliOptions.apiUrl options;
          InitOptions.mcpServices := CliOptions.mcpServices options;
          InitOptions.mcpApiKeys := CliOptions.mcpApiKeys options;
          InitOptions.workflows := CliOptions.workflows options;
          InitOptions.aiPersonality := CliOptions.aiPersonality options |}.

Definition handleUpdateCommand (options : CliOptions.t) : Call :=
  update (CliOptions.configLang options).

(** A command as [cli.command(rawName, description)] registers it, with
    its aliases and its action. The action receives the arguments left
    after the command name and the parsed options. *)
Record Command : Type :=
  { rawName : string;
    description : string;
    aliasNames : list string;
    options : list string;            (* the raw names of its options *)
    allowUnknown : bool;              (* [.allowUnknownOptions()] *)
    action : list string -> CliOptions.t -> Call }.

Definition setupCommands : list Command :=
  [ (* Default command - show menu *)
    {| rawName := "[lang]";
       description := "Show interactive menu (default)";
       aliasNames := [];
       options := ["--init"; "--config-lang, -c <lang>"; "--force, -f"];
       allowUnknown := false;
       action := fun args options => handleDefaultCommand (hd_error args) options |};
    (* Init command *)
    {| rawName := "init";
       description := "Initialize Claude Code configuration";
       aliasNames := ["i"];
       options := ["--lang, -l <lang>"; "--config-lang, -c <lang>";
                   "--ai-output-lang, -a <lang>"; "--force, -f"; "--skip-prompt";
                   "--install-claude <choice>"; "--config-action <action>";
                   "--api-type <type>"; "--api-key <key>"; "--auth-token <token>";
                   "--api-url <url>"; "--mcp-services <services>";
                   "--mcp-api-keys <json>"; "--workflows <workflows>";
                   "--ai-personality <type>"];
       allowUnknown := false;
       action := fun _ options => handleInitCommand options |};
    (* Update command *)
    {| rawName := "update";
       description := "Update Claude Code prompts only";
       aliasNames := ["u"];
       options := ["--config-lang, -c <lang>"];
       allowUnknown := false;
       action := fun _ options => handleUpdateCommand options |};
    (* CCR command - Configure Claude Code Router *)
    {| rawName := "ccr";
       description := "Configure Claude Code Router for model proxy";
       aliasNames := [];
       options := ["--lang, -l <lang>"];
       allowUnknown := false;
       action := fun _ options => ccr (CliOptions.lang options) |};
    (* CCU command - Claude Code usage analysis *)
    {| rawName := "ccu [...args]";
       description := "Run Claude Code usage analysis tool";
       aliasNames := [];
       options := [];
       allowUnknown := true;
       action := fun args _ => executeCcusage args |};
    (* Check updates command *)
    {| rawName := "check-updates";
       description := "Check and update Claude Code and CCR to latest versions";
       aliasNames := ["check"];
       options := ["--lang, -l <lang>"];
       allowUnknown := false;
       action := fun _ options => checkUpdates (CliOptions.lang options) |} ].

(** ** The dispatch of the cac library, as far as [setupCommands] relies
    on it *)

Definition is_space (c : ascii) : bool := Ascii.eqb c " ".

(** Trailing spaces removed (the names here have no leading ones). *)
Fixpoint trim_end (s : string) : string :=
  match s with
  | EmptyString => EmptyString
  | String c s' =>
      match trim_end s' with
      | EmptyString => if is_space c then EmptyString else String c EmptyString
      | t => String c t
      end
  end.

(** The text before the first [<] or [[] that something follows. *)
Fixpoint before_bracket (s : string) : string :=
  match s with
  | EmptyString => EmptyString
  | String c s' =>
      if (Ascii.eqb c "<" || Ascii.eqb c "[") && Js.truthy s'
      then EmptyString
      else String c (before_bracket s')
  end.

(** [removeBrackets]: the name of a command is its raw name without the
    argument brackets; the default command ["[lang]"] has the empty name. *)
Definition removeBrackets (v : string) : string := trim_end (before_bracket v).

Definition name (c : Command) : string := removeBrackets (rawName c).

Definition isMatched (c : Command) (arg : option string) : bool :=
  match arg with
  | Some a => String.eqb (name c) a || existsb (String.eqb a) (aliasNames c)
  | None => false
  end.

(** The command an invocation selects: the registered command that the
    first argument names (the last one, if several do), otherwise the
    command with the empty name; with the arguments its action gets. *)
Definition matched (cli : list Command) (args : list string)
  : option (Command * list string) :=
  match rev (filter (fun c => isMatched c (hd_error args)) cli) with
  | c :: _ => Some (c, tl args)
  | [] =>
      match rev (filter (fun c => String.eqb (name c) EmptyString) cli) with
      | c :: _ => Some (c, args)
      | [] => None
      end
  end.

(** ** The options a command accepts

    Before it runs the action of the selected command, cac checks the
    options of the command line against those the command declares
    ([checkUnknownOptions]) and throws for one that is not declared;
    no action runs then. *)

Definition is_lower (c : ascii) : bool :=
  (97 <=? nat_of_ascii c)%nat && (nat_of_ascii c <=? 122)%nat.

Definition to_upper (c : ascii) : ascii :=
  if is_lower c then ascii_of_nat (nat_of_ascii c - 32) else c.

(** [camelcase]:
    [input.replace(/([a-z])-([a-z])/g, (_, p1, p2) => p1 + p2.toUpperCase())]. *)
Fixpoint camelcase (s : string) : string :=
  match s with
  | EmptyString => EmptyString
  | String x t =>
      match t with
      | String d (String y s') =>
          if is_lower x && Ascii.eqb d "-" && is_lower y
          then String x (String (to_upper y) (camelcase s'))
          else String x (camelcase t)
      | _ => String x (camelcase t)
      end
  end.

(** [s.split(',')]. *)
Fixpoint split_comma (s : string) : list string :=
  match s with
  | EmptyString => [EmptyString]
  | String c s' =>
      if Ascii.eqb c ","
      then EmptyString :: split_comma s'
      else match split_comma s' with
           | h :: t => String c h :: t
           | [] => [String c EmptyString]
           end
  end.

Fixpoint trim_start (s : string) : string :=
  match s with
  | String c s' => if is_space c then trim_start s' else s
  | EmptyString => EmptyString
  end.

Definition trim (s : string) : string := trim_end (trim_start s).

(** [name.replace(/^-{1,2}/, "")]. *)
Definition strip_dashes (s : string) : string :=
  match s with
  | String d (String e s') =>
      if Ascii.eqb d "-"
      then if Ascii.eqb e "-" then s' else String e s'
      else s
  | String d EmptyString => if Ascii.eqb d "-" then EmptyString else s
  | EmptyString => EmptyString
  end.

(** A negated option [--no-x] is declared under the name [x]. *)
Definition strip_no (s : string) : string :=
  match s with
  | String n (String o (String d s')) =>
      if Ascii.eqb n "n" && Ascii.eqb o "o" && Ascii.eqb d "-" then s' else s
  | _ => s
  end.

(** The names under which an option registered as [raw] is known:
    ["--config-lang, -c <lang>"] is known as [configLang] and [c]. *)
Definition option_names (raw : string) : list string :=
  map (fun v => camelcase (strip_no (strip_dashes (trim v))))
      (split_comma (removeBrackets raw)).

(** [name.split(".")[0]]. *)
Fixpoint before_dot (s : string) : string :=
  match s with
  | EmptyString => EmptyString
  | String c s' => if Ascii.eqb c "." then EmptyString else String c (before_dot s')
  end.

Definition hasOption (c : Command) (given_name : string) : bool :=
  existsb (fun raw => existsb (String.eqb (before_dot given_name)) (option_names raw))
          (options c).

(** The options of the global command: [cli.help(...)] registers
    ["-h, --help"] and [cli.version(version)] registers ["-v, --version"]. *)
Definition global_options : list string := ["-h, --help"; "-v, --version"].

Definition isGlobal (given_name : string) : bool :=
  existsb (fun raw => existsb (String.eqb (before_dot given_name)) (option_names raw))
          global_options.

Definition key {A : Type} (k : string) (v : option A) : list string :=
  match v with
  | Some _ => [k]
  | None => []
  end.

(** [Object.keys(options)], as far as [CliOptions] names them: the
    options the command line sets. *)
Definition given (o : CliOptions.t) : list string :=
  (key "init" (CliOptions.init o) ++ key "lang" (CliOptions.lang o) ++
   key "configLang" (CliOptions.configLang o) ++
   key "aiOutputLang" (CliOptions.aiOutputLang o) ++
   key "force" (CliOptions.force o) ++
   key "skipPrompt" (CliOptions.skipPrompt o) ++
   key "installClaude" (CliOptions.installClaude o) ++
   key "configAction" (CliOptions.configAction o) ++
   key "apiType" (CliOptions.apiType o) ++ key "apiKey" (CliOptions.apiKey o) ++
   key "authToken" (CliOptions.authToken o) ++ key "apiUrl" (CliOptions.apiUrl o) ++
   key "mcpServices" (CliOptions.mcpServices o) ++
   key "mcpApiKeys" (CliOptions.mcpApiKeys o) ++
   key "workflows" (CliOptions.workflows o) ++
   key "aiPersonality" (CliOptions.aiPersonality o))%list.

(** The options given that the command does not accept; cac throws
    [Unknown option] for the first of them on the command line. *)
Definition unknown_options (c : Command) (o : CliOptions.t) : list string :=
  if allowUnknown c then []
  else filter (fun k => negb (hasOption c k) && negb (isGlobal k)) (given o).

(** What an invocation comes to. *)
Inductive Dispatch : Type :=
| Runs (call : Call)                  (* the action of the selected command *)
| Rejects (unknown : list string)     (* cac throws, no action runs *)
| Nothing.                            (* no command is selected *)

(** The options of an invocation that the command it selects does not
    accept. *)
Definition undeclared (cli : list Command) (args : list string)
  (o : CliOptions.t) : list string :=
  match matched cli args with
  | Some (c, _) => unknown_options c o
  | None => []
  end.

(** [cli.parse()] on the positional arguments and options of the command
    line: the selected command is checked against the options given, and
    its action runs if it accepts them all. *)
Definition parse (cli : list Command) (args : list string)
  (o : CliOptions.t) : Dispatch :=
  match matched cli args with
  | Some (c, rest) =>
      match unknown_options c o with
      | [] => Runs (action c rest o)
      | unknown => Rejects unknown
      end
  | None => Nothing
  end.

End Cli.

(* ================================================================== *)
(** * src/utils/ai-personality.ts *)

Module Choice.
(** A choice of a list prompt. *)
Record t : Type := { name : string; value : string; short : string }.
End Choice.

Module Translation.
(** The strings of the translation table that ai-personality.ts prints
    ([i18n.configuration.*] and [i18n.common.cancelled]). The ones the
    source guards with [|| 'fallback'] may be missing. *)
Record t : Type :=
  { existingPersonality : option string;
    currentPersonality : option string;
    modifyPersonality : option string;
    keepPersonality : option string;
    selectAiPersonality : option string;
    customPersonalityHint : option string;
    enterCustomPersonality : option string;
    personalityConfigured : option string;
    failedToApplyPersonality : option string;
    directiveCannotBeEmpty : string;
    cancelled : string }.
End Translation.

Module Personality.

(** A text in the two languages, indexed by [SupportedLang]. *)
Record Localized : Type := { zh : string; en_ : string }.

Definition at_lang (l : Localized) (lang : SupportedLang) : string :=
  match lang with
  | zh_CN => zh l
  | en => en_ l
  end.

Record AiPersonality : Type :=
  { id : string;
    name : Localized;
    directive : Localized }.

(** The double quote character. *)
Definition dq : string := String (ascii_of_nat 34) EmptyString.

Definition AI_PERSONALITIES : list AiPersonality :=
  [
    {| id := "professional";
       name := {| zh := "专业助手(默认)";
                  en_ := "Professional Assistant(Default)" |};
       directive :=
         {| zh := "你是一名经验丰富的[专业领域，例如：软件开发工程师 / 系统设计师 / 代码架构师]，专注于构建[核心特长，例如：高性能 / 可维护 / 健壮 / 领域驱动]的解决方案。";
            en_ := "You are an experienced [professional domain, e.g., Software Development Engineer / System Designer / Code Architect], specializing in building [core strengths, e.g., high-performance / maintainable / robust / domain-driven] solutions." |} |};
    {| id := "catgirl";
       name := {| zh := "猫娘助手";
                  en_ := "Catgirl Assistant" |};
       directive :=
         {| zh := "你是一位可爱的猫娘编程助手喵~ 在保持专业的同时，会适当地使用" ++ dq ++ "喵" ++ dq ++ "、" ++ dq ++ "nya" ++ dq ++ "等语气词，让对话更加轻松愉快喵~";
            en_ := "You are a cute catgirl programming assistant nya~ While maintaining professionalism, you occasionally use " ++ dq ++ "nya" ++ dq ++ ", " ++ dq ++ "meow" ++ dq ++ " and similar expressions to make conversations more enjoyable nya~" |} |};
    {| id := "friendly";
       name := {| zh := "友好助手";
                  en_ := "Friendly Assistant" |};
       directive :=
         {| zh := "你是一位友好、耐心、善于解释的编程助手。会用通俗易懂的方式解释复杂概念，并经常给予鼓励。";
            en_ := "You are a friendly, patient, and explanatory programming assistant. You explain complex concepts in easy-to-understand ways and often provide encouragement." |} |};
    {| id := "mentor";
       name := {| zh := "导师模式";
                  en_ := "Mentor Mode" |};
       directive :=
         {| zh := "你是一位经验丰富的编程导师。不仅提供解决方案，还会解释背后的原理，引导用户思考，培养独立解决问题的能力。";
            en_ := "You are an experienced programming mentor. You not only provide solutions but also explain the principles behind them, guide users to think, and cultivate their ability to solve problems independently." |} |};
    {| id := "custom";
       name := {| zh := "自定义";
                  en_ := "Custom" |};
       directive :=
         {| zh := EmptyString;
            en_ := EmptyString |} |} ].

(** The persisted record. Its type is declared in ./zcf-config, which is
    not among the sources; the fields are those the specification lists,
    each of which may be missing. *)
Record ZcfConfig : Type :=
  { preferredLang : option SupportedLang;
    configLang : option SupportedLang;
    aiPersonality : option string }.

(** What a [validate] function returns: [true], or the message shown
    with the question asked again. *)
Inductive Validation : Type :=
| Valid
| Invalid (message : string).

(** The questions handed to [inquirer.prompt]. *)
Inductive Question : Type :=
| Confirm (name message : string) (default : bool)
| List (name message : string) (choices : list Choice.t) (default : Z)
| Input (name message : string) (validate : string -> Validation).

(** The person at the terminal: the answer to a confirmation, the value
    selected in a list, and the lines typed at a free-text question, in
    order, until one passes validation. *)
Record User : Type :=
  { confirms : Question -> bool;
    selects : Question -> string;
    types : Question -> list string }.

(** What the file imports and what surrounds the program. *)
Record Host : Type :=
  { getTranslation : SupportedLang -> Translation.t;
    ansis : Js.Colour -> string -> string;
    addNumbersToChoices : list Choice.t -> list Choice.t;
    CLAUDE_DIR : string;
    join : string -> string -> string;
    user : User;
    (* the error a write to a path fails with, if it fails *)
    io_fault : string -> option Js.Error }.

Record World : Type :=
  { config : option ZcfConfig;
    files : list (string * string);     (* path and content, newest first *)
    asked : list Question;
    console : list Js.Line }.

Definition M (A : Type) : Type := Eff.t World Js.Error A.

Definition print (l : Js.Line) : M unit :=
  Eff.modify (fun w =>
    {| config := config w; files := files w; asked := asked w;
       console := (console w ++ [l])%list |}).

Definition record_question (q : Question) : M unit :=
  Eff.modify (fun w =>
    {| config := config w; files := files w;
       asked := (asked w ++ [q])%list; console := console w |}).

(** The content of a file. *)
Fixpoint read_file (fs : list (string * string)) (path : string) : option string :=
  match fs with
  | [] => None
  | (p, c) :: fs' => if String.eqb p path then Some c else read_file fs' path
  end.

(** Modelled from the spec: [readZcfConfig] of ./zcf-config is not among
    the sources. The record is persisted as one file per user profile and
    its absence means unconfigured; reading it returns the record or
    null. *)
Definition readZcfConfig : M (option ZcfConfig) := Eff.gets config.

(** A field of the update, when given, replaces the field of the record. *)
Definition given {A : Type} (update old : option A) : option A :=
  match update with
  | Some _ => update
  | None => old
  end.

(** Modelled from the spec: [updateZcfConfig] of ./zcf-config is not
    among the sources. The record is overwritten whenever a setting
    changes and the last write wins: the fields given replace those of
    the record, the fields not given keep their value, and a record is
    created when there was none. *)
Definition updateZcfConfig (updates : ZcfConfig) : M unit :=
  Eff.modify (fun w =>
    let old :=
      match config w with
      | Some c => c
      | None => {| preferredLang := None; configLang := None;
                   aiPersonality := None |}
      end in
    {| config :=
         Some {| preferredLang := given (preferredLang updates) (preferredLang old);
                 configLang := given (configLang updates) (configLang old);
                 aiPersonality := given (aiPersonality updates) (aiPersonality old) |};
       files := files w; asked := asked w; console := console w |}).

Section WithHost.

Variable host : Host.

(** Modelled from the spec: [writeFile] of ./fs-operations is not among
    the sources. A write replaces the content of the file, or fails
    with the I/O error of the file system (permissions, disk full),
    which is thrown and leaves the file as it was. *)
Definition writeFile (path content : string) : M unit :=
  match io_fault host path with
  | Some e => Eff.throw e
  | None =>
      Eff.modify (fun w =>
        {| config := config w; files := (path, content) :: files w;
           asked := asked w; console := console w |})
  end.

(** [await inquirer.prompt({ type: 'confirm', ... })]. *)
Definition prompt_confirm (q : Question) : M bool :=
  (record_question q ;;; Eff.ret (confirms (user host) q))%eff.

(** [await inquirer.prompt({ type: 'list', ... })]. *)
Definition prompt_list (q : Question) : M string :=
  (record_question q ;;; Eff.ret (selects (user host) q))%eff.

(** The first line typed that [validate] answers [true] to. *)
Fixpoint first_valid (validate : string -> Validation) (typed : list string)
  : option string :=
  match typed with
  | [] => None
  | v :: typed' =>
      match validate v with
      | Valid => Some v
      | Invalid _ => first_valid validate typed'
      end
  end.

(** The [validate] of a question; a question without one accepts every
    answer. *)
Definition validate_of (q : Question) : string -> Validation :=
  match q with
  | Input _ _ validate => validate
  | _ => fun _ => Valid
  end.

(** [await inquirer.prompt({ type: 'input', validate, ... })]: the
    question is asked again until a line passes [validate]; the prompt
    does not settle while none does. *)
Definition prompt_input (q : Question) : M string :=
  (record_question q ;;;
   match first_valid (validate_of q) (types (user host) q) with
   | Some v => Eff.ret v
   | None => Eff.never
   end)%eff.

Definition hasExistingPersonality : M bool :=
  (config <- readZcfConfig ;;
   Eff.ret (Js.truthy_opt (match config with
                           | Some c => aiPersonality c
                           | None => None
                           end)))%eff.

Definition getExistingPersonality : M (option string) :=
  (config <- readZcfConfig ;;
   Eff.ret (Js.or_opt (match config with
                       | Some c => aiPersonality c
                       | None => None
                       end) None))%eff.

Definition getPersonalityInfo (personalityId : string) : option AiPersonality :=
  find (fun p => String.eqb (id p) personalityId) AI_PERSONALITIES.

(** [arr.findIndex(pred)]: the index of the first match, or -1. *)
Fixpoint findIndex {A : Type} (pred : A -> bool) (l : list A) : Z :=
  match l with
  | [] => (-1)%Z
  | x :: l' =>
      if pred x then 0%Z
      else match findIndex pred l' with
           | Z.neg _ => (-1)%Z
           | i => (i + 1)%Z
           end
  end.

Definition is_continuation (c : ascii) : bool :=
  (128 <=? nat_of_ascii c)%nat && (nat_of_ascii c <? 192)%nat.

(** [s.substring(0, n)] on the UTF-8 text of a string whose characters
    are all in the basic plane (one UTF-16 unit each), as the texts of
    the table are: the first [n] characters. *)
Fixpoint substring_0 (n : nat) (s : string) : string :=
  match s with
  | EmptyString => EmptyString
  | String c s' =>
      if is_continuation c then String c (substring_0 n s')
      else match n with
           | O => EmptyString
           | S n' => String c (substring_0 n' s')
           end
  end.

Definition applyPersonalityDirective (directive : string) : M unit :=
  Eff.try_catch
    (let personalityFile := join host (CLAUDE_DIR host) "personality.md" in
     (* Write the personality directive to personality.md *)
     writeFile personalityFile directive)
    (fun error =>
       (config <- readZcfConfig ;;
        let lang :=
          match config with
          | Some {| preferredLang := Some l |} => l
          | _ => en
          end in
        let errorI18n := getTranslation host lang in
        print (Js.Err
                 [Js.Str (ansis host Js.red
                            (Js.or_else (Translation.failedToApplyPersonality errorI18n)
                               "Failed to apply personality"));
                  Js.Obj error]))%eff).

(** The validation of the custom directive:
    [(value) => !!value || i18n.configuration.directiveCannotBeEmpty]. *)
Definition validate_directive (i18n : Translation.t) (value : string) : Validation :=
  if Js.truthy value then Valid else Invalid (Translation.directiveCannotBeEmpty i18n).

Definition personality_question (scriptLang : SupportedLang)
  (existingPersonality : option string) : Question :=
  let i18n := getTranslation host scriptLang in
  List "personality"
    (Js.or_else (Translation.selectAiPersonality i18n) "Select AI personality")
    (addNumbersToChoices host
       (map (fun p =>
               {| Choice.name :=
                    if negb (String.eqb (id p) "custom")
                    then at_lang (name p) scriptLang ++ " - " ++
                         ansis host Js.gray
                           (substring_0 50 (at_lang (directive p) scriptLang) ++ "...")
                    else at_lang (name p) scriptLang ++ " - " ++
                         ansis host Js.gray
                           (Js.or_else (Translation.customPersonalityHint i18n)
                              "Define your own personality");
                  Choice.value := id p;
                  Choice.short := at_lang (name p) scriptLang |})
          AI_PERSONALITIES))
    (match existingPersonality with
     | Some e =>
         if Js.truthy e
         then findIndex (fun p => String.eqb (id p) e) AI_PERSONALITIES
         else 0%Z
     | None => 0%Z
     end).

Definition directive_question (i18n : Translation.t) : Question :=
  Input "customDirective"
    (Js.or_else (Translation.enterCustomPersonality i18n) "Enter custom personality directive")
    (validate_directive i18n).

(** The end of [configureAiPersonality], which the source reaches with
    the directive of the personality selected: apply it, save the
    choice, report success. *)
Definition apply_and_save (scriptLang : SupportedLang)
  (personality directive : string) : M unit :=
  let i18n := getTranslation host scriptLang in
  ((* Apply personality to personality.md *)
   applyPersonalityDirective directive ;;;
   (* Save personality choice to config *)
   updateZcfConfig {| preferredLang := None; configLang := None;
                      aiPersonality := Some personality |} ;;;
   print (Js.Log [Js.Str (ansis host Js.green
            ("✔ " ++ Js.or_else (Translation.personalityConfigured i18n)
                       "AI personality configured"))]))%eff.

(** The part of [configureAiPersonality] from "Select personality" on;
    the source reaches it by falling through the block that shows the
    existing personality. A [return] of the source ends the branch it
    stands in. *)
Definition select_and_apply (scriptLang : SupportedLang)
  (existingPersonality : option string) : M unit :=
  let i18n := getTranslation host scriptLang in
  (personality <- prompt_list (personality_question scriptLang existingPersonality) ;;
   if negb (Js.truthy personality) then
     print (Js.Log [Js.Str (ansis host Js.yellow (Translation.cancelled i18n))])
   else if String.eqb personality "custom" then
     (* Ask for custom directive *)
     customDirective <- prompt_input (directive_question i18n) ;;
     if negb (Js.truthy customDirective) then
       print (Js.Log [Js.Str (ansis host Js.yellow (Translation.cancelled i18n))])
     else
       apply_and_save scriptLang personality customDirective
   else
     match find (fun p => String.eqb (id p) personality) AI_PERSONALITIES with
     | Some selected =>
         apply_and_save scriptLang personality
           (at_lang (directive selected) scriptLang)
     | None => apply_and_save scriptLang personality EmptyString
     end)%eff.

(** [showExisting] defaults to [true] when the argument is left out. *)
Definition configureAiPersonality (scriptLang : SupportedLang)
  (showExisting : option bool) : M unit :=
  let showExisting := match showExisting with Some b => b | None => true end in
  let i18n := getTranslation host scriptLang in
  (existingPersonality <- getExistingPersonality ;;
   (* Show existing personality if any *)
   if showExisting && Js.truthy_opt existingPersonality then
     match getPersonalityInfo
             (match existingPersonality with Some e => e | None => EmptyString end) with
     | Some personalityInfo =>
         print (Js.Log [Js.Str (String (ascii_of_nat 10) EmptyString ++
                  ansis host Js.blue
                    ("ℹ " ++ Js.or_else (Translation.existingPersonality i18n)
                               "Existing AI personality configuration"))]) ;;;
         print (Js.Log [Js.Str (ansis host Js.gray
                  ("  " ++ Js.or_else (Translation.currentPersonality i18n) "Current personality"
                        ++ ": " ++ at_lang (name personalityInfo) scriptLang))]) ;;;
         modify <- prompt_confirm
                     (Confirm "modify"
                        (Js.or_else (Translation.modifyPersonality i18n) "Modify AI personality?")
                        false) ;;
         if negb modify then
           print (Js.Log [Js.Str (ansis host Js.green
                    ("✔ " ++ Js.or_else (Translation.keepPersonality i18n)
                               "Keeping existing personality"))])
         else
           select_and_apply scriptLang existingPersonality
     | None => select_and_apply scriptLang existingPersonality
     end
   else
     select_and_apply scriptLang existingPersonality)%eff.

End WithHost.

(** The path [join(CLAUDE_DIR, 'personality.md')]. *)
Definition personalityFile (host : Host) : string :=
  join host (CLAUDE_DIR host) "personality.md".

(** The personality a profile has stored, as [getExistingPersonality]
    reads it. *)
Definition stored_personality (w : World) : option string :=
  Js.or_opt (match config w with
             | Some c => aiPersonality c
             | None => None
             end) None.

(** The language of the message printed when the directive cannot be
    written: [readZcfConfig()?.preferredLang || 'en']. *)
Definition error_lang (w : World) : SupportedLang :=
  match config w with
  | Some {| preferredLang := Some l |} => l
  | _ => en
  end.

(** The line printed when the directive cannot be written. *)
Definition failure_line (host : Host) (w : World) (e : Js.Error) : Js.Line :=
  Js.Err [Js.Str (ansis host Js.red
                    (Js.or_else
                       (Translation.failedToApplyPersonality
                          (getTranslation host (error_lang w)))
                       "Failed to apply personality"));
          Js.Obj e].

(** The line that reports success. *)
Definition success_line (host : Host) (lang : SupportedLang) : Js.Line :=
  Js.Log [Js.Str (ansis host Js.green
                    ("✔ " ++ Js.or_else
                               (Translation.personalityConfigured
                                  (getTranslation host lang))
                               "AI personality configured"))].

(** A fresh profile: no record, no file, nothing asked or printed. *)
Definition fresh : World :=
  {| config := None; files := []; asked := []; console := [] |}.

End Personality.

(* ================================================================== *)
(** * The configuration merge of the specification *)

Module Merge.

#[local] Set Warnings "-register-all".

(** A parsed JSON document. The fields of an object are kept in order,
    as a parsed object keeps them; a valid document has no key twice in
    one object. The merge never looks inside a number. *)
Inductive Json : Type :=
| JNull
| JBool (b : bool)
| JNumber (n : Z)
| JString (s : string)
| JArray (items : list Json)
| JObject (fields : list (string * Json)).

Fixpoint lookup (k : string) (fs : list (string * Json)) : option Json :=
  match fs with
  | [] => None
  | (k', v) :: fs' => if String.eqb k k' then Some v else lookup k fs'
  end.

(** [obj[k] = v]: the value of an existing key is replaced in place, a
    new key is added at the end. *)
Fixpoint assign (k : string) (v : Json) (fs : list (string * Json))
  : list (string * Json) :=
  match fs with
  | [] => [(k, v)]
  | (k', v') :: fs' =>
      if String.eqb k k' then (k, v) :: fs'
      else (k', v') :: assign k v fs'
  end.

Definition is_object (j : Json) : bool :=
  match j with
  | JObject _ => true
  | _ => false
  end.

Section WithPreserved.

(** The declared set of preserve-user-value fields. *)
Variable preserved : string -> bool.

(** Modelled from the spec: the merge engine ([apply] with strategy
    [merge]) is not among the sources. "For JSON configuration files,
    performs a deep structural merge - object keys present in both are
    merged recursively; array-valued keys are replaced wholesale by the
    template's value (no element-wise merge) unless a key is recognized
    as a preserve-user-value field, in which case the user's existing
    value wins"; a key only the user has stays, a key only the template
    has is added. [merge template target] is the content written. *)
Fixpoint merge (template target : Json) {struct template} : Json :=
  match template, target with
  | JObject tfs, JObject ufs =>
      JObject
        ((fix each (tfs : list (string * Json)) (acc : list (string * Json))
            {struct tfs} : list (string * Json) :=
            match tfs with
            | [] => acc
            | (k, v) :: tfs' =>
                each tfs'
                  match lookup k acc with
                  | Some u =>
                      if preserved k then acc
                      else assign k (merge v u) acc
                  | None => assign k v acc
                  end
            end) tfs ufs)
  | _, _ => template
  end.

(** The loop of [merge] over the fields of the template, on its own. *)
Fixpoint merge_fields (tfs acc : list (string * Json))
  : list (string * Json) :=
  match tfs with
  | [] => acc
  | (k, v) :: tfs' =>
      merge_fields tfs'
        match lookup k acc with
        | Some u =>
            if preserved k then acc
            else assign k (merge v u) acc
        | None => assign k v acc
        end
  end.

End WithPreserved.

(** The fields of an object ([[]] for any other value). *)
Definition fields_of (j : Json) : list (string * Json) :=
  match j with
  | JObject fs => fs
  | _ => []
  end.

(** The scenario of the specification. *)
Definition example_target : Json :=
  JObject [("apiType", JString "api_key"); ("apiKey", JString "abc");
           ("model", JString "default")].

Definition example_template : Json :=
  JObject [("apiType", JString "auth_token"); ("model", JString "opus");
           ("newField", JBool true)].

Definition example_preserved (k : string) : bool :=
  String.eqb k "apiKey" || String.eqb k "model".

Definition example_result : Json :=
  JObject [("apiType", JString "auth_token"); ("apiKey", JString "abc");
           ("model", JString "default"); ("newField", JBool true)].

(** A target and a template that both hold an object under one key. *)
Definition nested_target : Json :=
  JObject [("env", JObject [("ANTHROPIC_API_KEY", JString "abc")])].

Definition nested_template : Json :=
  JObject [("env", JObject [("ANTHROPIC_BASE_URL", JString "https://api.example")])].

End Merge.

(* ================================================================== *)
(** * Concrete machines, hosts and users *)

Module Scenario.

(** A machine without the router, where every command fails after 5 ms
    with "command not found". *)
Definition absent : Ccr.Shell :=
  fun _ _ =>
    {| Ccr.lifetime := Some 5%N;
       Ccr.result := inl {| Js.message := Some "/bin/sh: 1: ccr: not found" |} |}.

(** A machine with the router installed: [ccr version] prints its
    version, and [ccr] itself is a service that does not exit. *)
Definition installed : Ccr.Shell :=
  fun _ cmd =>
    if String.eqb cmd "ccr" then
      {| Ccr.lifetime := None; Ccr.result := inr EmptyString |}
    else
      {| Ccr.lifetime := Some 40%N;
         Ccr.result := inr "claude-code-router version: 1.0.43" |}.

(** A machine where the probes fail and the package manager fails with
    the given message. *)
Definition npm_fails (msg : string) : Ccr.Shell :=
  fun _ cmd =>
    if String.eqb cmd "npm install -g claude-code-router --force" then
      {| Ccr.lifetime := Some 900%N;
         Ccr.result := inl {| Js.message := Some msg |} |}
    else
      {| Ccr.lifetime := Some 5%N;
         Ccr.result := inl {| Js.message := Some "not found" |} |}.

Definition messages (lang : SupportedLang) : Ccr.Messages :=
  match lang with
  | en =>
      {| Ccr.ccrAlreadyInstalled := "CCR is already installed";
         Ccr.installingCcr := "Installing CCR";
         Ccr.ccrInstallSuccess := "CCR installed";
         Ccr.ccrInstallFailed := "Failed to install CCR";
         Ccr.failedToStartCcrService := "Failed to start CCR service";
         Ccr.errorStartingCcrService := "Error starting CCR service" |}
  | zh_CN =>
      {| Ccr.ccrAlreadyInstalled := "CCR 已安装";
         Ccr.installingCcr := "正在安装 CCR";
         Ccr.ccrInstallSuccess := "CCR 安装成功";
         Ccr.ccrInstallFailed := "CCR 安装失败";
         Ccr.failedToStartCcrService := "启动 CCR 服务失败";
         Ccr.errorStartingCcrService := "启动 CCR 服务出错" |}
  end.

(** A terminal without colour support: the text is left as it is. *)
Definition plain (_ : Js.Colour) (s : string) : string := s.


Definition translation (lang : SupportedLang) : Translation.t :=
  match lang with
  | en =>
      {| Translation.existingPersonality := Some "Existing AI personality configuration";
         Translation.currentPersonality := Some "Current personality";
         Translation.modifyPersonality := Some "Modify AI personality?";
         Translation.keepPersonality := Some "Keeping existing personality";
         Translation.selectAiPersonality := Some "Select AI personality";
         Translation.customPersonalityHint := Some "Define your own personality";
         Translation.enterCustomPersonality := Some "Enter custom personality directive";
         Translation.personalityConfigured := Some "AI personality configured";
         Translation.failedToApplyPersonality := Some "Failed to apply personality";
         Translation.directiveCannotBeEmpty := "Directive cannot be empty";
         Translation.cancelled := "Operation cancelled" |}
  | zh_CN =>
      {| Translation.existingPersonality := None;
         Translation.currentPersonality := None;
         Translation.modifyPersonality := None;
         Translation.keepPersonality := None;
         Translation.selectAiPersonality := None;
         Translation.customPersonalityHint := None;
         Translation.enterCustomPersonality := None;
         Translation.personalityConfigured := None;
         Translation.failedToApplyPersonality := None;
         Translation.directiveCannotBeEmpty := "指令不能为空";
         Translation.cancelled := "操作已取消" |}
  end.

(** The value of the choice at the default position of a list question. *)
Definition default_value (q : Personality.Question) : string :=
  match q with
  | Personality.List _ _ choices default =>
      match nth_error choices (Z.to_nat default) with
      | Some c => Choice.value c
      | None => EmptyString
      end
  | _ => EmptyString
  end.

(** A user who presses Enter at every question: accepts the default of a
    confirmation and of a list, and types nothing. *)
Definition presses_enter : Personality.User :=
  {| Personality.confirms :=
       fun q => match q with
                | Personality.Confirm _ _ default => default
                | _ => false
                end;
     Personality.selects := default_value;
     Personality.types := fun _ => [] |}.

(** A user who selects the custom personality and types the given lines. *)
Definition types_custom (lines : list string) : Personality.User :=
  {| Personality.confirms := fun _ => true;
     Personality.selects := fun _ => "custom";
     Personality.types := fun _ => lines |}.

(** A host whose configuration directory is writable or not. *)
Definition host (u : Personality.User) (fault : option Js.Error)
  : Personality.Host :=
  {| Personality.getTranslation := translation;
     Personality.ansis := plain;
     Personality.addNumbersToChoices := fun cs => cs;
     Personality.CLAUDE_DIR := "/home/user/.claude";
     Personality.join := fun a b => a ++ "/" ++ b;
     Personality.user := u;
     Personality.io_fault := fun _ => fault |}.

Definition read_only : Js.Error :=
  {| Js.message := Some "EACCES: permission denied, open '/home/user/.claude/personality.md'" |}.

End Scenario.

(* ================================================================== *)
(** * The words of the specification, as definitions of their own *)

Module Spec.

(** The ten decimal digits. *)
Definition decimal : list ascii :=
  ["0"; "1"; "2"; "3"; "4"; "5"; "6"; "7"; "8"; "9"]%char.

Fixpoint chars (s : string) : list ascii :=
  match s with
  | EmptyString => []
  | String c s' => c :: chars s'
  end.

(** A non-empty run of decimal digits. *)
Definition digits (s : string) : Prop :=
  s <> EmptyString /\ forall c, In c (chars s) -> In c decimal.

(** The dotted-numeric version pattern: digits.digits.digits *)
Definition dotted_version (v : string) : Prop :=
  exists a b c, digits a /\ digits b /\ digits c /\
                v = a ++ "." ++ b ++ "." ++ c.

(** [v] is the substring of [s] that starts at position [i]. *)
Definition occurs_at (i : nat) (v s : string) : Prop :=
  exists pre post, s = pre ++ v ++ post /\ String.length pre = i.

(** [r] is the first substring of [s] matching the version pattern (the
    match that starts leftmost and, from there, extends furthest), or
    [None] when no substring of [s] matches. *)
Definition first_version (s : string) (r : option string) : Prop :=
  match r with
  | Some v =>
      exists i,
        occurs_at i v s /\ dotted_version v /\
        forall j v', occurs_at j v' s -> dotted_version v' ->
                     i <= j /\ (j = i -> String.length v' <= String.length v)
  | None => forall j v', occurs_at j v' s -> ~ dotted_version v'
  end.

End Spec.

(* ================================================================== *)
(** * The lines the router helper prints *)

Module CcrOutput.

Section WithHost.

Variable I18N : SupportedLang -> Ccr.Messages.
Variable ansis : Js.Colour -> string -> string.
Variable lang : SupportedLang.

(** The line of [installCcr] when the router is found installed. *)
Definition already : Js.Line :=
  Js.Log [Js.Str (ansis Js.green ("✔ " ++ Ccr.ccrAlreadyInstalled (I18N lang)))].

Definition installing : Js.Line :=
  Js.Log [Js.Str (ansis Js.cyan ("📦 " ++ Ccr.installingCcr (I18N lang)))].

Definition success : Js.Line :=
  Js.Log [Js.Str (ansis Js.green ("✔ " ++ Ccr.ccrInstallSuccess (I18N lang)))].

(** The warning printed for an EEXIST failure. *)
Definition exists_already : Js.Line :=
  Js.Log [Js.Str (ansis Js.yellow ("⚠ " ++ Ccr.ccrAlreadyInstalled (I18N lang)))].

Definition failed : Js.Line :=
  Js.Err [Js.Str (ansis Js.red ("✖ " ++ Ccr.ccrInstallFailed (I18N lang)))].

(** The line the callback of [startCcrService] prints for an error. *)
Definition start_failed (e : Js.Error) : Js.Line :=
  Js.Err [Js.Str (ansis Js.red (Ccr.failedToStartCcrService (I18N lang) ++ ":"));
          Js.Obj e].

End WithHost.

(** The command [installCcr] runs. *)
Definition npm_install : string := "npm install -g claude-code-router --force".

(** A world with one more line on its console. *)
Definition printed (w : Ccr.World) (l : Js.Line) : Ccr.World :=
  {| Ccr.clock := Ccr.clock w;
     Ccr.children := Ccr.children w;
     Ccr.pending := Ccr.pending w;
     Ccr.console := (Ccr.console w ++ [l])%list |}.

(** No [.] occurs in a text. *)
Definition dotless (s : string) : Prop :=
  forall c, In c (Spec.chars s) -> c <> "."%char.

(** The subprocesses spawned between two worlds of one run. *)
Definition added (w w' : Ccr.World) : list Ccr.Child :=
  skipn (length (Ccr.children w)) (Ccr.children w').

(** Between two worlds of one run the clock has not gone back and every
    subprocess spawned in between has closed by the later clock. *)
Definition awaited (w w' : Ccr.World) : Prop :=
  (Ccr.clock w <= Ccr.clock w')%N /\
  exists l, Ccr.children w' = (Ccr.children w ++ l)%list /\
            forall ch, In ch l -> Ccr.closed_by (Ccr.clock w') ch = true.

(** What [exec] reports for a subprocess that has printed [stdout] and
    [stderr] and exited with status [code]: its stdout when the status is 0,
    and otherwise an error, whose message names the command. *)
Definition reported (cmd stdout stderr : string) (code : N)
  : Js.Error + string :=
  if (code =? 0)%N then inr stdout
  else inl {| Js.message :=
                Some ("Command failed: " ++ cmd ++
                      String (ascii_of_nat 10) EmptyString ++ stderr) |}.

(** A machine without the router on which everything else works: the two
    commands that need [ccr] fail, every other command succeeds. *)
Definition no_router : Ccr.Shell :=
  fun _ cmd =>
    if String.eqb cmd "ccr version" || String.eqb cmd "which ccr"
       || String.eqb cmd "ccr"
    then {| Ccr.lifetime := Some 5%N;
            Ccr.result := reported cmd EmptyString "ccr: not found" 127 |}
    else {| Ccr.lifetime := Some 900%N;
            Ccr.result := reported cmd "ok" EmptyString 0 |}.

(** The world [startCcrService] leaves behind on a machine where the
    router runs as a service: [ccr] is still running. *)
Definition service_started : Ccr.World :=
  {| Ccr.clock := 2000;
     Ccr.children := [{| Ccr.command := "ccr"; Ccr.started := 0;
                         Ccr.exits := None |}];
     Ccr.pending := [];
     Ccr.console := [] |}.

(** A machine whose [ccr version] prints a version and exits with
    status 1. *)
Definition prints_then_fails : Ccr.Shell :=
  fun _ cmd =>
    {| Ccr.lifetime := Some 40%N;
       Ccr.result := reported cmd "1.2.3" EmptyString 1 |}.

End CcrOutput.

(* ================================================================== *)
(** * src/cli-setup.ts: the help text *)

Module CliHelp.

(** A section of the help output, as cac hands it to the callback of
    [cli.help]. *)
Record HelpSection : Type := { title : string; body : string }.

(** [lines.join('\n')]. *)
Fixpoint join_lines (lines : list string) : string :=
  match lines with
  | [] => EmptyString
  | [l] => l
  | l :: lines' => l ++ String (ascii_of_nat 10) EmptyString ++ join_lines lines'
  end.

Section WithHost.

(** [version] of package.json, and the styles of the ansis library:
    [ansis.cyan.bold] is taken on its own. *)
Variable version : string.
Variable ansis : Js.Colour -> string -> string.
Variable cyan_bold : string -> string.

(* Add custom header *)
Definition header : HelpSection :=
  {| title := EmptyString;
     body := cyan_bold ("ZCF - Zero-Config Claude-Code Flow v" ++ version) |}.

(* Add commands section with aliases *)
Definition commands_section : HelpSection :=
  {| title := ansis Js.yellow "Commands / 命令:";
     body :=
       join_lines
         [ "  " ++ ansis Js.cyan "zcf" ++ "              Show interactive menu (default) / 显示交互式菜单（默认）";
           "  " ++ ansis Js.cyan "zcf init" ++ " | " ++ ansis Js.cyan "i" ++ "     Initialize Claude Code configuration / 初始化 Claude Code 配置";
           "  " ++ ansis Js.cyan "zcf update" ++ " | " ++ ansis Js.cyan "u" ++ "   Update workflow-related md files / 仅更新工作流相关md";
           "  " ++ ansis Js.cyan "zcf ccr" ++ "          Configure Claude Code Router for model proxy / 配置模型路由代理";
           "  " ++ ansis Js.cyan "zcf ccu" ++ " [args]   Claude Code usage statistics analysis / Claude Code 用量统计分析";
           "  " ++ ansis Js.cyan "zcf check-updates" ++ " Check and update to latest versions / 检查并更新到最新版本";
           EmptyString;
           ansis Js.gray "  Shortcuts / 快捷方式:";
           "  " ++ ansis Js.cyan "zcf i" ++ "            Quick init / 快速初始化";
           "  " ++ ansis Js.cyan "zcf u" ++ "            Quick update / 快速更新";
           "  " ++ ansis Js.cyan "zcf check" ++ "        Quick check updates / 快速检查更新" ] |}.

(* Add options section *)
Definition options_section : HelpSection :=
  {| title := ansis Js.yellow "Options / 选项:";
     body :=
       join_lines
         [ "  " ++ ansis Js.green "--init" ++ "                    Run full initialization directly / 直接运行完整初始化";
           "  " ++ ansis Js.green "--config-lang, -c" ++ " <lang>  Configuration language / 配置语言 (zh-CN, en)";
           "  " ++ ansis Js.green "--force, -f" ++ "               Force overwrite / 强制覆盖现有配置";
           "  " ++ ansis Js.green "--help, -h" ++ "                Display help / 显示帮助";
           "  " ++ ansis Js.green "--version, -v" ++ "             Display version / 显示版本" ] |}.

(* Add examples section *)
Definition examples_section : HelpSection :=
  {| title := ansis Js.yellow "Examples / 示例:";
     body :=
       join_lines
         [ ansis Js.gray "  # Show interactive menu / 显示交互式菜单";
           "  " ++ ansis Js.cyan "npx zcf";
           EmptyString;
           ansis Js.gray "  # Run full initialization / 运行完整初始化";
           "  " ++ ansis Js.cyan "npx zcf init";
           "  " ++ ansis Js.cyan "npx zcf i";
           "  " ++ ansis Js.cyan "npx zcf --init";
           EmptyString;
           ansis Js.gray "  # Update workflow-related md files only / 仅更新工作流相关md文件";
           "  " ++ ansis Js.cyan "npx zcf u";
           EmptyString;
           ansis Js.gray "  # Configure Claude Code Router / 配置 Claude Code Router";
           "  " ++ ansis Js.cyan "npx zcf ccr";
           EmptyString;
           ansis Js.gray "  # Run Claude Code usage analysis / 运行 Claude Code 用量分析";
           "  " ++ ansis Js.cyan "npx zcf ccu" ++ "               " ++ ansis Js.gray "# Daily usage (default)";
           "  " ++ ansis Js.cyan "npx zcf ccu monthly --json";
           EmptyString;
           ansis Js.gray "  # Check and update tools / 检查并更新工具";
           "  " ++ ansis Js.cyan "npx zcf check-updates" ++ "     " ++ ansis Js.gray "# Update Claude Code, CCR and CCometixLine";
           "  " ++ ansis Js.cyan "npx zcf check";
           EmptyString;
           ansis Js.gray "  # Force overwrite with Chinese config / 强制使用中文配置覆盖";
           "  " ++ ansis Js.cyan "npx zcf --init -c zh-CN -f";
           "  " ++ ansis Js.cyan "npx zcf --init --config-lang zh-CN --force" ] |}.

(** [sections.unshift(header)] and three times [sections.push(...)]; the
    array returned is the one passed in, with these changes. *)
Definition customizeHelp (sections : list HelpSection) : list HelpSection :=
  header :: (sections ++ [commands_section; options_section; examples_section])%list.

End WithHost.

(** The words that select a command: its name and its aliases. *)
Definition words (c : Cli.Command) : list string :=
  Cli.name c :: Cli.aliasNames c.

(** [s] contains [sub]. *)
Definition mentions (s sub : string) : Prop :=
  exists pre post, s = pre ++ sub ++ post.

(** The options of [InitOptions] that the default command does not pass
    on: all but [lang], [configLang] and [force]. *)
Definition init_only_options_unset (o : CliOptions.t) : Prop :=
  CliOptions.aiOutputLang o = None /\ CliOptions.skipPrompt o = None /\
  CliOptions.installClaude o = None /\ CliOptions.configAction o = None /\
  CliOptions.apiType o = None /\ CliOptions.apiKey o = None /\
  CliOptions.authToken o = None /\ CliOptions.apiUrl o = None /\
  CliOptions.mcpServices o = None /\ CliOptions.mcpApiKeys o = None /\
  CliOptions.workflows o = None /\ CliOptions.aiPersonality o = None.

(** The options of a command line without its [--init]. *)
Definition without_init (o : CliOptions.t) : CliOptions.t :=
  {| CliOptions.init := None;
     CliOptions.lang := CliOptions.lang o;
     CliOptions.configLang := CliOptions.configLang o;
     CliOptions.aiOutputLang := CliOptions.aiOutputLang o;
     CliOptions.force := CliOptions.force o;
     CliOptions.skipPrompt := CliOptions.skipPrompt o;
     CliOptions.installClaude := CliOptions.installClaude o;
     CliOptions.configAction := CliOptions.configAction o;
     CliOptions.apiType := CliOptions.apiType o;
     CliOptions.apiKey := CliOptions.apiKey o;
     CliOptions.authToken := CliOptions.authToken o;
     CliOptions.apiUrl := CliOptions.apiUrl o;
     CliOptions.mcpServices := CliOptions.mcpServices o;
     CliOptions.mcpApiKeys := CliOptions.mcpApiKeys o;
     CliOptions.workflows := CliOptions.workflows o;
     CliOptions.aiPersonality := CliOptions.aiPersonality o |}.

(** The options of [zcf --init -c zh-CN -f]. *)
Definition init_config_force : CliOptions.t :=
  {| CliOptions.init := Some true; CliOptions.lang := None;
     CliOptions.configLang := Some "zh-CN"; CliOptions.aiOutputLang := None;
     CliOptions.force := Some true; CliOptions.skipPrompt := None;
     CliOptions.installClaude := None; CliOptions.configAction := None;
     CliOptions.apiType := None; CliOptions.apiKey := None;
     CliOptions.authToken := None; CliOptions.apiUrl := None;
     CliOptions.mcpServices := None; CliOptions.mcpApiKeys := None;
     CliOptions.workflows := None; CliOptions.aiPersonality := None |}.

(** The options of [zcf --lang en]: the default command does not declare
    [--lang]. *)
Definition lang_only : CliOptions.t :=
  {| CliOptions.init := None; CliOptions.lang := Some "en";
     CliOptions.configLang := None; CliOptions.aiOutputLang := None;
     CliOptions.force := None; CliOptions.skipPrompt := None;
     CliOptions.installClaude := None; CliOptions.configAction := None;
     CliOptions.apiType := None; CliOptions.apiKey := None;
     CliOptions.authToken := None; CliOptions.apiUrl := None;
     CliOptions.mcpServices := None; CliOptions.mcpApiKeys := None;
     CliOptions.workflows := None; CliOptions.aiPersonality := None |}.

End CliHelp.

(* ================================================================== *)
(** * The lines and questions of the personality wizard *)

Module Wizard.

Section WithHost.

Variable host : Personality.Host.
Variable lang : SupportedLang.

(** The confirmation asked when a known personality is stored. *)
Definition modify_question : Personality.Question :=
  Personality.Confirm "modify"
    (Js.or_else
       (Translation.modifyPersonality (Personality.getTranslation host lang))
       "Modify AI personality?")
    false.

(** The three lines printed around that confirmation. *)
Definition existing_line : Js.Line :=
  Js.Log [Js.Str (String (ascii_of_nat 10) EmptyString ++
            Personality.ansis host Js.blue
              ("ℹ " ++ Js.or_else
                         (Translation.existingPersonality
                            (Personality.getTranslation host lang))
                         "Existing AI personality configuration"))].

Definition current_line (info : Personality.AiPersonality) : Js.Line :=
  Js.Log [Js.Str (Personality.ansis host Js.gray
            ("  " ++ Js.or_else
                       (Translation.currentPersonality
                          (Personality.getTranslation host lang))
                       "Current personality"
                  ++ ": " ++ Personality.at_lang (Personality.name info) lang))].

Definition keep_line : Js.Line :=
  Js.Log [Js.Str (Personality.ansis host Js.green
            ("✔ " ++ Js.or_else
                       (Translation.keepPersonality
                          (Personality.getTranslation host lang))
                       "Keeping existing personality"))].

Definition cancelled_line : Js.Line :=
  Js.Log [Js.Str (Personality.ansis host Js.yellow
            (Translation.cancelled (Personality.getTranslation host lang)))].

(** The question about the custom directive, in the language of the run. *)
Definition custom_question : Personality.Question :=
  Personality.directive_question (Personality.getTranslation host lang).

(** The stored personality that [configureAiPersonality] shows before it
    asks anything: the one the record names, when [showExisting] is not
    false and the table has it. *)
Definition shown (showExisting : option bool) (w : Personality.World)
  : option Personality.AiPersonality :=
  if match showExisting with Some b => b | None => true end
     && Js.truthy_opt (Personality.stored_personality w)
  then Personality.getPersonalityInfo
         match Personality.stored_personality w with
         | Some e => e
         | None => EmptyString
         end
  else None.

(** The user goes on to the selection: where the stored personality is
    shown, the answer to the confirmation is to modify it. *)
Definition proceeds (showExisting : option bool) (w : Personality.World) : Prop :=
  match shown showExisting w with
  | Some _ =>
      Personality.confirms (Personality.user host) modify_question = true
  | None => True
  end.

(** What showing the stored personality has printed and asked when the
    selection starts. *)
Definition shown_lines (showExisting : option bool) (w : Personality.World)
  : list Js.Line :=
  match shown showExisting w with
  | Some info => [existing_line; current_line info]
  | None => []
  end.

Definition shown_questions (showExisting : option bool) (w : Personality.World)
  : list Personality.Question :=
  match shown showExisting w with
  | Some _ => [modify_question]
  | None => []
  end.

Definition after_showing (showExisting : option bool) (w : Personality.World)
  : Personality.World :=
  {| Personality.config := Personality.config w;
     Personality.files := Personality.files w;
     Personality.asked :=
       (Personality.asked w ++ shown_questions showExisting w)%list;
     Personality.console :=
       (Personality.console w ++ shown_lines showExisting w)%list |}.

End WithHost.

(** A profile that has stored a personality. *)
Definition configured (personality : string) : Personality.World :=
  {| Personality.config :=
       Some {| Personality.preferredLang := Some en;
               Personality.configLang := None;
               Personality.aiPersonality := Some personality |};
     Personality.files := [];
     Personality.asked := [];
     Personality.console := [] |}.

(** A user who selects the given value in every list. *)
Definition picks (value : string) : Personality.User :=
  {| Personality.confirms := fun _ => true;
     Personality.selects := fun _ => value;
     Personality.types := fun _ => [] |}.

(** The entry of the table at a position. *)
Definition entry (n : nat) : Personality.AiPersonality :=
  nth n Personality.AI_PERSONALITIES
      {| Personality.id := EmptyString;
         Personality.name := {| Personality.zh := EmptyString;
                                Personality.en_ := EmptyString |};
         Personality.directive := {| Personality.zh := EmptyString;
                                     Personality.en_ := EmptyString |} |}.

(** The default position of a list question. *)
Definition default_of (q : Personality.Question) : Z :=
  match q with
  | Personality.List _ _ _ default => default
  | _ => 0%Z
  end.

End Wizard.

(* ================================================================== *)
(** * Properties of the router helper *)

Section CcrFacts.

Variable shell : Ccr.Shell.

Lemma advance_clock (t : N) (w : Ccr.World) :
  Ccr.clock (Ccr.advance t w) = t.
Proof.
  unfold Ccr.advance. destruct (Ccr.fire t (Ccr.pending w)). reflexivity.
Qed.

Lemma advance_children (t : N) (w : Ccr.World) :
  Ccr.children (Ccr.advance t w) = Ccr.children w.
Proof.
  unfold Ccr.advance. destruct (Ccr.fire t (Ccr.pending w)). reflexivity.
Qed.

(** What an awaited command leaves behind: one more subprocess, started
    at the old clock and closed at the new one. *)
Lemma execAsync_world (cmd : string) (w w' : Ccr.World)
  (c : Eff.Completion Js.Error string) :
  Ccr.execAsync shell cmd w = Some (c, w') ->
  (Ccr.clock w <= Ccr.clock w')%N /\
  Ccr.children w' =
    (Ccr.children w ++
     [{| Ccr.command := cmd; Ccr.started := Ccr.clock w;
         Ccr.exits := Some (Ccr.clock w') |}])%list.
Proof.
  unfold Ccr.execAsync.
  destruct (Ccr.lifetime (shell (Ccr.history w) cmd)) as [d|]; [|discriminate].
  destruct (Ccr.result (shell (Ccr.history w) cmd)); intros H;
    injection H as _ <-; rewrite advance_clock, advance_children;
    simpl; split; try lia; reflexivity.
Qed.

(** The outcome of an awaited command is what the machine says. *)
Lemma execAsync_outcome (cmd : string) (w w' : Ccr.World)
  (c : Eff.Completion Js.Error string) :
  Ccr.execAsync shell cmd w = Some (c, w') ->
  c = match Ccr.result (shell (Ccr.history w) cmd) with
      | inr out => Eff.Returns out
      | inl e => Eff.Throws e
      end.
Proof.
  unfold Ccr.execAsync.
  destruct (Ccr.lifetime (shell (Ccr.history w) cmd)) as [d|]; [|discriminate].
  destruct (Ccr.result (shell (Ccr.history w) cmd)); intros H;
    injection H as <- _; reflexivity.
Qed.

(** An awaited command settles exactly when its subprocess closes. *)
Lemma execAsync_settles (cmd : string) (w : Ccr.World) (d : N) :
  Ccr.lifetime (shell (Ccr.history w) cmd) = Some d ->
  exists c w', Ccr.execAsync shell cmd w = Some (c, w').
Proof.
  intros H. unfold Ccr.execAsync. rewrite H.
  destruct (Ccr.result (shell (Ccr.history w) cmd)); eauto.
Qed.

Lemma execAsync_spawned (cmd : string) (w w' : Ccr.World)
  (c : Eff.Completion Js.Error string) :
  Ccr.execAsync shell cmd w = Some (c, w') ->
  Ccr.history w' = (Ccr.history w ++ [cmd])%list.
Proof.
  intros H. apply execAsync_world in H as [_ H].
  unfold Ccr.history. rewrite H, map_app. reflexivity.
Qed.

(** The four ways in which [isCcrInstalled] can run to its end. *)
Lemma isCcrInstalled_inv (w w' : Ccr.World) (c : Eff.Completion Js.Error bool) :
  Ccr.isCcrInstalled shell w = Some (c, w') ->
  (exists out,
      Ccr.execAsync shell "ccr version" w = Some (Eff.Returns out, w') /\
      c = Eff.Returns true) \/
  (exists e w1,
      Ccr.execAsync shell "ccr version" w = Some (Eff.Throws e, w1) /\
      ((exists out,
           Ccr.execAsync shell "which ccr" w1 = Some (Eff.Returns out, w') /\
           c = Eff.Returns true) \/
       (exists e',
           Ccr.execAsync shell "which ccr" w1 = Some (Eff.Throws e', w') /\
           c = Eff.Returns false))).
Proof.
  unfold Ccr.isCcrInstalled, Eff.try_catch, Eff.bind, Eff.ret.
  destruct (Ccr.execAsync shell "ccr version" w) as [[[out|e] w1]|] eqn:E1;
    [ intros H; injection H as <- <-; left; eauto | | discriminate ].
  destruct (Ccr.execAsync shell "which ccr" w1) as [[[out|e'] w2]|] eqn:E2;
    [ | | discriminate ];
    intros H; injection H as <- <-; right; exists e, w1;
    (split; [reflexivity|]); [left | right]; eauto.
Qed.

Lemma getCcrVersion_inv (w w' : Ccr.World)
  (c : Eff.Completion Js.Error (option string)) :
  Ccr.getCcrVersion shell w = Some (c, w') ->
  (exists stdout,
      Ccr.execAsync shell "ccr version" w = Some (Eff.Returns stdout, w') /\
      c = Eff.Returns
            (option_map RegExp.group1
               (RegExp.String_match stdout RegExp.version_re))) \/
  (exists e,
      Ccr.execAsync shell "ccr version" w = Some (Eff.Throws e, w') /\
      c = Eff.Returns None).
Proof.
  unfold Ccr.getCcrVersion, Eff.try_catch, Eff.bind, Eff.ret.
  destruct (Ccr.execAsync shell "ccr version" w) as [[[out|e] w1]|] eqn:E;
    [ | | discriminate ]; intros H; injection H as <- <-; eauto.
Qed.

Lemma spawned_app (w w' : Ccr.World) (l : list string) :
  Ccr.history w' = (Ccr.history w ++ l)%list -> Ccr.spawned w w' = l.
Proof.
  intros H. unfold Ccr.spawned. rewrite H.
  replace (length (Ccr.children w)) with (length (Ccr.history w) + 0)
    by (unfold Ccr.history; rewrite length_map; lia).
  rewrite skipn_app, Nat.add_comm. simpl.
  replace (skipn (length (Ccr.history w)) (Ccr.history w)) with (@nil string)
    by (symmetry; apply skipn_all).
  replace (length (Ccr.history w) - length (Ccr.history w)) with 0 by lia.
  reflexivity.
Qed.

Lemma closed_by_later (t t' : N) (c : Ccr.Child) :
  (t <= t')%N -> Ccr.closed_by t c = true -> Ccr.closed_by t' c = true.
Proof.
  unfold Ccr.closed_by. destruct (Ccr.exits c); [|discriminate].
  rewrite !N.leb_le. lia.
Qed.

Lemma awaited_trans (w w1 w2 : Ccr.World) :
  CcrOutput.awaited w w1 -> CcrOutput.awaited w1 w2 -> CcrOutput.awaited w w2.
Proof.
  intros (Hle1 & l1 & Hc1 & Hall1) (Hle2 & l2 & Hc2 & Hall2).
  split; [lia|]. exists (l1 ++ l2)%list. split.
  - rewrite Hc2, Hc1, app_assoc. reflexivity.
  - intros ch Hin. apply in_app_or in Hin as [Hin|Hin].
    + apply (closed_by_later (Ccr.clock w1)); auto.
    + auto.
Qed.

(** An awaited command has closed when the call resumes. *)
Lemma execAsync_awaited (cmd : string) (w w' : Ccr.World)
  (c : Eff.Completion Js.Error string) :
  Ccr.execAsync shell cmd w = Some (c, w') -> CcrOutput.awaited w w'.
Proof.
  intros H. apply execAsync_world in H as [Hle Hch].
  split; [exact Hle|]. eexists. split; [exact Hch|].
  intros ch [<-|[]]. unfold Ccr.closed_by. simpl. apply N.leb_le. lia.
Qed.

Lemma isCcrInstalled_awaited (w w' : Ccr.World) (c : Eff.Completion Js.Error bool) :
  Ccr.isCcrInstalled shell w = Some (c, w') -> CcrOutput.awaited w w'.
Proof.
  intros H.
  apply isCcrInstalled_inv in H
    as [(out & H & _) | (e & w1 & H1 & [(out & H & _) | (e' & H & _)])];
    eauto using execAsync_awaited, awaited_trans.
Qed.

(** The subprocesses added between two such worlds have all closed. *)
Lemma awaited_added (w w' : Ccr.World) :
  CcrOutput.awaited w w' ->
  forall ch, In ch (CcrOutput.added w w') ->
             Ccr.closed_by (Ccr.clock w') ch = true.
Proof.
  intros (_ & l & Hc & Hall) ch. unfold CcrOutput.added.
  rewrite Hc, skipn_app, skipn_all, Nat.sub_diag. simpl. apply Hall.
Qed.

Lemma isCcrInstalled_history (w w' : Ccr.World) (c : Eff.Completion Js.Error bool) :
  Ccr.isCcrInstalled shell w = Some (c, w') ->
  match Ccr.result (shell (Ccr.history w) "ccr version") with
  | inr _ => Ccr.history w' = (Ccr.history w ++ ["ccr version"])%list
  | inl _ => Ccr.history w' = (Ccr.history w ++ ["ccr version"; "which ccr"])%list
  end.
Proof.
  intros H.
  apply isCcrInstalled_inv in H
    as [(out & H & _) | (e & w1 & H1 & H2)].
  - pose proof (execAsync_outcome _ _ _ _ H) as Ho.
    destruct (Ccr.result (shell (Ccr.history w) "ccr version")); [discriminate|].
    eapply execAsync_spawned; eauto.
  - pose proof (execAsync_outcome _ _ _ _ H1) as Ho.
    destruct (Ccr.result (shell (Ccr.history w) "ccr version")); [|discriminate].
    apply execAsync_spawned in H1.
    assert (Ccr.history w' = (Ccr.history w1 ++ ["which ccr"])%list) as ->
      by (destruct H2 as [(out & H & _) | (e' & H & _)];
          eapply execAsync_spawned; eauto).
    rewrite H1, <- app_assoc. reflexivity.
Qed.

End CcrFacts.

Lemma execAsync_throws (shell : Ccr.Shell) (cmd : string) (w : Ccr.World)
  (d : N) (e : Js.Error) :
  Ccr.lifetime (shell (Ccr.history w) cmd) = Some d ->
  Ccr.result (shell (Ccr.history w) cmd) = inl e ->
  exists w', Ccr.execAsync shell cmd w = Some (Eff.Throws e, w') /\
             Ccr.history w' = (Ccr.history w ++ [cmd])%list.
Proof.
  intros Hl Hr.
  destruct (execAsync_settles shell cmd w d Hl) as (c & w' & H).
  pose proof (execAsync_outcome _ _ _ _ _ H) as Hc. rewrite Hr in Hc. subst c.
  exists w'. split; [exact H | eapply execAsync_spawned; eauto].
Qed.

(** C1: when the companion executable is absent, so that the subprocesses
    the probe spawns fail ([ccr version], and [which ccr] after it),
    [isCcrInstalled] returns [false] and [getCcrVersion] returns [null];
    both return normally, neither throws. Nothing is asked of any other
    command of the machine. *)
Theorem C1_absent_tool_is_not_an_error (shell : Ccr.Shell) (w : Ccr.World)
  (Hversion : exists d e,
      Ccr.lifetime (shell (Ccr.history w) "ccr version") = Some d /\
      Ccr.result (shell (Ccr.history w) "ccr version") = inl e)
  (Hwhich : exists d e,
      Ccr.lifetime (shell (Ccr.history w ++ ["ccr version"])%list "which ccr")
      = Some d /\
      Ccr.result (shell (Ccr.history w ++ ["ccr version"])%list "which ccr")
      = inl e) :
  (exists w', Ccr.isCcrInstalled shell w = Some (Eff.Returns false, w')) /\
  (exists w', Ccr.getCcrVersion shell w = Some (Eff.Returns None, w')).
Proof.
  destruct Hversion as (d & e & Hl & Hr).
  destruct (execAsync_throws shell _ w d e Hl Hr) as (w1 & H1 & Hh).
  split.
  - destruct Hwhich as (d2 & e2 & Hl2 & Hr2).
    rewrite <- Hh in Hl2, Hr2.
    destruct (execAsync_throws shell _ w1 d2 e2 Hl2 Hr2) as (w2 & H2 & _).
    exists w2.
    unfold Ccr.isCcrInstalled, Eff.try_catch, Eff.bind, Eff.ret.
    rewrite H1, H2. reflexivity.
  - exists w1.
    unfold Ccr.getCcrVersion, Eff.try_catch, Eff.bind, Eff.ret.
    rewrite H1. reflexivity.
Qed.

Lemma C1_witness :
  (exists w', Ccr.isCcrInstalled CcrOutput.no_router Ccr.boot
              = Some (Eff.Returns false, w')) /\
  (exists w', Ccr.getCcrVersion CcrOutput.no_router Ccr.boot
              = Some (Eff.Returns None, w')).
Proof.
  apply (C1_absent_tool_is_not_an_error CcrOutput.no_router Ccr.boot);
    eexists _, _; split; reflexivity.
Defined.

(** C2 as stated fails: on a machine without the router one call of
    [isCcrInstalled] spawns two subprocesses, not one. *)
Lemma C2_counterexample :
  exists w',
    Ccr.isCcrInstalled Scenario.absent Ccr.boot = Some (Eff.Returns false, w') /\
    Ccr.spawned Ccr.boot w' = ["ccr version"; "which ccr"] /\
    length (Ccr.spawned Ccr.boot w') <> 1.
Proof.
  eexists. split; [reflexivity|]. split; [reflexivity|]. simpl. discriminate.
Qed.

(** C2, amended: a call of [getCcrVersion] that returns has spawned exactly
    one subprocess, [ccr version]. A call of [isCcrInstalled] that returns
    has spawned [ccr version] alone when that command succeeded and, when it
    failed, one further and different command, [which ccr]; no command is
    spawned twice. Both calls return whenever the subprocesses close. *)
Theorem C2_invocations_per_call (shell : Ccr.Shell) (w : Ccr.World) :
  (forall c w', Ccr.getCcrVersion shell w = Some (c, w') ->
                Ccr.spawned w w' = ["ccr version"]) /\
  (forall c w', Ccr.isCcrInstalled shell w = Some (c, w') ->
                match Ccr.result (shell (Ccr.history w) "ccr version") with
                | inr _ => Ccr.spawned w w' = ["ccr version"]
                | inl _ => Ccr.spawned w w' = ["ccr version"; "which ccr"]
                end) /\
  ((forall hist cmd, Ccr.lifetime (shell hist cmd) <> None) ->
   (exists c w', Ccr.getCcrVersion shell w = Some (c, w')) /\
   (exists c w', Ccr.isCcrInstalled shell w = Some (c, w'))).
Proof.
  split; [|split].
  - intros c w' H. apply spawned_app.
    apply getCcrVersion_inv in H as [(out & H & _) | (e & H & _)];
      eapply execAsync_spawned; eauto.
  - intros c w' H. apply isCcrInstalled_history in H.
    destruct (Ccr.result (shell (Ccr.history w) "ccr version"));
      apply spawned_app; exact H.
  - intros Hlive.
    assert (Hex : forall cmd w0, exists c w', Ccr.execAsync shell cmd w0 = Some (c, w')).
    { intros cmd w0.
      destruct (Ccr.lifetime (shell (Ccr.history w0) cmd)) as [d|] eqn:E.
      - eapply execAsync_settles; eauto.
      - exfalso. eapply Hlive; eauto. }
    destruct (Hex "ccr version" w) as ([out|e] & w1 & H1).
    + split; eexists _, _.
      * unfold Ccr.getCcrVersion, Eff.try_catch, Eff.bind. rewrite H1. reflexivity.
      * unfold Ccr.isCcrInstalled, Eff.try_catch, Eff.bind. rewrite H1. reflexivity.
    + split.
      * eexists _, _.
        unfold Ccr.getCcrVersion, Eff.try_catch, Eff.bind. rewrite H1. reflexivity.
      * destruct (Hex "which ccr" w1) as ([out|e'] & w2 & H2); eexists _, _;
          unfold Ccr.isCcrInstalled, Eff.try_catch, Eff.bind;
          rewrite H1, H2; reflexivity.
Qed.

Lemma C2_witness :
  (exists w',
      Ccr.getCcrVersion Scenario.absent Ccr.boot = Some (Eff.Returns None, w') /\
      Ccr.spawned Ccr.boot w' = ["ccr version"]) /\
  (exists w',
      Ccr.isCcrInstalled Scenario.absent Ccr.boot = Some (Eff.Returns false, w') /\
      Ccr.spawned Ccr.boot w' = ["ccr version"; "which ccr"]) /\
  (exists c w', Ccr.getCcrVersion Scenario.absent Ccr.boot = Some (c, w')) /\
  (exists c w', Ccr.isCcrInstalled Scenario.absent Ccr.boot = Some (c, w')).
Proof.
  destruct (C2_invocations_per_call Scenario.absent Ccr.boot) as (H1 & H2 & H3).
  split; [|split].
  - eexists. split; [reflexivity|]. eapply H1. reflexivity.
  - eexists. split; [reflexivity|].
    eapply (H2 (Eff.Returns false)). reflexivity.
  - apply H3. intros hist cmd. simpl. discriminate.
Defined.

(** C5 as stated fails: on a machine where the router is installed,
    [startCcrService] returns after two seconds while the [ccr] subprocess
    it spawned is still running. *)
Lemma C5_counterexample :
  exists w',
    Ccr.startCcrService Scenario.installed Scenario.messages Scenario.plain
      None Ccr.boot = Some (Eff.Returns tt, w') /\
    Ccr.spawned Ccr.boot w' = ["ccr"] /\
    map Ccr.command (Ccr.running w') = ["ccr"].
Proof.
  eexists. split; [reflexivity|]. split; reflexivity.
Qed.

Lemma installCcr_awaited (shell : Ccr.Shell) (I18N : SupportedLang -> Ccr.Messages)
  (ansis : Js.Colour -> string -> string) (lang : SupportedLang)
  (w w' : Ccr.World) (c : Eff.Completion Js.Error unit) :
  Ccr.installCcr shell I18N ansis lang w = Some (c, w') ->
  CcrOutput.awaited w w'.
Proof.
  unfold Ccr.installCcr, Eff.bind.
  destruct (Ccr.isCcrInstalled shell w) as [[[b|e] w1]|] eqn:E1; [ | | discriminate ].
  - apply isCcrInstalled_awaited in E1.
    destruct b.
    + intros H. injection H as _ <-. exact E1.
    + unfold Eff.try_catch, Eff.bind. simpl.
      match goal with
      | |- context [Ccr.execAsync shell ?cmd ?w0] =>
          assert (Hq : CcrOutput.awaited w w0) by exact E1;
          destruct (Ccr.execAsync shell cmd w0) as [[[out|e] w2]|] eqn:E2
      end; [ | | discriminate ];
        apply execAsync_awaited in E2;
        pose proof (awaited_trans _ _ _ Hq E2) as E3.
      * intros H. injection H as _ <-. exact E3.
      * destruct (Ccr.message_includes e "EEXIST");
          intros H; injection H as _ <-; exact E3.
  - apply isCcrInstalled_awaited in E1.
    intros H. injection H as _ <-. exact E1.
Qed.

(** [startCcrService] never waits for its subprocess: it returns 2000 ms
    after the call, with [ccr] spawned and closing whenever the machine
    makes it close. *)
Lemma startCcrService_world (shell : Ccr.Shell)
  (I18N : SupportedLang -> Ccr.Messages)
  (ansis : Js.Colour -> string -> string) (lang : option SupportedLang)
  (w : Ccr.World) :
  exists w',
    Ccr.startCcrService shell I18N ansis lang w = Some (Eff.Returns tt, w') /\
    Ccr.clock w' = (Ccr.clock w + 2000)%N /\
    Ccr.children w' =
      (Ccr.children w ++
       [{| Ccr.command := "ccr"; Ccr.started := Ccr.clock w;
           Ccr.exits := option_map (N.add (Ccr.clock w))
                          (Ccr.lifetime (shell (Ccr.history w) "ccr")) |}])%list.
Proof.
  eexists. split; [reflexivity|]. cbv beta zeta.
  rewrite advance_clock, advance_children. split; reflexivity.
Qed.

(** C5, amended: [isCcrInstalled], [getCcrVersion] and [installCcr] await
    every subprocess they spawn: when one of them returns, each subprocess
    it added has closed. [startCcrService] does not: it spawns one
    subprocess, [ccr], in the background and always returns 2000 ms later;
    that subprocess has closed by then exactly when it lived no longer than
    2000 ms. *)
Theorem C5_awaited_calls_and_background_start (shell : Ccr.Shell)
  (I18N : SupportedLang -> Ccr.Messages)
  (ansis : Js.Colour -> string -> string) (w : Ccr.World) :
  (forall c w', Ccr.isCcrInstalled shell w = Some (c, w') ->
     forall ch, In ch (CcrOutput.added w w') ->
                Ccr.closed_by (Ccr.clock w') ch = true) /\
  (forall c w', Ccr.getCcrVersion shell w = Some (c, w') ->
     forall ch, In ch (CcrOutput.added w w') ->
                Ccr.closed_by (Ccr.clock w') ch = true) /\
  (forall lang c w',
      Ccr.installCcr shell I18N ansis lang w = Some (c, w') ->
      forall ch, In ch (CcrOutput.added w w') ->
                 Ccr.closed_by (Ccr.clock w') ch = true) /\
  (forall lang, exists w' ch,
      Ccr.startCcrService shell I18N ansis lang w = Some (Eff.Returns tt, w') /\
      Ccr.clock w' = (Ccr.clock w + 2000)%N /\
      CcrOutput.added w w' = [ch] /\
      Ccr.command ch = "ccr" /\
      (Ccr.closed_by (Ccr.clock w') ch = true <->
       exists d, Ccr.lifetime (shell (Ccr.history w) "ccr") = Some d /\
                 (d <= 2000)%N)).
Proof.
  split; [|split; [|split]].
  - intros c w' H. apply awaited_added. eapply isCcrInstalled_awaited; eauto.
  - intros c w' H. apply awaited_added.
    apply getCcrVersion_inv in H as [(out & H & _) | (e & H & _)];
      eapply execAsync_awaited; eauto.
  - intros lang c w' H. apply awaited_added. eapply installCcr_awaited; eauto.
  - intros lang.
    destruct (startCcrService_world shell I18N ansis lang w) as (w' & H & Hc & Hch).
    exists w'. eexists. split; [exact H|]. split; [exact Hc|]. split; [|split].
    + unfold CcrOutput.added.
      rewrite Hch, skipn_app, skipn_all, Nat.sub_diag. reflexivity.
    + reflexivity.
    + rewrite Hc. unfold Ccr.closed_by. simpl.
      destruct (Ccr.lifetime (shell (Ccr.history w) "ccr")) as [d|]; simpl.
      * rewrite N.leb_le. split.
        -- intros Hle. exists d. split; [reflexivity | lia].
        -- intros (d' & Hd & Hle). injection Hd as <-. lia.
      * split; [discriminate | intros (d & Hd & _); discriminate].
Qed.

(** The three awaiting calls, started while the [ccr] of an earlier
    [startCcrService] is still running, and [startCcrService] itself. *)
Lemma C5_witness :
  (exists w',
      Ccr.isCcrInstalled Scenario.absent CcrOutput.service_started
      = Some (Eff.Returns false, w') /\
      length (CcrOutput.added CcrOutput.service_started w') = 2 /\
      forall ch, In ch (CcrOutput.added CcrOutput.service_started w') ->
                 Ccr.closed_by (Ccr.clock w') ch = true) /\
  (exists w',
      Ccr.getCcrVersion Scenario.installed CcrOutput.service_started
      = Some (Eff.Returns (Some "1.0.43"), w') /\
      forall ch, In ch (CcrOutput.added CcrOutput.service_started w') ->
                 Ccr.closed_by (Ccr.clock w') ch = true) /\
  (exists w',
      Ccr.installCcr (Scenario.npm_fails "npm error code EEXIST")
        Scenario.messages Scenario.plain en CcrOutput.service_started
      = Some (Eff.Returns tt, w') /\
      forall ch, In ch (CcrOutput.added CcrOutput.service_started w') ->
                 Ccr.closed_by (Ccr.clock w') ch = true) /\
  (exists w' ch,
      Ccr.startCcrService Scenario.installed Scenario.messages Scenario.plain
        (Some en) Ccr.boot = Some (Eff.Returns tt, w') /\
      Ccr.clock w' = 2000%N /\
      CcrOutput.added Ccr.boot w' = [ch] /\
      Ccr.closed_by (Ccr.clock w') ch = false).
Proof.
  split; [|split; [|split]].
  - eexists. split; [reflexivity|]. split; [reflexivity|].
    eapply (proj1 (C5_awaited_calls_and_background_start Scenario.absent
                     Scenario.messages Scenario.plain CcrOutput.service_started)).
    reflexivity.
  - eexists. split; [reflexivity|].
    eapply (proj1 (proj2 (C5_awaited_calls_and_background_start Scenario.installed
                            Scenario.messages Scenario.plain
                            CcrOutput.service_started))).
    reflexivity.
  - eexists. split; [reflexivity|].
    eapply (proj1 (proj2 (proj2 (C5_awaited_calls_and_background_start
                                   (Scenario.npm_fails "npm error code EEXIST")
                                   Scenario.messages Scenario.plain
                                   CcrOutput.service_started))) en).
    reflexivity.
  - destruct (proj2 (proj2 (proj2 (C5_awaited_calls_and_background_start
                                     Scenario.installed Scenario.messages
                                     Scenario.plain Ccr.boot)))
                (Some en)) as (w' & ch & H1 & H2 & H3 & _ & _).
    exists w', ch. split; [exact H1|]. split; [exact H2|]. split; [exact H3|].
    injection H1 as <-. injection H3 as <-. reflexivity.
Defined.

(** ** [includes] is the substring test *)

Lemma append_assoc (a b c : string) : (a ++ b) ++ c = a ++ b ++ c.
Proof. induction a as [|x a IH]; simpl; [reflexivity | now rewrite IH]. Qed.

Lemma append_empty_r (a : string) : a ++ EmptyString = a.
Proof. induction a as [|x a IH]; simpl; [reflexivity | now rewrite IH]. Qed.

Lemma prefix_spec (sub s : string) :
  String.prefix sub s = true <-> exists post, s = sub ++ post.
Proof.
  revert s. induction sub as [|a sub IH]; intros s.
  - split; [intros _; now exists s | intros _; destruct s; reflexivity].
  - destruct s as [|b s]; simpl.
    + split; [discriminate | intros [post H]; discriminate].
    + destruct (ascii_dec a b) as [->|Hne].
      * rewrite IH. split; intros [post H]; exists post; congruence.
      * split; [discriminate | intros [post H]; congruence].
Qed.

Lemma includes_spec (s sub : string) :
  Js.includes s sub = true <-> exists pre post, s = pre ++ sub ++ post.
Proof.
  induction s as [|c s IH].
  - change (Js.includes EmptyString sub)
      with (if String.prefix sub EmptyString then true else false).
    destruct (String.prefix sub EmptyString) eqn:E; split.
    + intros _. apply prefix_spec in E as [post E].
      exists EmptyString, post. exact E.
    + reflexivity.
    + discriminate.
    + intros (pre & post & H). destruct pre; [|discriminate]. simpl in H.
      assert (String.prefix sub EmptyString = true)
        by (apply prefix_spec; eauto).
      congruence.
  - change (Js.includes (String c s) sub)
      with (if String.prefix sub (String c s) then true else Js.includes s sub).
    destruct (String.prefix sub (String c s)) eqn:E; split.
    + intros _. apply prefix_spec in E as [post E].
      exists EmptyString, post. exact E.
    + reflexivity.
    + intros H. apply IH in H as (pre & post & ->).
      exists (String c pre), post. reflexivity.
    + intros (pre & post & H). destruct pre as [|x pre]; simpl in H.
      * assert (String.prefix sub (String c s) = true)
          by (apply prefix_spec; eauto).
        congruence.
      * apply IH. exists pre, post. congruence.
Qed.

(** C9: [installCcr] returns without spawning the package manager when the
    router is already installed; when it is not and the installation fails,
    a failure whose message contains EEXIST is taken as success (the call
    returns normally) and every other failure is thrown to the caller. *)
Theorem C9_installCcr_outcomes (shell : Ccr.Shell)
  (I18N : SupportedLang -> Ccr.Messages)
  (ansis : Js.Colour -> string -> string) (lang : SupportedLang)
  (w : Ccr.World) :
  (forall w1,
      Ccr.isCcrInstalled shell w = Some (Eff.Returns true, w1) ->
      exists w',
        Ccr.installCcr shell I18N ansis lang w = Some (Eff.Returns tt, w') /\
        Ccr.spawned w w' = Ccr.spawned w w1 /\
        ~ In "npm install -g claude-code-router --force" (Ccr.spawned w w')) /\
  (forall w1 d e,
      Ccr.isCcrInstalled shell w = Some (Eff.Returns false, w1) ->
      Ccr.lifetime (shell (Ccr.history w1)
                      "npm install -g claude-code-router --force") = Some d ->
      Ccr.result (shell (Ccr.history w1)
                    "npm install -g claude-code-router --force") = inl e ->
      ((exists m pre post,
           Js.message e = Some m /\ m = pre ++ "EEXIST" ++ post) ->
       exists w',
         Ccr.installCcr shell I18N ansis lang w = Some (Eff.Returns tt, w')) /\
      (~ (exists m pre post,
             Js.message e = Some m /\ m = pre ++ "EEXIST" ++ post) ->
       exists w',
         Ccr.installCcr shell I18N ansis lang w = Some (Eff.Throws e, w'))).
Proof.
  split.
  - intros w1 H. unfold Ccr.installCcr, Eff.bind. rewrite H.
    eexists. split; [reflexivity|]. split; [reflexivity|].
    apply isCcrInstalled_history in H.
    change (~ In "npm install -g claude-code-router --force" (Ccr.spawned w w1)).
    destruct (Ccr.result (shell (Ccr.history w) "ccr version"));
      rewrite (spawned_app _ _ _ H); simpl; intuition discriminate.
  - intros w1 d e H Hl Hr.
    assert (Hrun : exists w',
               Ccr.installCcr shell I18N ansis lang w =
               Some ((if Ccr.message_includes e "EEXIST"
                      then Eff.Returns tt else Eff.Throws e), w')).
    { unfold Ccr.installCcr, Eff.bind. rewrite H.
      unfold Eff.try_catch, Eff.bind. simpl.
      match goal with
      | |- context [Ccr.execAsync shell ?cmd ?w0] =>
          destruct (execAsync_throws shell cmd w0 d e Hl Hr) as (w2 & H2 & _);
          rewrite H2
      end.
      destruct (Ccr.message_includes e "EEXIST"); eexists; reflexivity. }
    assert (Hinc : Ccr.message_includes e "EEXIST" = true <->
                   exists m pre post,
                     Js.message e = Some m /\ m = pre ++ "EEXIST" ++ post).
    { unfold Ccr.message_includes. destruct (Js.message e) as [m|].
      - rewrite includes_spec. split.
        + intros (pre & post & Hm). now exists m, pre, post.
        + intros (m' & pre & post & Hm & Heq). injection Hm as <-. eauto.
      - split; [discriminate | intros (m & _ & _ & Hm & _); discriminate]. }
    destruct Hrun as (w' & Hrun).
    destruct (Ccr.message_includes e "EEXIST").
    + split; [eauto|]. intros Hn. exfalso. apply Hn, Hinc. reflexivity.
    + split; [|eauto]. intros Hy. apply Hinc in Hy. discriminate.
Qed.

Lemma C9_witness :
  (exists w',
      Ccr.installCcr Scenario.installed Scenario.messages Scenario.plain en
        Ccr.boot = Some (Eff.Returns tt, w') /\
      ~ In "npm install -g claude-code-router --force" (Ccr.spawned Ccr.boot w')) /\
  (exists w',
      Ccr.installCcr (Scenario.npm_fails "npm error code EEXIST")
        Scenario.messages Scenario.plain en Ccr.boot
      = Some (Eff.Returns tt, w')) /\
  (exists w',
      Ccr.installCcr (Scenario.npm_fails "npm error code EACCES")
        Scenario.messages Scenario.plain en Ccr.boot
      = Some (Eff.Throws {| Js.message := Some "npm error code EACCES" |}, w')).
Proof.
  split; [|split].
  - destruct (proj1 (C9_installCcr_outcomes Scenario.installed Scenario.messages
                       Scenario.plain en Ccr.boot) _ eq_refl)
      as (w' & H & _ & Hn).
    exists w'. split; [exact H | exact Hn].
  - refine (proj1 (proj2 (C9_installCcr_outcomes
                            (Scenario.npm_fails "npm error code EEXIST")
                            Scenario.messages Scenario.plain en Ccr.boot)
                     _ 900%N _ eq_refl eq_refl eq_refl) _).
    exists "npm error code EEXIST", "npm error code ", EmptyString.
    split; reflexivity.
  - refine (proj2 (proj2 (C9_installCcr_outcomes
                            (Scenario.npm_fails "npm error code EACCES")
                            Scenario.messages Scenario.plain en Ccr.boot)
                     _ 900%N _ eq_refl eq_refl eq_refl) _).
    intros (m & pre & post & Hm & Heq). injection Hm as <-.
    assert (Hinc : Js.includes "npm error code EACCES" "EEXIST" = true)
      by (apply includes_spec; eauto).
    vm_compute in Hinc. discriminate.
Defined.

(* ================================================================== *)
(** * The version pattern *)

Section RegExpFacts.

Import RegExp.

Lemma length_append (a b : string) :
  String.length (a ++ b) = String.length a + String.length b.
Proof. induction a as [|x a IH]; simpl; [reflexivity | now rewrite IH]. Qed.

Lemma append_same_length (a a' b b' : string) :
  a ++ b = a' ++ b' -> String.length a = String.length a' ->
  a = a' /\ b = b'.
Proof.
  revert a'. induction a as [|x a IH]; intros [|x' a'] H Hl;
    simpl in *; try discriminate.
  - now split.
  - injection H as -> H. injection Hl as Hl.
    destruct (IH a' H Hl) as [-> ->]. now split.
Qed.

(** [\d] accepts exactly the ten decimal digits. *)
Lemma is_digit_decimal (c : ascii) :
  is_digit c = true <-> In c Spec.decimal.
Proof.
  split.
  - intros H.
    destruct c as [[] [] [] [] [] [] [] []]; try discriminate H;
      unfold Spec.decimal, In;
      repeat (first [left; reflexivity | right]).
  - intros H. unfold Spec.decimal, In in H.
    repeat (destruct H as [<-|H]; [reflexivity|]). contradiction.
Qed.

Lemma span_eq (p : ascii -> bool) (s : string) :
  s = fst (span p s) ++ snd (span p s).
Proof.
  induction s as [|c s IH]; simpl; [reflexivity|].
  destruct (p c); [|reflexivity].
  destruct (span p s) as [ds t]. simpl in *. now rewrite <- IH.
Qed.

Lemma span_all (p : ascii -> bool) (s : string) (c : ascii) :
  In c (Spec.chars (fst (span p s))) -> p c = true.
Proof.
  induction s as [|x s IH]; simpl; [contradiction|].
  destruct (p x) eqn:E; [|contradiction].
  destruct (span p s) as [ds t]. simpl in *.
  intros [<-|H]; auto.
Qed.

Lemma span_append (p : ascii -> bool) (ds t : string) :
  (forall c, In c (Spec.chars ds) -> p c = true) ->
  span p (ds ++ t) = (ds ++ fst (span p t), snd (span p t)).
Proof.
  induction ds as [|x ds IH]; intros H; simpl.
  - now destruct (span p t).
  - rewrite (H x (or_introl eq_refl)).
    rewrite IH by (intros c Hc; apply H; now right). reflexivity.
Qed.

(** With such a continuation the greedy loop takes the longest run. *)
Lemma more_spec (p : ascii -> bool) (rest : string -> option string)
  (s : string) :
  settled p rest ->
  more p rest s =
  option_map (append (fst (span p s))) (rest (snd (span p s))).
Proof.
  intros Hs. induction s as [|c s IH]; simpl.
  - now destruct (rest EmptyString).
  - destruct (p c) eqn:E.
    + rewrite IH. destruct (span p s) as [ds t]. simpl.
      destruct (rest t) eqn:Er; simpl; [reflexivity|].
      destruct Hs as [Hs|Hs]; [now apply Hs in Er | now apply Hs].
    + simpl. now destruct (rest (String c s)).
Qed.

Lemma plus_spec (a : Atom) (pat : list Node) (s : string) :
  settled (atom_matches a) (match_here pat) ->
  match_here (OneOrMore a :: pat) s =
  match fst (span (atom_matches a) s) with
  | EmptyString => None
  | ds => option_map (append ds) (match_here pat (snd (span (atom_matches a) s)))
  end.
Proof.
  intros Hs. destruct s as [|c s]; simpl; [reflexivity|].
  destruct (atom_matches a c) eqn:E; [|reflexivity].
  rewrite more_spec by exact Hs.
  destruct (span (atom_matches a) s) as [ds t]. simpl.
  now destruct (match_here pat t).
Qed.

Lemma settled_end (p : ascii -> bool) : settled p (match_here []).
Proof. left. intros s. discriminate. Qed.

Lemma settled_dot (pat : list Node) :
  settled (atom_matches Digit) (match_here (One (Lit ".") :: pat)).
Proof.
  right. intros c s H. simpl in *.
  destruct (Ascii.eqb c ".") eqn:E; [|reflexivity].
  apply Ascii.eqb_eq in E. subst c. discriminate.
Qed.

Lemma dot_inv (pat : list Node) (s m : string) :
  match_here (One (Lit ".") :: pat) s = Some m ->
  exists s' m', s = String "." s' /\ m = String "." m' /\
                match_here pat s' = Some m'.
Proof.
  destruct s as [|c s]; simpl; [discriminate|].
  destruct (Ascii.eqb c ".") eqn:E; [|discriminate].
  apply Ascii.eqb_eq in E. subst c.
  destruct (match_here pat s) as [m'|] eqn:Em; [|discriminate].
  simpl. intros H. injection H as <-. exists s, m'. auto.
Qed.

Lemma plus_inv (pat : list Node) (s m : string) :
  settled (atom_matches Digit) (match_here pat) ->
  match_here (OneOrMore Digit :: pat) s = Some m ->
  exists ds t m', s = ds ++ t /\ Spec.digits ds /\ m = ds ++ m' /\
                  match_here pat t = Some m'.
Proof.
  intros Hs. rewrite plus_spec by exact Hs.
  pose proof (span_eq (atom_matches Digit) s) as Heq.
  pose proof (span_all (atom_matches Digit) s) as Hall.
  destruct (span (atom_matches Digit) s) as [ds t]. simpl in *.
  destruct ds as [|d ds]; [discriminate|].
  destruct (match_here pat t) as [m'|] eqn:Em; [|discriminate].
  simpl. intros H. injection H as <-.
  exists (String d ds), t, m'. repeat split; auto; try discriminate.
  intros c Hc. apply is_digit_decimal. now apply Hall.
Qed.

(** What the pattern matches at the start of a text is a dotted version,
    and a prefix of the text. *)
Lemma match_here_sound (s m : string) :
  match_here version_re s = Some m ->
  Spec.dotted_version m /\ exists post, s = m ++ post.
Proof.
  unfold version_re. intros H.
  apply plus_inv in H as (a & t1 & m1 & -> & Ha & -> & H);
    [|apply settled_dot].
  apply dot_inv in H as (t2 & m2 & -> & -> & H).
  apply plus_inv in H as (b & t3 & m3 & -> & Hb & -> & H);
    [|apply settled_dot].
  apply dot_inv in H as (t4 & m4 & -> & -> & H).
  apply plus_inv in H as (c & t5 & m5 & -> & Hc & -> & H);
    [|apply settled_end].
  simpl in H. injection H as <-.
  rewrite append_empty_r. split.
  - exists a, b, c. repeat split; try apply Ha; try apply Hb; try apply Hc.
  - exists t5.
    repeat (rewrite append_assoc; simpl). reflexivity.
Qed.

Lemma dot_step (pat : list Node) (r : string) :
  match_here (One (Lit ".") :: pat) (String "." r) =
  option_map (String ".") (match_here pat r).
Proof. reflexivity. Qed.

Lemma span_dot (r : string) :
  span (atom_matches Digit) (String "." r) = (EmptyString, String "." r).
Proof. reflexivity. Qed.

Lemma plus_digits (pat : list Node) (ds t : string) :
  settled (atom_matches Digit) (match_here pat) ->
  Spec.digits ds ->
  match_here (OneOrMore Digit :: pat) (ds ++ t) =
  option_map (append (ds ++ fst (span (atom_matches Digit) t)))
    (match_here pat (snd (span (atom_matches Digit) t))).
Proof.
  intros Hs [Hne Hall]. rewrite plus_spec by exact Hs.
  rewrite span_append
    by (intros c Hc; apply is_digit_decimal; now apply Hall).
  destruct ds as [|x ds]; [contradiction|]. reflexivity.
Qed.

(** Where a dotted version starts a text, the pattern matches there, and
    matches at least that much. *)
Lemma match_here_max (v post : string) :
  Spec.dotted_version v ->
  exists m, match_here version_re (v ++ post) = Some m /\
            String.length v <= String.length m.
Proof.
  intros (a & b & c & Ha & Hb & Hc & ->).
  repeat (rewrite append_assoc; cbn [append]).
  unfold version_re.
  rewrite (plus_digits _ a) by (apply settled_dot || exact Ha).
  rewrite span_dot. cbn [fst snd]. rewrite dot_step.
  rewrite (plus_digits _ b) by (apply settled_dot || exact Hb).
  rewrite span_dot. cbn [fst snd]. rewrite dot_step.
  rewrite (plus_digits _ c) by (apply settled_end || exact Hc).
  cbn [match_here option_map].
  eexists. split; [reflexivity|].
  repeat (rewrite length_append; cbn [String.length]). lia.
Qed.

(** [exec] finds the leftmost position at which the pattern matches. *)
Lemma exec_from_spec (pat : list Node) (s : string) (from : nat) :
  match exec_from pat s from with
  | Some r =>
      exists pre t,
        s = pre ++ t /\ index r = from + String.length pre /\
        match_here pat t = Some (whole r) /\ group1 r = whole r /\
        forall pre' t', s = pre' ++ t' ->
                        String.length pre' < String.length pre ->
                        match_here pat t' = None
  | None => forall pre' t', s = pre' ++ t' -> match_here pat t' = None
  end.
Proof.
  revert from. induction s as [|c s IH]; intros from;
    cbn [exec_from]; destruct (match_here pat _) as [m|] eqn:E.
  - exists EmptyString, EmptyString. cbn.
    repeat split; auto. intros pre' t' _ Hl. inversion Hl.
  - intros [|x pre'] t' H; [|discriminate]. simpl in H. now subst t'.
  - exists EmptyString, (String c s). cbn.
    repeat split; auto. intros pre' t' _ Hl. inversion Hl.
  - specialize (IH (S from)).
    destruct (exec_from pat s (S from)) as [r|].
    + destruct IH as (pre & t & -> & Hi & Hm & Hg & Hmin).
      exists (String c pre), t. cbn [String.length append].
      repeat split; auto; try lia.
      intros [|x pre'] t' H Hl; simpl in H.
      * now subst t'.
      * injection H as _ H. apply (Hmin pre' t' H).
        simpl in Hl. lia.
    + intros [|x pre'] t' H; simpl in H.
      * now subst t'.
      * injection H as _ H. now apply (IH pre' t').
Qed.

(** [stdout.match(/(\d+\.\d+\.\d+)/)], read at group 1, is the first
    dotted version in [stdout]. *)
Lemma version_match_spec (stdout : string) :
  Spec.first_version stdout
    (option_map group1 (String_match stdout version_re)).
Proof.
  unfold String_match.
  pose proof (exec_from_spec version_re stdout 0) as H.
  destruct (exec_from version_re stdout 0) as [r|]; cbn [option_map].
  - destruct H as (pre & t & -> & _ & Hm & -> & Hmin).
    destruct (match_here_sound _ _ Hm) as [Hv [post ->]].
    exists (String.length pre). split; [now exists pre, post|].
    split; [exact Hv|].
    intros j v' (pre' & post' & Heq & <-) Hv'.
    destruct (match_here_max v' post' Hv') as (m & Hm' & Hle).
    split.
    + destruct (Nat.le_gt_cases (String.length pre) (String.length pre'))
        as [Hc|Hc]; [exact Hc|].
      rewrite (Hmin pre' (v' ++ post') Heq Hc) in Hm'. discriminate.
    + intros Hj.
      destruct (append_same_length _ _ _ _ Heq (eq_sym Hj)) as [_ Ht].
      rewrite Ht in Hm. congruence.
  - intros j v' (pre' & post' & Heq & _) Hv'.
    destruct (match_here_max v' post' Hv') as (m & Hm' & _).
    rewrite (H pre' (v' ++ post') Heq) in Hm'. discriminate.
Qed.

End RegExpFacts.

(** C3 as stated fails: a [ccr version] that prints 1.2.3 and exits with
    status 1 makes [getCcrVersion] return [null], although 1.2.3 is the
    first dotted version of what was printed. *)
Lemma C3_counterexample :
  Ccr.result (CcrOutput.prints_then_fails [] "ccr version")
  = CcrOutput.reported "ccr version" "1.2.3" EmptyString 1 /\
  (exists w',
      Ccr.getCcrVersion CcrOutput.prints_then_fails Ccr.boot
      = Some (Eff.Returns None, w')) /\
  Spec.first_version "1.2.3" (Some "1.2.3") /\
  ~ Spec.first_version "1.2.3" None.
Proof.
  split; [reflexivity|]. split; [eexists; reflexivity|].
  pose proof (version_match_spec "1.2.3") as H.
  split; [exact H|].
  intros Hnone. destruct H as (i & Hocc & Hv & _).
  exact (Hnone i "1.2.3" Hocc Hv).
Qed.

(** C3, amended: when the subprocess of [ccr version] closes,
    [getCcrVersion] returns. If the command succeeded with output [stdout],
    the result is the first substring of [stdout] that matches the
    dotted-numeric pattern digits.digits.digits, and [null] when no
    substring of [stdout] matches; if the command failed, the result is
    [null] whatever it printed. *)
Theorem C3_getCcrVersion_first_match (shell : Ccr.Shell) (w : Ccr.World)
  (d : N)
  (Hlife : Ccr.lifetime (shell (Ccr.history w) "ccr version") = Some d) :
  exists r w',
    Ccr.getCcrVersion shell w = Some (Eff.Returns r, w') /\
    match Ccr.result (shell (Ccr.history w) "ccr version") with
    | inr stdout => Spec.first_version stdout r
    | inl _ => r = None
    end.
Proof.
  destruct (execAsync_settles shell _ w d Hlife) as (c & w' & H).
  pose proof (execAsync_outcome _ _ _ _ _ H) as Hc.
  unfold Ccr.getCcrVersion, Eff.try_catch, Eff.bind, Eff.ret. rewrite H.
  destruct (Ccr.result (shell (Ccr.history w) "ccr version")) as [e|stdout];
    subst c.
  - exists None, w'. split; reflexivity.
  - exists (option_map RegExp.group1
              (RegExp.String_match stdout RegExp.version_re)), w'.
    split; [reflexivity | apply version_match_spec].
Qed.

Lemma C3_witness :
  (exists r w',
      Ccr.getCcrVersion Scenario.installed Ccr.boot = Some (Eff.Returns r, w') /\
      Spec.first_version "claude-code-router version: 1.0.43" r) /\
  (exists r w',
      Ccr.getCcrVersion CcrOutput.prints_then_fails Ccr.boot
      = Some (Eff.Returns r, w') /\
      r = None).
Proof.
  split.
  - apply (C3_getCcrVersion_first_match Scenario.installed Ccr.boot 40%N).
    reflexivity.
  - apply (C3_getCcrVersion_first_match CcrOutput.prints_then_fails Ccr.boot
             40%N).
    reflexivity.
Defined.

(* ================================================================== *)
(** * The command line *)

Lemma filter_nil_inv {A : Type} (f : A -> bool) (l : list A) :
  filter f l = [] -> forall x, In x l -> f x = false.
Proof.
  intros H x Hx. destruct (f x) eqn:E; [|reflexivity].
  assert (Hin : In x (filter f l)) by (apply filter_In; auto).
  rewrite H in Hin. destruct Hin.
Qed.

(** What the default command accepts: only [--init], [--config-lang] and
    [--force] may be given. *)
Lemma default_accepts (c : Cli.Command) (options : CliOptions.t) :
  In c Cli.setupCommands -> Cli.name c = EmptyString ->
  Cli.unknown_options c options = [] ->
  CliOptions.lang options = None /\
  CliHelp.init_only_options_unset options.
Proof.
  intros Hc Hname H. simpl in Hc.
  destruct Hc as [<-|[<-|[<-|[<-|[<-|[<-|[]]]]]]];
    try (vm_compute in Hname; discriminate).
  unfold Cli.unknown_options in H. cbn [Cli.allowUnknown] in H.
  pose proof (filter_nil_inv _ _ H) as Hall. clear H Hname.
  destruct options as [i l cl a f sp ic ca at_ ak au ur ms mk wf ap].
  unfold CliHelp.init_only_options_unset, Cli.given in *.
  cbn [CliOptions.init CliOptions.lang CliOptions.configLang CliOptions.force
    CliOptions.aiOutputLang CliOptions.skipPrompt CliOptions.installClaude
    CliOptions.configAction CliOptions.apiType CliOptions.apiKey
    CliOptions.authToken CliOptions.apiUrl CliOptions.mcpServices
    CliOptions.mcpApiKeys CliOptions.workflows CliOptions.aiPersonality] in *.
  repeat match goal with |- _ /\ _ => split end;
    match goal with
    | |- ?v = None => destruct v; [exfalso|reflexivity]
    end;
    match type of Hall with
    | forall x, In x ?l -> _ =>
        match l with
        | context [@Cli.key _ ?k (Some _)] =>
            assert (Hin : In k l)
              by (rewrite !in_app_iff; cbn [Cli.key In]; tauto);
            specialize (Hall k Hin); vm_compute in Hall; discriminate
        end
    end.
Qed.

(** With no argument the default command is the one selected. *)
Lemma no_argument_selects_default (options : CliOptions.t) :
  exists c, In c Cli.setupCommands /\ Cli.name c = EmptyString /\
            Cli.undeclared Cli.setupCommands [] options
            = Cli.unknown_options c options.
Proof.
  eexists. split; [left; reflexivity|]. split; reflexivity.
Qed.

(** C8: a default invocation with no arguments whose options the default
    command accepts opens the interactive menu without [--init] and does
    not run the initialization; with [--init] it runs the initialization,
    with no language and with the configuration language and force flag of
    the command line, and not the menu. An invocation with an option the
    default command does not declare is rejected and runs neither. *)
Theorem C8_default_invocation (options : CliOptions.t) :
  (Cli.undeclared Cli.setupCommands [] options = [] ->
   Js.truthy_flag (CliOptions.init options) = false ->
   Cli.parse Cli.setupCommands [] options = Cli.Runs Cli.showMainMenu /\
   forall o, Cli.parse Cli.setupCommands [] options <> Cli.Runs (Cli.init o)) /\
  (Cli.undeclared Cli.setupCommands [] options = [] ->
   CliOptions.init options = Some true ->
   Cli.parse Cli.setupCommands [] options =
   Cli.Runs (Cli.init
           {| InitOptions.lang := None;
              InitOptions.configLang := CliOptions.configLang options;
              InitOptions.aiOutputLang := None;
              InitOptions.force := CliOptions.force options;
              InitOptions.skipPrompt := None;
              InitOptions.installClaude := None;
              InitOptions.configAction := None;
              InitOptions.apiType := None;
              InitOptions.apiKey := None;
              InitOptions.authToken := None;
              InitOptions.apiUrl := None;
              InitOptions.mcpServices := None;
              InitOptions.mcpApiKeys := None;
              InitOptions.workflows := None;
              InitOptions.aiPersonality := None |}) /\
   Cli.parse Cli.setupCommands [] options <> Cli.Runs Cli.showMainMenu) /\
  (Cli.undeclared Cli.setupCommands [] options <> [] ->
   Cli.parse Cli.setupCommands [] options
   = Cli.Rejects (Cli.undeclared Cli.setupCommands [] options) /\
   forall call, Cli.parse Cli.setupCommands [] options <> Cli.Runs call).
Proof.
  assert (Hparse : Cli.parse Cli.setupCommands [] options =
                   match Cli.undeclared Cli.setupCommands [] options with
                   | [] => Cli.Runs (Cli.handleDefaultCommand None options)
                   | unknown => Cli.Rejects unknown
                   end)
    by reflexivity.
  rewrite Hparse. split; [|split].
  - intros Hacc Hinit. rewrite Hacc. unfold Cli.handleDefaultCommand.
    rewrite Hinit. split; [reflexivity | discriminate].
  - intros Hacc Hinit. rewrite Hacc. unfold Cli.handleDefaultCommand.
    rewrite Hinit.
    destruct (no_argument_selects_default options) as (c & Hc & Hn & Hu).
    rewrite Hu in Hacc.
    destruct (default_accepts c options Hc Hn Hacc) as [Hlang _].
    rewrite Hlang. simpl. split; [reflexivity | discriminate].
  - intros Hrej.
    destruct (Cli.undeclared Cli.setupCommands [] options);
      [contradiction|]. split; [reflexivity | discriminate].
Qed.

(** [zcf], [zcf --init -c zh-CN -f] and [zcf --lang en]. *)
Lemma C8_witness :
  Cli.parse Cli.setupCommands [] CliOptions.none = Cli.Runs Cli.showMainMenu /\
  Cli.parse Cli.setupCommands [] CliHelp.init_config_force
  <> Cli.Runs Cli.showMainMenu /\
  Cli.parse Cli.setupCommands [] CliHelp.lang_only = Cli.Rejects ["lang"].
Proof.
  split; [|split].
  - apply (proj1 (C8_default_invocation CliOptions.none)); reflexivity.
  - apply (proj1 (proj2 (C8_default_invocation CliHelp.init_config_force)));
      reflexivity.
  - apply (proj2 (proj2 (C8_default_invocation CliHelp.lang_only))).
    discriminate.
Defined.

(** The commands of the table, by name: the default command is the one
    with the empty name. *)
Example command_names :
  map Cli.name Cli.setupCommands
  = [EmptyString; "init"; "update"; "ccr"; "ccu"; "check-updates"].
Proof. reflexivity. Qed.

(** [zcf i], [zcf ccu monthly] and [zcf en --init]. *)
Example named_commands :
  Cli.parse Cli.setupCommands ["i"] CliOptions.none
  = Cli.Runs (Cli.handleInitCommand CliOptions.none) /\
  Cli.parse Cli.setupCommands ["ccu"; "monthly"] CliOptions.none
  = Cli.Runs (Cli.executeCcusage ["monthly"]) /\
  Cli.parse Cli.setupCommands ["en"] CliOptions.none = Cli.Runs Cli.showMainMenu.
Proof. repeat split. Qed.

(* ================================================================== *)
(** * The AI-personality wizard *)



Section PersonalityFacts.

Import Personality.

Variable host : Host.

Lemma getExistingPersonality_run (w : World) :
  getExistingPersonality w = Some (Eff.Returns (stored_personality w), w).
Proof. reflexivity. Qed.

(** [applyPersonalityDirective] never throws: a failed write is printed
    on the error stream and nothing else happens. *)
Lemma applyPersonalityDirective_run (directive : string) (w : World) :
  applyPersonalityDirective host directive w =
  Some (Eff.Returns tt,
        match io_fault host (personalityFile host) with
        | None =>
            {| config := config w;
               files := (personalityFile host, directive) :: files w;
               asked := asked w; console := console w |}
        | Some e =>
            {| config := config w; files := files w; asked := asked w;
               console := (console w ++ [failure_line host w e])%list |}
        end).
Proof.
  unfold applyPersonalityDirective, writeFile, Eff.try_catch.
  fold (personalityFile host).
  destruct (io_fault host (personalityFile host)); reflexivity.
Qed.

(** The end of the wizard always returns normally; the record names the
    personality whether or not the directive reached the disk. *)
Lemma apply_and_save_run (lang : SupportedLang) (personality directive : string)
  (w : World) :
  exists w',
    apply_and_save host lang personality directive w = Some (Eff.Returns tt, w') /\
    asked w' = asked w /\
    (exists c', config w' = Some c' /\ aiPersonality c' = Some personality) /\
    match io_fault host (personalityFile host) with
    | None =>
        files w' = (personalityFile host, directive) :: files w /\
        console w' = (console w ++ [success_line host lang])%list
    | Some e =>
        files w' = files w /\
        console w' =
        (console w ++ [failure_line host w e; success_line host lang])%list
    end.
Proof.
  unfold apply_and_save, Eff.bind.
  rewrite applyPersonalityDirective_run.
  destruct (io_fault host (personalityFile host)) as [e|];
    (eexists; split; [reflexivity|]); cbn;
    (split; [reflexivity|]); (split; [eauto|]); (split; [reflexivity|]).
  - rewrite <- app_assoc. reflexivity.
  - reflexivity.
Qed.

Lemma first_valid_truthy (i18n : Translation.t) (typed : list string) (v : string) :
  first_valid (validate_directive i18n) typed = Some v -> Js.truthy v = true.
Proof.
  induction typed as [|x typed IH]; simpl; [discriminate|].
  unfold validate_directive at 1. destruct (Js.truthy x) eqn:E.
  - intros H. injection H as <-. exact E.
  - exact IH.
Qed.

(** Every run of the selection asks the personality question first, and
    never throws. *)
Lemma select_and_apply_inv (lang : SupportedLang) (existing : option string)
  (w w' : World) (r : Eff.Completion Js.Error unit) :
  select_and_apply host lang existing w = Some (r, w') ->
  r = Eff.Returns tt /\
  exists rest,
    asked w' = (asked w ++ personality_question host lang existing :: rest)%list.
Proof.
  unfold select_and_apply, prompt_list, Eff.bind at 1 2.
  cbn [record_question Eff.modify Eff.ret].
  set (p := selects (user host) (personality_question host lang existing)).
  destruct (Js.truthy p) eqn:Hp; cbn [negb].
  2:{ intros H. injection H as <- <-. split; [reflexivity|].
      exists []. reflexivity. }
  destruct (String.eqb p "custom").
  - unfold prompt_input, Eff.bind at 1 2.
    cbn [record_question Eff.modify Eff.ret].
    change (validate_of (directive_question (getTranslation host lang)))
      with (validate_directive (getTranslation host lang)).
    destruct (first_valid _ _) as [v|] eqn:Ev; [|discriminate].
    cbn [Eff.ret]. rewrite (first_valid_truthy _ _ _ Ev). cbn [negb].
    match goal with
    | |- apply_and_save host lang p v ?w0 = _ -> _ =>
        destruct (apply_and_save_run lang p v w0) as (w2 & -> & Ha & _)
    end.
    intros H. injection H as <- <-. split; [reflexivity|].
    rewrite Ha. cbn. rewrite <- app_assoc. eexists. reflexivity.
  - match goal with
    | |- match ?f with Some _ => _ | None => _ end ?w0 = _ -> _ =>
        destruct f as [selected|];
        match goal with
        | |- apply_and_save host lang p ?d w0 = _ -> _ =>
            destruct (apply_and_save_run lang p d w0) as (w2 & -> & Ha & _)
        end
    end;
      intros H; injection H as <- <-; (split; [reflexivity|]);
      rewrite Ha; cbn; eexists; reflexivity.
Qed.

End PersonalityFacts.

Lemma configureAiPersonality_selects (host : Personality.Host)
  (lang : SupportedLang) (showExisting : option bool) (w : Personality.World) :
  showExisting = Some false \/
  Js.truthy_opt (Personality.stored_personality w) = false ->
  Personality.configureAiPersonality host lang showExisting w =
  Personality.select_and_apply host lang (Personality.stored_personality w) w.
Proof.
  intros H. unfold Personality.configureAiPersonality, Eff.bind.
  rewrite getExistingPersonality_run.
  destruct H as [-> | ->]; [reflexivity|].
  now rewrite andb_false_r.
Qed.

(** C6: when no ZcfConfig record exists, or the record has no AI
    personality, [hasExistingPersonality] returns [false],
    [getExistingPersonality] returns [null], and [configureAiPersonality]
    does not fail: it goes straight to the personality question, whose
    default is position 0, the first choice ([professional], the default
    personality); a user who takes that choice gets it configured. *)
Theorem C6_unconfigured_defaults (host : Personality.Host)
  (w : Personality.World)
  (Hunconfigured :
     Personality.config w = None \/
     exists c, Personality.config w = Some c /\
               Personality.aiPersonality c = None) :
  Personality.hasExistingPersonality w = Some (Eff.Returns false, w) /\
  Personality.getExistingPersonality w = Some (Eff.Returns None, w) /\
  forall lang showExisting,
    (exists msg cs,
        Personality.personality_question host lang None =
        Personality.List "personality" msg
          (Personality.addNumbersToChoices host cs) 0 /\
        map Choice.value cs =
        ["professional"; "catgirl"; "friendly"; "mentor"; "custom"]) /\
    (forall r w',
        Personality.configureAiPersonality host lang showExisting w = Some (r, w') ->
        r = Eff.Returns tt /\
        exists rest,
          Personality.asked w' =
          (Personality.asked w ++
           Personality.personality_question host lang None :: rest)%list) /\
    (Personality.selects (Personality.user host)
       (Personality.personality_question host lang None) = "professional" ->
     exists w',
       Personality.configureAiPersonality host lang showExisting w
       = Some (Eff.Returns tt, w') /\
       exists c', Personality.config w' = Some c' /\
                  Personality.aiPersonality c' = Some "professional").
Proof.
  assert (Hstored : Personality.stored_personality w = None).
  { unfold Personality.stored_personality.
    destruct Hunconfigured as [-> | (c & -> & ->)]; reflexivity. }
  split; [|split].
  - unfold Personality.hasExistingPersonality, Eff.bind. cbn.
    destruct Hunconfigured as [-> | (c & -> & ->)]; reflexivity.
  - rewrite getExistingPersonality_run, Hstored. reflexivity.
  - intros lang showExisting.
    assert (Hrun : Personality.configureAiPersonality host lang showExisting w =
                   Personality.select_and_apply host lang None w).
    { rewrite configureAiPersonality_selects; rewrite Hstored; auto. }
    rewrite Hrun. split; [|split].
    + eexists _, _. split; reflexivity.
    + intros r w'. apply select_and_apply_inv.
    + intros Hsel.
      unfold Personality.select_and_apply, Personality.prompt_list, Eff.bind at 1 2.
      cbn [Personality.record_question Eff.modify Eff.ret].
      rewrite Hsel. cbn [Js.truthy negb String.eqb Ascii.eqb Bool.eqb].
      cbn [find Personality.AI_PERSONALITIES Personality.id String.eqb
             Ascii.eqb Bool.eqb].
      match goal with
      | |- exists w', Personality.apply_and_save host lang ?p ?d ?w0 = _ /\ _ =>
          destruct (apply_and_save_run host lang p d w0)
            as (w2 & H2 & _ & Hc & _)
      end.
      exists w2. split; [exact H2 | exact Hc].
Qed.

Lemma C6_witness :
  Personality.hasExistingPersonality Personality.fresh
  = Some (Eff.Returns false, Personality.fresh) /\
  Personality.getExistingPersonality Personality.fresh
  = Some (Eff.Returns None, Personality.fresh) /\
  exists w',
    Personality.configureAiPersonality
      (Scenario.host Scenario.presses_enter None) en None Personality.fresh
    = Some (Eff.Returns tt, w') /\
    (exists rest,
        Personality.asked w' =
        Personality.personality_question
          (Scenario.host Scenario.presses_enter None) en None :: rest) /\
    exists c', Personality.config w' = Some c' /\
               Personality.aiPersonality c' = Some "professional".
Proof.
  destruct (C6_unconfigured_defaults (Scenario.host Scenario.presses_enter None)
              Personality.fresh (or_introl eq_refl)) as (H1 & H2 & H3).
  split; [exact H1|]. split; [exact H2|].
  destruct (H3 en None) as (_ & Hasks & Hruns).
  destruct (Hruns eq_refl) as (w' & Hrun & Hcfg).
  exists w'. split; [exact Hrun|]. split; [|exact Hcfg].
  apply (Hasks _ _ Hrun).
Defined.

(** The selection is reached when no stored personality is shown, and
    when one is shown and the user chooses to modify it. *)
Lemma configureAiPersonality_proceeds (host : Personality.Host)
  (lang : SupportedLang) (showExisting : option bool) (w : Personality.World) :
  Wizard.proceeds host lang showExisting w ->
  Personality.configureAiPersonality host lang showExisting w =
  Personality.select_and_apply host lang (Personality.stored_personality w)
    (Wizard.after_showing host lang showExisting w).
Proof.
  unfold Wizard.proceeds, Wizard.after_showing, Wizard.shown_lines,
    Wizard.shown_questions, Wizard.shown.
  unfold Personality.configureAiPersonality, Eff.bind at 1.
  rewrite getExistingPersonality_run.
  assert (Hsame : {| Personality.config := Personality.config w;
                     Personality.files := Personality.files w;
                     Personality.asked := (Personality.asked w ++ [])%list;
                     Personality.console := (Personality.console w ++ [])%list |}
                  = w)
    by (destruct w; cbn; now rewrite !app_nil_r).
  destruct (match showExisting with Some b => b | None => true end
            && Js.truthy_opt (Personality.stored_personality w)).
  - destruct (Personality.getPersonalityInfo _) as [info|].
    + intros Hmodify.
      unfold Personality.prompt_confirm, Eff.bind.
      cbn [Personality.print Personality.record_question Eff.modify Eff.ret
             Personality.config Personality.files Personality.asked
             Personality.console].
      change (Personality.Confirm "modify"
                (Js.or_else
                   (Translation.modifyPersonality
                      (Personality.getTranslation host lang))
                   "Modify AI personality?") false)
        with (Wizard.modify_question host lang).
      rewrite Hmodify. cbn [negb]. f_equal.
      unfold Personality.print, Eff.modify.
      cbn [Personality.config Personality.files Personality.asked
             Personality.console].
      rewrite <- !app_assoc. reflexivity.
    + intros _. now rewrite Hsame.
  - intros _. now rewrite Hsame.
Qed.

(** A selection whose directive cannot be written is recorded and
    reported as a success all the same. *)
Lemma select_and_apply_failed_write (host : Personality.Host)
  (lang : SupportedLang) (existing : option string)
  (w : Personality.World) (e : Js.Error) (personality : string) :
  Personality.io_fault host (Personality.personalityFile host) = Some e ->
  Personality.selects (Personality.user host)
    (Personality.personality_question host lang existing) = personality ->
  personality <> EmptyString ->
  (personality <> "custom" \/
   exists d,
     Personality.first_valid
       (Personality.validate_directive (Personality.getTranslation host lang))
       (Personality.types (Personality.user host)
          (Personality.directive_question (Personality.getTranslation host lang)))
     = Some d) ->
  exists w',
    Personality.select_and_apply host lang existing w
    = Some (Eff.Returns tt, w') /\
    Personality.files w' = Personality.files w /\
    (exists c', Personality.config w' = Some c' /\
                Personality.aiPersonality c' = Some personality) /\
    Personality.console w' =
    (Personality.console w ++
     [Personality.failure_line host w e; Personality.success_line host lang])%list.
Proof.
  intros Hfault Hselect Hchosen Hdirective.
  assert (Hp : Js.truthy personality = true)
    by (destruct personality; [contradiction | reflexivity]).
  unfold Personality.select_and_apply, Personality.prompt_list, Eff.bind at 1 2.
  cbn [Personality.record_question Eff.modify Eff.ret].
  rewrite Hselect, Hp. cbn [negb].
  assert (Hend : forall d w0,
             Personality.config w0 = Personality.config w ->
             Personality.files w0 = Personality.files w ->
             Personality.console w0 = Personality.console w ->
             exists w',
               Personality.apply_and_save host lang personality d w0
               = Some (Eff.Returns tt, w') /\
               Personality.files w' = Personality.files w /\
               (exists c', Personality.config w' = Some c' /\
                           Personality.aiPersonality c' = Some personality) /\
               Personality.console w' =
               (Personality.console w ++
                [Personality.failure_line host w e;
                 Personality.success_line host lang])%list).
  { intros d w0 Hg Hf Hc.
    destruct (apply_and_save_run host lang personality d w0)
      as (w2 & H2 & _ & Hcfg & Hio).
    rewrite Hfault in Hio. destruct Hio as (Hfiles & Hcon).
    exists w2. split; [exact H2|]. split; [congruence|].
    split; [exact Hcfg|]. rewrite Hcon, Hc.
    unfold Personality.failure_line, Personality.error_lang. now rewrite Hg. }
  destruct (String.eqb personality "custom") eqn:Hc.
  - destruct Hdirective as [Hne | (d & Hd)];
      [apply String.eqb_eq in Hc; contradiction|].
    unfold Personality.prompt_input, Eff.bind at 1 2.
    cbn [Personality.record_question Eff.modify Eff.ret].
    change (Personality.validate_of
              (Personality.directive_question (Personality.getTranslation host lang)))
      with (Personality.validate_directive (Personality.getTranslation host lang)).
    rewrite Hd.
    cbn [Eff.ret]. rewrite (first_valid_truthy _ _ _ Hd). cbn [negb].
    apply Hend; reflexivity.
  - destruct (find _ Personality.AI_PERSONALITIES); apply Hend; reflexivity.
Qed.

(** C10: when writing personality.md fails with an I/O error, the error is
    caught and only printed: on every run that reaches the selection (no
    stored personality is shown, or one is shown and the user chooses to
    modify it) [configureAiPersonality] returns normally, leaves the files
    as they were, still records the chosen personality in the ZcfConfig
    record and prints the success line after the error line. The persisted
    record then names a personality whose directive is not on disk. *)
Theorem C10_failed_write_is_only_logged (host : Personality.Host)
  (lang : SupportedLang) (showExisting : option bool)
  (w : Personality.World) (e : Js.Error) (personality : string)
  (Hfault : Personality.io_fault host (Personality.personalityFile host) = Some e)
  (Hproceeds : Wizard.proceeds host lang showExisting w)
  (Hselect : Personality.selects (Personality.user host)
               (Personality.personality_question host lang
                  (Personality.stored_personality w)) = personality)
  (Hchosen : personality <> EmptyString)
  (Hdirective :
     personality <> "custom" \/
     exists d,
       Personality.first_valid
         (Personality.validate_directive (Personality.getTranslation host lang))
         (Personality.types (Personality.user host)
            (Personality.directive_question (Personality.getTranslation host lang)))
       = Some d) :
  exists w',
    Personality.configureAiPersonality host lang showExisting w
    = Some (Eff.Returns tt, w') /\
    Personality.read_file (Personality.files w') (Personality.personalityFile host)
    = Personality.read_file (Personality.files w) (Personality.personalityFile host) /\
    Personality.files w' = Personality.files w /\
    (exists c', Personality.config w' = Some c' /\
                Personality.aiPersonality c' = Some personality) /\
    Personality.console w' =
    (Personality.console w ++ Wizard.shown_lines host lang showExisting w ++
     [Personality.failure_line host w e; Personality.success_line host lang])%list.
Proof.
  rewrite configureAiPersonality_proceeds by exact Hproceeds.
  destruct (select_and_apply_failed_write host lang
              (Personality.stored_personality w)
              (Wizard.after_showing host lang showExisting w) e personality
              Hfault Hselect Hchosen Hdirective)
    as (w' & Hrun & Hfiles & Hcfg & Hcon).
  exists w'. split; [exact Hrun|].
  change (Personality.files (Wizard.after_showing host lang showExisting w))
    with (Personality.files w) in Hfiles.
  split; [now rewrite Hfiles|]. split; [exact Hfiles|]. split; [exact Hcfg|].
  rewrite Hcon. unfold Wizard.after_showing. cbn [Personality.console].
  rewrite <- app_assoc. reflexivity.
Qed.

(** A profile that stores [mentor]: the user chooses to modify it and
    selects [catgirl], and the directory cannot be written. *)
Lemma C10_witness :
  exists w',
    Personality.configureAiPersonality
      (Scenario.host (Wizard.picks "catgirl") (Some Scenario.read_only))
      en None (Wizard.configured "mentor")
    = Some (Eff.Returns tt, w') /\
    Personality.read_file (Personality.files w') "/home/user/.claude/personality.md"
    = None /\
    Personality.files w' = [] /\
    (exists c', Personality.config w' = Some c' /\
                Personality.aiPersonality c' = Some "catgirl") /\
    Personality.console w' =
    [Js.Log [Js.Str (String (ascii_of_nat 10) EmptyString ++
                     "ℹ Existing AI personality configuration")];
     Js.Log [Js.Str "  Current personality: Mentor Mode"];
     Js.Err [Js.Str "Failed to apply personality"; Js.Obj Scenario.read_only];
     Js.Log [Js.Str "✔ AI personality configured"]].
Proof.
  apply (C10_failed_write_is_only_logged
           (Scenario.host (Wizard.picks "catgirl") (Some Scenario.read_only))
           en None (Wizard.configured "mentor") Scenario.read_only "catgirl").
  - reflexivity.
  - reflexivity.
  - reflexivity.
  - discriminate.
  - left. discriminate.
Defined.

(* ================================================================== *)
(** * The merge of the specification *)

Section MergeFacts.

Import Merge.

Variable preserved : string -> bool.

Lemma merge_object (tfs ufs : list (string * Json)) :
  merge preserved (JObject tfs) (JObject ufs)
  = JObject (merge_fields preserved tfs ufs).
Proof. reflexivity. Qed.

(** Outside a pair of objects the template's value is taken whole. *)
Lemma merge_leaf (v u : Json) :
  is_object v && is_object u = false -> merge preserved v u = v.
Proof. destruct v, u; simpl; intros H; try reflexivity; discriminate. Qed.

Lemma lookup_assign_same (k : string) (v : Json) (fs : list (string * Json)) :
  lookup k (assign k v fs) = Some v.
Proof.
  induction fs as [|[k' v'] fs IH]; simpl.
  - now rewrite String.eqb_refl.
  - destruct (String.eqb k k') eqn:E; simpl.
    + now rewrite String.eqb_refl.
    + now rewrite E.
Qed.

Lemma lookup_assign_other (k k' : string) (v : Json) (fs : list (string * Json)) :
  k <> k' -> lookup k (assign k' v fs) = lookup k fs.
Proof.
  intros Hne. induction fs as [|[k0 v0] fs IH]; simpl.
  - apply String.eqb_neq in Hne. now rewrite Hne.
  - destruct (String.eqb k' k0) eqn:E; simpl.
    + apply String.eqb_eq in E. subst k0.
      apply String.eqb_neq in Hne. now rewrite Hne.
    + now rewrite IH.
Qed.

Lemma lookup_absent (k : string) (fs : list (string * Json)) :
  ~ In k (map fst fs) -> lookup k fs = None.
Proof.
  induction fs as [|[k' v'] fs IH]; simpl; [reflexivity|].
  intros H. destruct (String.eqb k k') eqn:E.
  - apply String.eqb_eq in E. subst k'. exfalso. apply H. now left.
  - apply IH. intros Hin. apply H. now right.
Qed.

(** The value of every key after the merge of two objects. *)
Lemma merge_fields_lookup (tfs : list (string * Json)) :
  NoDup (map fst tfs) ->
  forall acc k,
    lookup k (merge_fields preserved tfs acc) =
    match lookup k tfs with
    | None => lookup k acc
    | Some v =>
        match lookup k acc with
        | Some u => Some (if preserved k then u else merge preserved v u)
        | None => Some v
        end
    end.
Proof.
  induction tfs as [|[k0 v0] tfs IH]; intros Hnd acc k; [reflexivity|].
  simpl in Hnd. inversion Hnd as [|? ? Hnotin Hnd']; subst.
  cbn [merge_fields lookup]. rewrite IH by exact Hnd'.
  destruct (String.eqb k k0) eqn:E.
  - apply String.eqb_eq in E. subst k0.
    rewrite (lookup_absent k tfs Hnotin).
    destruct (lookup k acc) as [u|] eqn:Eu.
    + destruct (preserved k); [exact Eu | apply lookup_assign_same].
    + apply lookup_assign_same.
  - assert (Hne : k <> k0) by (now apply String.eqb_neq).
    assert (Hacc : lookup k
                     match lookup k0 acc with
                     | Some u =>
                         if preserved k0 then acc
                         else assign k0 (merge preserved v0 u) acc
                     | None => assign k0 v0 acc
                     end = lookup k acc).
    { destruct (lookup k0 acc); [destruct (preserved k0)|];
        try reflexivity; now apply lookup_assign_other. }
    now rewrite Hacc.
Qed.

End MergeFacts.

(** C4 as stated fails on the merge of the specification: a key that is
    not preserved and holds an object on both sides does not take the
    template's value; the two objects are merged. *)
Lemma C4_counterexample :
  Merge.lookup "env" (Merge.fields_of Merge.nested_target)
  = Some (Merge.JObject [("ANTHROPIC_API_KEY", Merge.JString "abc")]) /\
  Merge.lookup "env" (Merge.fields_of Merge.nested_template)
  = Some (Merge.JObject [("ANTHROPIC_BASE_URL", Merge.JString "https://api.example")]) /\
  Merge.example_preserved "env" = false /\
  Merge.lookup "env"
    (Merge.fields_of
       (Merge.merge Merge.example_preserved Merge.nested_template Merge.nested_target))
  = Some (Merge.JObject [("ANTHROPIC_API_KEY", Merge.JString "abc");
                         ("ANTHROPIC_BASE_URL", Merge.JString "https://api.example")]) /\
  Merge.lookup "env"
    (Merge.fields_of
       (Merge.merge Merge.example_preserved Merge.nested_template Merge.nested_target))
  <> Merge.lookup "env" (Merge.fields_of Merge.nested_template).
Proof.
  repeat split; try reflexivity. vm_compute. discriminate.
Qed.

(** C4, amended: in the merge of a template object into a target object,
    every preserve-user-value field the user has keeps the user's value;
    every other key present in both takes the template's value, except
    that two objects under the same key are merged by the same rule; a key
    only the user has stays and a key only the template has is added. The
    scenario of the specification yields the stated result. *)
Theorem C4_merge_preserves_and_adopts (preserved : string -> bool)
  (tfs ufs : list (string * Merge.Json))
  (Hvalid : NoDup (map fst tfs)) :
  let merged :=
    Merge.fields_of (Merge.merge preserved (Merge.JObject tfs) (Merge.JObject ufs)) in
  (forall k u, Merge.lookup k ufs = Some u -> preserved k = true ->
               Merge.lookup k merged = Some u) /\
  (forall k u v,
      Merge.lookup k ufs = Some u -> Merge.lookup k tfs = Some v ->
      preserved k = false ->
      Merge.lookup k merged = Some (Merge.merge preserved v u) /\
      (Merge.is_object v && Merge.is_object u = false ->
       Merge.lookup k merged = Some v)) /\
  (forall k, Merge.lookup k tfs = None ->
             Merge.lookup k merged = Merge.lookup k ufs) /\
  (forall k v, Merge.lookup k ufs = None -> Merge.lookup k tfs = Some v ->
               Merge.lookup k merged = Some v) /\
  Merge.merge Merge.example_preserved Merge.example_template Merge.example_target
  = Merge.example_result.
Proof.
  intros merged. subst merged. rewrite merge_object. cbn [Merge.fields_of].
  pose proof (merge_fields_lookup preserved tfs Hvalid ufs) as H.
  split; [|split; [|split; [|split]]].
  - intros k u Hu Hp. rewrite H, Hu, Hp.
    destruct (Merge.lookup k tfs); reflexivity.
  - intros k u v Hu Hv Hp. rewrite H, Hv, Hu, Hp.
    split; [reflexivity|]. intros Hleaf. now rewrite merge_leaf.
  - intros k Hk. now rewrite H, Hk.
  - intros k v Hu Hv. now rewrite H, Hv, Hu.
  - reflexivity.
Qed.

Lemma C4_witness :
  let merged :=
    Merge.fields_of
      (Merge.merge Merge.example_preserved Merge.example_template
         Merge.example_target) in
  Merge.lookup "model" merged = Some (Merge.JString "default") /\
  Merge.lookup "apiType" merged = Some (Merge.JString "auth_token") /\
  Merge.lookup "apiKey" merged = Some (Merge.JString "abc") /\
  Merge.lookup "newField" merged = Some (Merge.JBool true).
Proof.
  destruct (C4_merge_preserves_and_adopts Merge.example_preserved
              [("apiType", Merge.JString "auth_token");
               ("model", Merge.JString "opus");
               ("newField", Merge.JBool true)]
              [("apiType", Merge.JString "api_key");
               ("apiKey", Merge.JString "abc");
               ("model", Merge.JString "default")]
              ltac:(repeat constructor; simpl; intuition discriminate))
    as (Hkeep & Hadopt & Honly_user & Honly_template & _).
  split; [|split; [|split]].
  - apply Hkeep; reflexivity.
  - apply (proj2 (Hadopt "apiType" (Merge.JString "api_key")
                    (Merge.JString "auth_token") eq_refl eq_refl eq_refl)).
    reflexivity.
  - apply (Honly_user "apiKey"). reflexivity.
  - apply Honly_template; reflexivity.
Defined.

(* ================================================================== *)
(** * More about the router helper *)

Section CcrMore.

Variable shell : Ccr.Shell.
Variable I18N : SupportedLang -> Ccr.Messages.
Variable ansis : Js.Colour -> string -> string.

Lemma isCcrInstalled_returns (w w' : Ccr.World) (c : Eff.Completion Js.Error bool) :
  Ccr.isCcrInstalled shell w = Some (c, w') -> exists b, c = Eff.Returns b.
Proof.
  intros H.
  apply isCcrInstalled_inv in H
    as [(out & _ & ->) | (e & w1 & _ & [(out & _ & ->) | (e' & _ & ->)])]; eauto.
Qed.

(** The ways in which [installCcr] runs to its end. *)
Lemma installCcr_inv (lang : SupportedLang) (w w' : Ccr.World)
  (c : Eff.Completion Js.Error unit) :
  Ccr.installCcr shell I18N ansis lang w = Some (c, w') ->
  (exists w1,
      Ccr.isCcrInstalled shell w = Some (Eff.Returns true, w1) /\
      c = Eff.Returns tt /\
      w' = CcrOutput.printed w1 (CcrOutput.already I18N ansis lang)) \/
  (exists w1 r w2,
      Ccr.isCcrInstalled shell w = Some (Eff.Returns false, w1) /\
      Ccr.execAsync shell CcrOutput.npm_install
        (CcrOutput.printed w1 (CcrOutput.installing I18N ansis lang))
      = Some (r, w2) /\
      match r with
      | Eff.Returns _ =>
          c = Eff.Returns tt /\
          w' = CcrOutput.printed w2 (CcrOutput.success I18N ansis lang)
      | Eff.Throws e =>
          if Ccr.message_includes e "EEXIST"
          then c = Eff.Returns tt /\
               w' = CcrOutput.printed w2 (CcrOutput.exists_already I18N ansis lang)
          else c = Eff.Throws e /\
               w' = CcrOutput.printed w2 (CcrOutput.failed I18N ansis lang)
      end).
Proof.
  unfold Ccr.installCcr, Eff.bind.
  destruct (Ccr.isCcrInstalled shell w) as [[c1 w1]|] eqn:E1; [|discriminate].
  destruct (isCcrInstalled_returns _ _ _ E1) as [b ->].
  destruct b.
  - intros H. injection H as <- <-. left. exists w1. auto.
  - unfold Eff.try_catch, Eff.bind.
    change (Ccr.print (Js.Log [Js.Str (ansis Js.cyan
              ("📦 " ++ Ccr.installingCcr (I18N lang)))]) w1)
      with (Some (Eff.Returns (E := Js.Error) tt,
                  CcrOutput.printed w1 (CcrOutput.installing I18N ansis lang))).
    cbv iota beta.
    change "npm install -g claude-code-router --force" with CcrOutput.npm_install.
    destruct (Ccr.execAsync shell CcrOutput.npm_install _)
      as [[[out|e] w2]|] eqn:E2; [ | | discriminate ].
    + intros H. injection H as <- <-. right. exists w1, (Eff.Returns out), w2. auto.
    + destruct (Ccr.message_includes e "EEXIST") eqn:Em;
        intros H; injection H as <- <-; right;
        exists w1, (Eff.Throws e), w2; rewrite Em; auto.
Qed.

Lemma advance_idle (t : N) (w : Ccr.World) :
  Ccr.pending w = [] ->
  Ccr.console (Ccr.advance t w) = Ccr.console w /\
  Ccr.pending (Ccr.advance t w) = [].
Proof.
  intros H. unfold Ccr.advance. rewrite H. simpl.
  now rewrite app_nil_r.
Qed.

(** With no callback pending, awaiting a command prints nothing. *)
Lemma execAsync_idle (cmd : string) (w w' : Ccr.World)
  (c : Eff.Completion Js.Error string) :
  Ccr.pending w = [] ->
  Ccr.execAsync shell cmd w = Some (c, w') ->
  Ccr.console w' = Ccr.console w /\ Ccr.pending w' = [].
Proof.
  intros Hp. unfold Ccr.execAsync.
  destruct (Ccr.lifetime (shell (Ccr.history w) cmd)) as [d|]; [|discriminate].
  destruct (Ccr.result (shell (Ccr.history w) cmd)); intros H;
    injection H as _ <-;
    match goal with
    | |- context [Ccr.advance ?t ?w1] => exact (advance_idle t w1 Hp)
    end.
Qed.

Lemma isCcrInstalled_idle (w w' : Ccr.World) (c : Eff.Completion Js.Error bool) :
  Ccr.pending w = [] ->
  Ccr.isCcrInstalled shell w = Some (c, w') ->
  Ccr.console w' = Ccr.console w /\ Ccr.pending w' = [].
Proof.
  intros Hp H.
  apply isCcrInstalled_inv in H
    as [(out & H & _) | (e & w1 & H1 & H2)].
  - eapply execAsync_idle; eauto.
  - destruct (execAsync_idle _ _ _ _ Hp H1) as [Hc1 Hp1].
    destruct H2 as [(out & H & _) | (e' & H & _)];
      destruct (execAsync_idle _ _ _ _ Hp1 H) as [Hc2 Hp2];
      split; congruence.
Qed.

Lemma printed_history (w : Ccr.World) (l : Js.Line) :
  Ccr.history (CcrOutput.printed w l) = Ccr.history w.
Proof. reflexivity. Qed.

(** The commands one settled run of [installCcr] has spawned. *)
Lemma installCcr_history (lang : SupportedLang) (w w' : Ccr.World)
  (c : Eff.Completion Js.Error unit) :
  Ccr.installCcr shell I18N ansis lang w = Some (c, w') ->
  (exists w1, Ccr.isCcrInstalled shell w = Some (Eff.Returns true, w1) /\
              Ccr.history w' = Ccr.history w1) \/
  (exists w1, Ccr.isCcrInstalled shell w = Some (Eff.Returns false, w1) /\
              Ccr.history w' =
              (Ccr.history w ++
               ["ccr version"; "which ccr"; CcrOutput.npm_install])%list).
Proof.
  intros H.
  apply installCcr_inv in H
    as [(w1 & H1 & _ & ->) | (w1 & r & w2 & H1 & H2 & Hr)].
  - left. exists w1. split; [exact H1 | reflexivity].
  - right. exists w1. split; [exact H1|].
    assert (Hh : Ccr.history w' = Ccr.history w2)
      by (destruct r as [out|e];
          [|destruct (Ccr.message_includes e "EEXIST")];
          destruct Hr as [_ ->]; reflexivity).
    rewrite Hh. apply execAsync_spawned in H2. rewrite H2, printed_history.
    pose proof (isCcrInstalled_history _ _ _ _ H1) as Hprobe.
    apply isCcrInstalled_inv in H1
      as [(out & _ & Hc) | (e & w0 & H0 & _)]; [discriminate|].
    apply execAsync_outcome in H0.
    destruct (Ccr.result (shell (Ccr.history w) "ccr version")); [|discriminate].
    rewrite Hprobe, <- app_assoc. reflexivity.
Qed.

End CcrMore.



Lemma chars_append (a b : string) :
  Spec.chars (a ++ b) = (Spec.chars a ++ Spec.chars b)%list.
Proof. induction a as [|x a IH]; simpl; [reflexivity | now rewrite IH]. Qed.

(** The pattern matches a dotted version whole. *)
Lemma match_here_fixed (v : string) :
  Spec.dotted_version v -> RegExp.match_here RegExp.version_re v = Some v.
Proof.
  intros Hv.
  destruct (match_here_max v EmptyString Hv) as (m & Hm & Hle).
  rewrite append_empty_r in Hm. rewrite Hm. f_equal.
  destruct (match_here_sound _ _ Hm) as [_ [post Hpost]].
  assert (Hlen : String.length v = String.length m + String.length post)
    by (rewrite Hpost at 1; apply length_append).
  destruct post as [|x post]; [|simpl in Hlen; lia].
  rewrite append_empty_r in Hpost. congruence.
Qed.

Lemma version_match_fixed (v : string) :
  Spec.dotted_version v ->
  option_map RegExp.group1 (RegExp.String_match v RegExp.version_re) = Some v.
Proof.
  intros Hv. apply match_here_fixed in Hv.
  unfold RegExp.String_match. destruct v; cbn [RegExp.exec_from];
    rewrite Hv; reflexivity.
Qed.

Lemma getCcrVersion_run (shell : Ccr.Shell) (w : Ccr.World) (stdout : string)
  (d : N) :
  Ccr.lifetime (shell (Ccr.history w) "ccr version") = Some d ->
  Ccr.result (shell (Ccr.history w) "ccr version") = inr stdout ->
  exists w',
    Ccr.getCcrVersion shell w =
    Some (Eff.Returns
            (option_map RegExp.group1
               (RegExp.String_match stdout RegExp.version_re)), w').
Proof.
  intros Hl Hr.
  destruct (execAsync_settles shell _ w d Hl) as (c & w' & H).
  pose proof (execAsync_outcome _ _ _ _ _ H) as Hc. rewrite Hr in Hc. subst c.
  exists w'. unfold Ccr.getCcrVersion, Eff.try_catch, Eff.bind, Eff.ret.
  rewrite H. reflexivity.
Qed.

(** X2: a version that [getCcrVersion] has returned is read back unchanged:
    wherever [ccr version] exits successfully with exactly that text as its
    output, [getCcrVersion] returns it again. *)
Theorem X2_version_read_back (shell shell' : Ccr.Shell) (w w1 w' : Ccr.World)
  (v : string) (d : N)
  (Hfirst : Ccr.getCcrVersion shell w = Some (Eff.Returns (Some v), w1))
  (Hlife : Ccr.lifetime (shell' (Ccr.history w') "ccr version") = Some d)
  (Hprints : Ccr.result (shell' (Ccr.history w') "ccr version") = inr v) :
  exists w2, Ccr.getCcrVersion shell' w' = Some (Eff.Returns (Some v), w2).
Proof.
  assert (Hv : Spec.dotted_version v).
  { apply getCcrVersion_inv in Hfirst as [(stdout & _ & Hc) | (e & _ & Hc)];
      [|discriminate].
    injection Hc as Hc.
    pose proof (version_match_spec stdout) as Hspec.
    rewrite <- Hc in Hspec. destruct Hspec as (i & _ & Hv & _). exact Hv. }
  destruct (getCcrVersion_run shell' w' v d Hlife Hprints) as (w2 & H).
  exists w2. rewrite H, (version_match_fixed v Hv). reflexivity.
Qed.

Lemma X2_witness :
  exists w2,
    Ccr.getCcrVersion (fun _ _ => {| Ccr.lifetime := Some 1%N;
                                     Ccr.result := inr "1.0.43" |}) Ccr.boot
    = Some (Eff.Returns (Some "1.0.43"), w2).
Proof.
  eapply (X2_version_read_back Scenario.installed _ Ccr.boot _ Ccr.boot
            "1.0.43" 1%N); reflexivity.
Defined.

Lemma dotted_version_has_dot (v : string) :
  Spec.dotted_version v -> In "."%char (Spec.chars v).
Proof.
  intros (a & b & c & _ & _ & _ & ->).
  rewrite chars_append. apply in_or_app. right. now left.
Qed.

(** X3: when the output of [ccr version] contains no dot, [getCcrVersion]
    returns [null]. *)
Theorem X3_no_dot_no_version (shell : Ccr.Shell) (w : Ccr.World)
  (stdout : string) (d : N)
  (Hlife : Ccr.lifetime (shell (Ccr.history w) "ccr version") = Some d)
  (Hout : Ccr.result (shell (Ccr.history w) "ccr version") = inr stdout)
  (Hdotless : CcrOutput.dotless stdout) :
  exists w', Ccr.getCcrVersion shell w = Some (Eff.Returns None, w').
Proof.
  destruct (getCcrVersion_run shell w stdout d Hlife Hout) as (w' & H).
  exists w'. rewrite H. repeat f_equal.
  pose proof (version_match_spec stdout) as Hspec.
  destruct (option_map RegExp.group1 _) as [v|]; [|reflexivity].
  destruct Hspec as (i & (pre & post & -> & _) & Hv & _).
  exfalso. apply (Hdotless "."%char); [|reflexivity].
  rewrite !chars_append. apply in_or_app. right. apply in_or_app. left.
  now apply dotted_version_has_dot.
Qed.

Lemma X3_witness :
  exists w',
    Ccr.getCcrVersion (fun _ _ => {| Ccr.lifetime := Some 1%N;
                                     Ccr.result := inr "ccr 1-0-43" |}) Ccr.boot
    = Some (Eff.Returns None, w').
Proof.
  apply (X3_no_dot_no_version _ Ccr.boot "ccr 1-0-43" 1%N);
    try reflexivity.
  intros c Hc. simpl in Hc.
  repeat (destruct Hc as [<-|Hc]; [discriminate|]). contradiction.
Defined.

Lemma execAsync_returns (shell : Ccr.Shell) (cmd : string) (w : Ccr.World)
  (d : N) (out : string) :
  Ccr.lifetime (shell (Ccr.history w) cmd) = Some d ->
  Ccr.result (shell (Ccr.history w) cmd) = inr out ->
  exists w', Ccr.execAsync shell cmd w = Some (Eff.Returns out, w').
Proof.
  intros Hl Hr.
  destruct (execAsync_settles shell cmd w d Hl) as (c & w' & H).
  pose proof (execAsync_outcome _ _ _ _ _ H) as Hc. rewrite Hr in Hc. subst c.
  eauto.
Qed.

(** X4: when the router is not installed and the package manager succeeds,
    [installCcr] returns normally after spawning the two probes and one
    installation, in that order, and prints the progress line and then the
    success line. *)
Theorem X4_installCcr_installs (shell : Ccr.Shell)
  (I18N : SupportedLang -> Ccr.Messages)
  (ansis : Js.Colour -> string -> string) (lang : SupportedLang)
  (w w1 : Ccr.World) (d : N) (out : string)
  (Hidle : Ccr.pending w = [])
  (Habsent : Ccr.isCcrInstalled shell w = Some (Eff.Returns false, w1))
  (Hlife : Ccr.lifetime (shell (Ccr.history w1) CcrOutput.npm_install) = Some d)
  (Hnpm : Ccr.result (shell (Ccr.history w1) CcrOutput.npm_install) = inr out) :
  exists w',
    Ccr.installCcr shell I18N ansis lang w = Some (Eff.Returns tt, w') /\
    Ccr.spawned w w' = ["ccr version"; "which ccr"; CcrOutput.npm_install] /\
    Ccr.console w' =
    (Ccr.console w ++
     [CcrOutput.installing I18N ansis lang; CcrOutput.success I18N ansis lang])%list.
Proof.
  destruct (execAsync_returns shell CcrOutput.npm_install
              (CcrOutput.printed w1 (CcrOutput.installing I18N ansis lang))
              d out Hlife Hnpm) as (w2 & H2).
  assert (Hrun : Ccr.installCcr shell I18N ansis lang w =
                 Some (Eff.Returns tt,
                       CcrOutput.printed w2 (CcrOutput.success I18N ansis lang))).
  { unfold Ccr.installCcr, Eff.bind. rewrite Habsent.
    unfold Eff.try_catch, Eff.bind.
    change (Ccr.print (Js.Log [Js.Str (ansis Js.cyan
              ("📦 " ++ Ccr.installingCcr (I18N lang)))]) w1)
      with (Some (Eff.Returns (E := Js.Error) tt,
                  CcrOutput.printed w1 (CcrOutput.installing I18N ansis lang))).
    cbv iota beta.
    change "npm install -g claude-code-router --force" with CcrOutput.npm_install.
    rewrite H2. reflexivity. }
  eexists. split; [exact Hrun|]. split.
  - apply spawned_app.
    destruct (installCcr_history shell I18N ansis lang _ _ _ Hrun)
      as [(w0 & H0 & _) | (w0 & _ & Hh)]; [congruence | exact Hh].
  - destruct (isCcrInstalled_idle shell _ _ _ Hidle Habsent) as [Hc1 Hp1].
    destruct (execAsync_idle shell _
                (CcrOutput.printed w1 (CcrOutput.installing I18N ansis lang))
                _ _ Hp1 H2) as [Hc2 _].
    cbn [CcrOutput.printed Ccr.console]. rewrite Hc2.
    cbn [CcrOutput.printed Ccr.console]. rewrite Hc1, <- app_assoc. reflexivity.
Qed.

Lemma X4_witness :
  exists w',
    Ccr.installCcr
      (fun _ cmd =>
         if String.eqb cmd CcrOutput.npm_install
         then {| Ccr.lifetime := Some 900%N; Ccr.result := inr "added 1 package" |}
         else {| Ccr.lifetime := Some 5%N;
                 Ccr.result := inl {| Js.message := Some "not found" |} |})
      Scenario.messages Scenario.plain en Ccr.boot
    = Some (Eff.Returns tt, w') /\
    Ccr.spawned Ccr.boot w' = ["ccr version"; "which ccr"; CcrOutput.npm_install] /\
    Ccr.console w' =
    [Js.Log [Js.Str "📦 Installing CCR"]; Js.Log [Js.Str "✔ CCR installed"]].
Proof.
  eapply (X4_installCcr_installs _ Scenario.messages Scenario.plain en Ccr.boot
            _ 900%N "added 1 package"); reflexivity.
Defined.

(** X5: [installCcr] throws only the error of a failed installation: if it
    throws [e], then the probes found no router, the package manager failed
    with [e], the message of [e] does not contain EEXIST, and the last line
    printed is the failure line on the error stream. *)
Theorem X5_installCcr_throws_the_npm_error (shell : Ccr.Shell)
  (I18N : SupportedLang -> Ccr.Messages)
  (ansis : Js.Colour -> string -> string) (lang : SupportedLang)
  (w w' : Ccr.World) (e : Js.Error)
  (Hthrows : Ccr.installCcr shell I18N ansis lang w = Some (Eff.Throws e, w')) :
  exists w1,
    Ccr.isCcrInstalled shell w = Some (Eff.Returns false, w1) /\
    Ccr.result (shell (Ccr.history w1) CcrOutput.npm_install) = inl e /\
    Ccr.message_includes e "EEXIST" = false /\
    exists lines,
      Ccr.console w' = (lines ++ [CcrOutput.failed I18N ansis lang])%list.
Proof.
  apply installCcr_inv in Hthrows
    as [(w1 & _ & Hc & _) | (w1 & r & w2 & H1 & H2 & Hr)]; [discriminate|].
  exists w1. split; [exact H1|].
  apply execAsync_outcome in H2. rewrite printed_history in H2.
  destruct r as [out|e']; [destruct Hr; discriminate|].
  destruct (Ccr.message_includes e' "EEXIST") eqn:Em;
    destruct Hr as [Hc ->]; [discriminate|].
  injection Hc as <-.
  destruct (Ccr.result (shell (Ccr.history w1) CcrOutput.npm_install))
    as [e0|]; [|discriminate].
  injection H2 as ->.
  split; [reflexivity|]. split; [exact Em|].
  eexists. reflexivity.
Qed.

Lemma X5_witness :
  exists w1,
    Ccr.isCcrInstalled (Scenario.npm_fails "npm error code EACCES") Ccr.boot
    = Some (Eff.Returns false, w1) /\
    Ccr.result (Scenario.npm_fails "npm error code EACCES" (Ccr.history w1)
                  CcrOutput.npm_install)
    = inl {| Js.message := Some "npm error code EACCES" |} /\
    Ccr.message_includes {| Js.message := Some "npm error code EACCES" |} "EEXIST"
    = false /\
    exists lines,
      Ccr.console
        {| Ccr.clock := 910;
           Ccr.children :=
             [{| Ccr.command := "ccr version"; Ccr.started := 0;
                 Ccr.exits := Some 5%N |};
              {| Ccr.command := "which ccr"; Ccr.started := 5;
                 Ccr.exits := Some 10%N |};
              {| Ccr.command := CcrOutput.npm_install; Ccr.started := 10;
                 Ccr.exits := Some 910%N |}];
           Ccr.pending := [];
           Ccr.console :=
             [CcrOutput.installing Scenario.messages Scenario.plain en;
              CcrOutput.failed Scenario.messages Scenario.plain en] |}
      = (lines ++ [CcrOutput.failed Scenario.messages Scenario.plain en])%list.
Proof.
  eapply (X5_installCcr_throws_the_npm_error
            (Scenario.npm_fails "npm error code EACCES")
            Scenario.messages Scenario.plain en Ccr.boot).
  reflexivity.
Defined.

(** X6: a run of [installCcr] spawns the package manager at most once, and
    only after both probes: the commands spawned are the probes that
    [isCcrInstalled] ran when it answered [true], and the two probes
    followed by one installation when it answered [false]. *)
Theorem X6_installCcr_spawns (shell : Ccr.Shell)
  (I18N : SupportedLang -> Ccr.Messages)
  (ansis : Js.Colour -> string -> string) (lang : SupportedLang)
  (w w' : Ccr.World) (c : Eff.Completion Js.Error unit)
  (Hrun : Ccr.installCcr shell I18N ansis lang w = Some (c, w')) :
  (exists w1,
      Ccr.isCcrInstalled shell w = Some (Eff.Returns true, w1) /\
      Ccr.spawned w w' = Ccr.spawned w w1 /\
      ~ In CcrOutput.npm_install (Ccr.spawned w w')) \/
  (exists w1,
      Ccr.isCcrInstalled shell w = Some (Eff.Returns false, w1) /\
      Ccr.spawned w w' = ["ccr version"; "which ccr"; CcrOutput.npm_install]).
Proof.
  destruct (installCcr_history shell I18N ansis lang _ _ _ Hrun)
    as [(w1 & H1 & Hh) | (w1 & H1 & Hh)].
  - left. exists w1. split; [exact H1|].
    assert (Hs : Ccr.spawned w w' = Ccr.spawned w w1)
      by (unfold Ccr.spawned; now rewrite Hh).
    split; [exact Hs|]. rewrite Hs.
    apply isCcrInstalled_history in H1.
    destruct (Ccr.result (shell (Ccr.history w) "ccr version"));
      rewrite (spawned_app _ _ _ H1); simpl; intuition discriminate.
  - right. exists w1. split; [exact H1|]. now apply spawned_app.
Qed.

Lemma X6_witness :
  (exists w1,
      Ccr.isCcrInstalled Scenario.installed Ccr.boot = Some (Eff.Returns true, w1) /\
      Ccr.spawned Ccr.boot
        (CcrOutput.printed
           {| Ccr.clock := 40;
              Ccr.children := [{| Ccr.command := "ccr version"; Ccr.started := 0;
                                  Ccr.exits := Some 40%N |}];
              Ccr.pending := []; Ccr.console := [] |}
           (CcrOutput.already Scenario.messages Scenario.plain en))
      = Ccr.spawned Ccr.boot w1 /\
      ~ In CcrOutput.npm_install
          (Ccr.spawned Ccr.boot
             (CcrOutput.printed
                {| Ccr.clock := 40;
                   Ccr.children := [{| Ccr.command := "ccr version"; Ccr.started := 0;
                                       Ccr.exits := Some 40%N |}];
                   Ccr.pending := []; Ccr.console := [] |}
                (CcrOutput.already Scenario.messages Scenario.plain en)))) \/
  (exists w1,
      Ccr.isCcrInstalled Scenario.installed Ccr.boot = Some (Eff.Returns false, w1) /\
      Ccr.spawned Ccr.boot
        (CcrOutput.printed
           {| Ccr.clock := 40;
              Ccr.children := [{| Ccr.command := "ccr version"; Ccr.started := 0;
                                  Ccr.exits := Some 40%N |}];
              Ccr.pending := []; Ccr.console := [] |}
           (CcrOutput.already Scenario.messages Scenario.plain en))
      = ["ccr version"; "which ccr"; CcrOutput.npm_install]).
Proof.
  eapply (X6_installCcr_spawns Scenario.installed Scenario.messages
            Scenario.plain en Ccr.boot).
  reflexivity.
Defined.

(** X7: with no callback pending, a run of [installCcr] prints one line
    when the router is found installed and otherwise two, the progress line
    and one verdict; the verdict is the failure line exactly when the call
    throws. *)
Theorem X7_installCcr_console (shell : Ccr.Shell)
  (I18N : SupportedLang -> Ccr.Messages)
  (ansis : Js.Colour -> string -> string) (lang : SupportedLang)
  (w w' : Ccr.World) (c : Eff.Completion Js.Error unit)
  (Hidle : Ccr.pending w = [])
  (Hrun : Ccr.installCcr shell I18N ansis lang w = Some (c, w')) :
  (c = Eff.Returns tt /\
   Ccr.console w' =
   (Ccr.console w ++ [CcrOutput.already I18N ansis lang])%list) \/
  (exists verdict,
      Ccr.console w' =
      (Ccr.console w ++ [CcrOutput.installing I18N ansis lang; verdict])%list /\
      ((c = Eff.Returns tt /\
        (verdict = CcrOutput.success I18N ansis lang \/
         verdict = CcrOutput.exists_already I18N ansis lang)) \/
       ((exists e, c = Eff.Throws e) /\
        verdict = CcrOutput.failed I18N ansis lang))).
Proof.
  apply installCcr_inv in Hrun
    as [(w1 & H1 & -> & ->) | (w1 & r & w2 & H1 & H2 & Hr)].
  - left. split; [reflexivity|].
    destruct (isCcrInstalled_idle shell _ _ _ Hidle H1) as [Hc1 _].
    cbn [CcrOutput.printed Ccr.console]. now rewrite Hc1.
  - right.
    destruct (isCcrInstalled_idle shell _ _ _ Hidle H1) as [Hc1 Hp1].
    destruct (execAsync_idle shell _
                (CcrOutput.printed w1 (CcrOutput.installing I18N ansis lang))
                _ _ Hp1 H2) as [Hc2 _].
    assert (Hcon : forall l,
               Ccr.console (CcrOutput.printed w2 l) =
               (Ccr.console w ++ [CcrOutput.installing I18N ansis lang; l])%list).
    { intros l. cbn [CcrOutput.printed Ccr.console]. rewrite Hc2.
      cbn [CcrOutput.printed Ccr.console]. now rewrite Hc1, <- app_assoc. }
    destruct r as [out|e]; [|destruct (Ccr.message_includes e "EEXIST")];
      destruct Hr as [-> ->]; eexists; (split; [apply Hcon|]); eauto.
Qed.

Lemma X7_witness :
  (Eff.Returns (E := Js.Error) tt = Eff.Returns tt /\
   Ccr.console
     (CcrOutput.printed
        {| Ccr.clock := 40;
           Ccr.children := [{| Ccr.command := "ccr version"; Ccr.started := 0;
                               Ccr.exits := Some 40%N |}];
           Ccr.pending := []; Ccr.console := [] |}
        (CcrOutput.already Scenario.messages Scenario.plain en))
   = (Ccr.console Ccr.boot ++
      [CcrOutput.already Scenario.messages Scenario.plain en])%list) \/
  (exists verdict,
      Ccr.console
        (CcrOutput.printed
           {| Ccr.clock := 40;
              Ccr.children := [{| Ccr.command := "ccr version"; Ccr.started := 0;
                                  Ccr.exits := Some 40%N |}];
              Ccr.pending := []; Ccr.console := [] |}
           (CcrOutput.already Scenario.messages Scenario.plain en))
      = (Ccr.console Ccr.boot ++
         [CcrOutput.installing Scenario.messages Scenario.plain en; verdict])%list /\
      ((Eff.Returns (E := Js.Error) tt = Eff.Returns tt /\
        (verdict = CcrOutput.success Scenario.messages Scenario.plain en \/
         verdict = CcrOutput.exists_already Scenario.messages Scenario.plain en)) \/
       ((exists e : Js.Error, Eff.Returns tt = Eff.Throws e) /\
        verdict = CcrOutput.failed Scenario.messages Scenario.plain en))).
Proof.
  eapply (X7_installCcr_console Scenario.installed Scenario.messages
            Scenario.plain en Ccr.boot); reflexivity.
Defined.

(** X8: with no callback pending, [startCcrService] never throws and
    returns after 2000 ms; it has printed the start failure, with the error,
    exactly when [ccr] failed within those 2000 ms. A [ccr] that is still
    running, or has succeeded, leaves the console as it was; a later failure
    is left to a callback that has not run yet. *)
Theorem X8_startCcrService_report (shell : Ccr.Shell)
  (I18N : SupportedLang -> Ccr.Messages)
  (ansis : Js.Colour -> string -> string) (scriptLang : option SupportedLang)
  (w : Ccr.World)
  (Hidle : Ccr.pending w = []) :
  let lang := match scriptLang with Some l => l | None => zh_CN end in
  let p := shell (Ccr.history w) "ccr" in
  exists w',
    Ccr.startCcrService shell I18N ansis scriptLang w = Some (Eff.Returns tt, w') /\
    match Ccr.lifetime p, Ccr.result p with
    | Some d, inl e =>
        if (d <=? 2000)%N
        then Ccr.console w' =
             (Ccr.console w ++ [CcrOutput.start_failed I18N ansis lang e])%list /\
             Ccr.pending w' = []
        else Ccr.console w' = Ccr.console w /\
             Ccr.pending w' =
             [((Ccr.clock w + d)%N, [CcrOutput.start_failed I18N ansis lang e])]
    | _, _ => Ccr.console w' = Ccr.console w
    end.
Proof.
  intros lang p.
  eexists. split; [reflexivity|].
  cbv beta zeta. unfold Ccr.advance. cbn [Ccr.pending Ccr.clock Ccr.console].
  fold p. fold lang. rewrite Hidle.
  destruct (Ccr.lifetime p) as [d|]; cbn [option_map].
  - assert (Hcmp : ((Ccr.clock w + d <=? Ccr.clock w + 2000) = (d <=? 2000))%N).
    { destruct (N.leb_spec d 2000); [apply N.leb_le | apply N.leb_gt]; lia. }
    destruct (Ccr.result p) as [e|out]; cbn [Ccr.error_of Ccr.schedule Ccr.fire];
      rewrite Hcmp; destruct (d <=? 2000)%N;
      cbn [Ccr.console Ccr.pending Ccr.fire];
      rewrite ?app_nil_r; auto.
  - cbn [Ccr.fire Ccr.console]. rewrite app_nil_r.
    destruct (Ccr.result p); reflexivity.
Qed.

Lemma X8_witness :
  exists w',
    Ccr.startCcrService Scenario.absent Scenario.messages Scenario.plain None
      Ccr.boot = Some (Eff.Returns tt, w') /\
    Ccr.console w' =
    [CcrOutput.start_failed Scenario.messages Scenario.plain zh_CN
       {| Js.message := Some "/bin/sh: 1: ccr: not found" |}] /\
    Ccr.pending w' = [].
Proof.
  apply (X8_startCcrService_report Scenario.absent Scenario.messages
           Scenario.plain None Ccr.boot eq_refl).
Defined.

(* ================================================================== *)
(** * More about the command line *)

Lemma filter_none {A : Type} (f : A -> bool) (l : list A) :
  (forall x, In x l -> f x = false) -> filter f l = [].
Proof.
  induction l as [|x l IH]; intros H; simpl; [reflexivity|].
  rewrite (H x (or_introl eq_refl)). apply IH. intros y Hy. apply H. now right.
Qed.

Lemma existsb_eqb_false (a : string) (l : list string) :
  ~ In a l -> existsb (String.eqb a) l = false.
Proof.
  induction l as [|x l IH]; intros H; simpl; [reflexivity|].
  destruct (String.eqb_spec a x) as [->|Hne].
  - exfalso. apply H. now left.
  - apply IH. intros Hin. apply H. now right.
Qed.

Lemma isMatched_unknown (c : Cli.Command) (a : string) :
  ~ In a (CliHelp.words c) -> Cli.isMatched c (Some a) = false.
Proof.
  unfold CliHelp.words, Cli.isMatched. intros H.
  destruct (String.eqb_spec (Cli.name c) a) as [<-|Hne].
  - exfalso. apply H. now left.
  - apply existsb_eqb_false. intros Hin. apply H. now right.
Qed.


(** X10: the aliases select the commands they abbreviate: [i], [u] and
    [check] come to what [init], [update] and [check-updates] come to, with
    the same options, whatever follows on the command line; and each of
    these commands runs its handler on the options when it accepts them. *)
Theorem X10_aliases_run_their_commands (rest : list string)
  (options : CliOptions.t) :
  Cli.parse Cli.setupCommands ("i" :: rest) options
  = Cli.parse Cli.setupCommands ("init" :: rest) options /\
  Cli.parse Cli.setupCommands ("u" :: rest) options
  = Cli.parse Cli.setupCommands ("update" :: rest) options /\
  Cli.parse Cli.setupCommands ("check" :: rest) options
  = Cli.parse Cli.setupCommands ("check-updates" :: rest) options /\
  (Cli.undeclared Cli.setupCommands ("init" :: rest) options = [] ->
   Cli.parse Cli.setupCommands ("init" :: rest) options
   = Cli.Runs (Cli.handleInitCommand options)) /\
  (Cli.undeclared Cli.setupCommands ("update" :: rest) options = [] ->
   Cli.parse Cli.setupCommands ("update" :: rest) options
   = Cli.Runs (Cli.update (CliOptions.configLang options))) /\
  (Cli.undeclared Cli.setupCommands ("check-updates" :: rest) options = [] ->
   Cli.parse Cli.setupCommands ("check-updates" :: rest) options
   = Cli.Runs (Cli.checkUpdates (CliOptions.lang options))).
Proof.
  split; [reflexivity|]. split; [reflexivity|]. split; [reflexivity|].
  split; [|split]; intros H;
    match goal with
    | |- Cli.parse ?cli ?args ?o = Cli.Runs ?call =>
        change (Cli.parse cli args o)
          with (match Cli.undeclared cli args o with
                | [] => Cli.Runs call
                | unknown => Cli.Rejects unknown
                end)
    end; now rewrite H.
Qed.

(** An argument that names no command selects the default command. *)
Lemma unknown_word_selects_default (a : string) (rest : list string) :
  (forall c, In c Cli.setupCommands -> ~ In a (CliHelp.words c)) ->
  exists c, In c Cli.setupCommands /\ Cli.name c = EmptyString /\
            Cli.matched Cli.setupCommands (a :: rest) = Some (c, a :: rest) /\
            Cli.action c = fun args options =>
                             Cli.handleDefaultCommand (hd_error args) options.
Proof.
  intros Hunknown. unfold Cli.matched. cbn [hd_error].
  rewrite filter_none
    by (intros c Hc; apply isMatched_unknown, Hunknown, Hc).
  eexists. split; [left; reflexivity|]. split; [reflexivity|].
  split; reflexivity.
Qed.

(** X11: a first argument that is neither the name nor an alias of a
    command selects the default command and is taken as its language, on a
    command line whose options the default command accepts: the menu opens,
    or with [--init] the initialization runs in that language. *)
Theorem X11_unknown_word_is_the_language (a : string) (rest : list string)
  (options : CliOptions.t)
  (Hunknown : forall c, In c Cli.setupCommands -> ~ In a (CliHelp.words c))
  (Haccepted : Cli.undeclared Cli.setupCommands (a :: rest) options = []) :
  Cli.parse Cli.setupCommands (a :: rest) options
  = Cli.Runs (Cli.handleDefaultCommand (Some a) options) /\
  (Js.truthy_flag (CliOptions.init options) = false ->
   Cli.parse Cli.setupCommands (a :: rest) options = Cli.Runs Cli.showMainMenu) /\
  (Js.truthy_flag (CliOptions.init options) = true ->
   exists o,
     Cli.parse Cli.setupCommands (a :: rest) options = Cli.Runs (Cli.init o) /\
     InitOptions.lang o = Some a /\
     InitOptions.configLang o = CliOptions.configLang options /\
     InitOptions.force o = CliOptions.force options).
Proof.
  destruct (unknown_word_selects_default a rest Hunknown)
    as (c & _ & _ & Hsel & Hact).
  assert (Hparse : Cli.parse Cli.setupCommands (a :: rest) options
                   = Cli.Runs (Cli.handleDefaultCommand (Some a) options)).
  { unfold Cli.undeclared in Haccepted. unfold Cli.parse.
    rewrite Hsel in *. rewrite Haccepted, Hact. reflexivity. }
  assert (Ha : Js.truthy a = true).
  { destruct a; [|reflexivity].
    exfalso. apply (Hunknown _ (or_introl eq_refl)). now left. }
  rewrite Hparse. unfold Cli.handleDefaultCommand.
  split; [reflexivity|]. split; intros ->; [reflexivity|].
  eexists. split; [reflexivity|]. cbn. unfold Js.or_opt. cbn. rewrite Ha.
  repeat split.
Qed.

(** [zcf zh-CN] and [zcf zh-CN --init -c zh-CN -f]. *)
Lemma X11_witness :
  Cli.parse Cli.setupCommands ["zh-CN"] CliOptions.none
  = Cli.Runs Cli.showMainMenu /\
  exists o,
    Cli.parse Cli.setupCommands ["zh-CN"] CliHelp.init_config_force
    = Cli.Runs (Cli.init o) /\
    InitOptions.lang o = Some "zh-CN" /\
    InitOptions.configLang o = Some "zh-CN" /\
    InitOptions.force o = Some true.
Proof.
  split.
  - apply (proj1 (proj2 (X11_unknown_word_is_the_language "zh-CN" []
                           CliOptions.none
                           ltac:(intros c Hc; simpl in Hc;
                                 repeat (destruct Hc as [<-|Hc];
                                         [simpl; intuition discriminate|]);
                                 contradiction)
                           eq_refl))).
    reflexivity.
  - apply (proj2 (proj2 (X11_unknown_word_is_the_language "zh-CN" []
                           CliHelp.init_config_force
                           ltac:(intros c Hc; simpl in Hc;
                                 repeat (destruct Hc as [<-|Hc];
                                         [simpl; intuition discriminate|]);
                                 contradiction)
                           eq_refl))).
    reflexivity.
Defined.

(** X12: [--init] on the default command is the init command under another
    name: a command line [zcf --init ...] that the default command accepts
    runs exactly what [zcf init ...] runs with the same other options. The
    two handlers differ only in the options the default command drops:
    called on one options object with [init] set and no language argument,
    they make the same call exactly when the object sets none of the
    options only the init command passes on (output language, skip-prompt,
    installation choice, config action, API type, key, token and URL, MCP
    services and keys, workflows, AI personality). *)
Theorem X12_init_flag_versus_init_command (options : CliOptions.t)
  (Hinit : CliOptions.init options = Some true) :
  (Cli.undeclared Cli.setupCommands [] options = [] ->
   Cli.parse Cli.setupCommands [] options
   = Cli.parse Cli.setupCommands ["init"] (CliHelp.without_init options) /\
   Cli.parse Cli.setupCommands [] options
   = Cli.Runs (Cli.handleInitCommand (CliHelp.without_init options))) /\
  (Cli.handleDefaultCommand None options = Cli.handleInitCommand options
   <-> CliHelp.init_only_options_unset options).
Proof.
  split.
  - intros Hacc.
    destruct (no_argument_selects_default options) as (c & Hc & Hn & Hu).
    pose proof Hacc as Hacc'. rewrite Hu in Hacc'.
    destruct (default_accepts c options Hc Hn Hacc') as [Hlang Hunset].
    change (Cli.parse Cli.setupCommands [] options)
      with (match Cli.undeclared Cli.setupCommands [] options with
            | [] => Cli.Runs (Cli.handleDefaultCommand None options)
            | unknown => Cli.Rejects unknown
            end).
    rewrite Hacc.
    unfold CliHelp.init_only_options_unset in Hunset.
    destruct options as [i l cl a f sp ic ca at_ ak au ur ms mk wf ap].
    cbn in Hinit, Hlang, Hunset. decompose [and] Hunset. subst.
    destruct cl, f; split; reflexivity.
  - unfold Cli.handleDefaultCommand, Cli.handleInitCommand,
      CliHelp.init_only_options_unset.
    rewrite Hinit. destruct options. cbn. split.
    + intros H. injection H. intros. repeat split; congruence.
    + intros H. decompose [and] H. subst. reflexivity.
Qed.

(** [zcf --init -c zh-CN -f] and [zcf init -c zh-CN -f]. *)
Lemma X12_witness :
  Cli.parse Cli.setupCommands [] CliHelp.init_config_force
  = Cli.parse Cli.setupCommands ["init"]
      (CliHelp.without_init CliHelp.init_config_force).
Proof.
  apply (proj1 (X12_init_flag_versus_init_command CliHelp.init_config_force
                  eq_refl)).
  reflexivity.
Defined.

Lemma mentions_refl (s : string) : CliHelp.mentions s s.
Proof. exists EmptyString, EmptyString. simpl. now rewrite append_empty_r. Qed.

Lemma mentions_cons (c : ascii) (s sub : string) :
  CliHelp.mentions s sub -> CliHelp.mentions (String c s) sub.
Proof. intros (pre & post & ->). now exists (String c pre), post. Qed.

Lemma mentions_app_l (a b sub : string) :
  CliHelp.mentions a sub -> CliHelp.mentions (a ++ b) sub.
Proof.
  intros (pre & post & ->). exists pre, (post ++ b).
  now rewrite !append_assoc.
Qed.

Lemma mentions_app_r (a b sub : string) :
  CliHelp.mentions b sub -> CliHelp.mentions (a ++ b) sub.
Proof.
  intros (pre & post & ->). exists (a ++ pre), post.
  now rewrite append_assoc.
Qed.

Ltac find_mention :=
  first [ apply mentions_refl
        | apply mentions_cons; find_mention
        | apply mentions_app_l; find_mention
        | apply mentions_app_r; find_mention ].

(** X13: [customizeHelp] keeps every section it is given, in order, after
    a header and before three sections of its own; the commands section
    mentions every name and alias registered by [setupCommands], as
    [zcf <word>], and the options section mentions every option of the
    default command. *)
Theorem X13_help_covers_the_command_table (version : string)
  (ansis : Js.Colour -> string -> string) (cyan_bold : string -> string)
  (sections : list CliHelp.HelpSection) :
  CliHelp.customizeHelp version ansis cyan_bold sections
  = (CliHelp.header version cyan_bold :: sections ++
     [CliHelp.commands_section ansis; CliHelp.options_section ansis;
      CliHelp.examples_section ansis])%list /\
  (forall c word,
      In c Cli.setupCommands -> In word (CliHelp.words c) ->
      word <> EmptyString ->
      CliHelp.mentions (CliHelp.body (CliHelp.commands_section ansis))
        (ansis Js.cyan ("zcf " ++ word))) /\
  (forall c o,
      In c Cli.setupCommands -> Cli.name c = EmptyString ->
      In o (Cli.options c) ->
      CliHelp.mentions (CliHelp.body (CliHelp.options_section ansis))
        (ansis Js.green (Cli.removeBrackets o))).
Proof.
  split; [reflexivity|]. split.
  - intros c word Hc Hw Hne. simpl in Hc.
    repeat (destruct Hc as [<-|Hc];
            [cbn in Hw;
             repeat (destruct Hw as [<-|Hw];
                     [first [contradiction (Hne eq_refl) | cbn; find_mention]|]);
             contradiction|]).
    contradiction.
  - intros c o Hc Hn Ho. simpl in Hc.
    repeat (destruct Hc as [<-|Hc];
            [first [discriminate Hn
                   | cbn in Ho;
                     repeat (destruct Ho as [<-|Ho]; [cbn; find_mention|]);
                     contradiction]|]).
    contradiction.
Qed.

Lemma X13_witness :
  CliHelp.mentions
    (CliHelp.body (CliHelp.commands_section Scenario.plain)) "zcf check-updates".
Proof.
  apply (proj1 (proj2 (X13_help_covers_the_command_table "2.0.0" Scenario.plain
                         (fun s => s) []))
           (nth 5 Cli.setupCommands
                {| Cli.rawName := EmptyString; Cli.description := EmptyString;
                   Cli.aliasNames := []; Cli.options := [];
                   Cli.allowUnknown := false;
                   Cli.action := fun _ _ => Cli.showMainMenu |})
           "check-updates").
  - simpl. tauto.
  - now left.
  - discriminate.
Defined.

(* ================================================================== *)
(** * More about the AI-personality wizard *)

(** X14: [hasExistingPersonality] and [getExistingPersonality] agree and
    change nothing: the first answers [true] exactly when the second
    returns a personality, which is when the record stores a non-empty one;
    an empty string stored counts as none and is never returned. *)
Theorem X14_existing_personality_readers (w : Personality.World) :
  exists b r,
    Personality.hasExistingPersonality w = Some (Eff.Returns b, w) /\
    Personality.getExistingPersonality w = Some (Eff.Returns r, w) /\
    (b = true <-> r <> None) /\
    r <> Some EmptyString /\
    (forall p, r = Some p <->
               exists c, Personality.config w = Some c /\
                         Personality.aiPersonality c = Some p /\
                         p <> EmptyString).
Proof.
  eexists _, _. split; [reflexivity|]. split; [reflexivity|].
  cbn. unfold Js.or_opt.
  destruct (Personality.config w) as [c|]; cbn.
  - destruct (Personality.aiPersonality c) as [[|x p]|] eqn:E; cbn.
    + split; [split; [discriminate | congruence]|].
      split; [discriminate|]. intros p. split; [discriminate|].
      intros (c' & Hc & Hp & Hne). injection Hc as <-. congruence.
    + split; [split; [discriminate | reflexivity]|].
      split; [discriminate|]. intros q. split.
      * intros H. injection H as <-. exists c. repeat split; auto. discriminate.
      * intros (c' & Hc & Hp & Hne). injection Hc as <-. congruence.
    + split; [split; [discriminate | congruence]|].
      split; [discriminate|]. intros p. split; [discriminate|].
      intros (c' & Hc & Hp & Hne). injection Hc as <-. congruence.
  - split; [split; [discriminate | congruence]|].
    split; [discriminate|]. intros p. split; [discriminate|].
    intros (c' & Hc & _). discriminate.
Qed.

(** X15: [getPersonalityInfo] looks a personality up by its identifier: it
    returns an entry of the table with that identifier, returns every entry
    of the table for its own identifier, and returns nothing exactly for the
    identifiers the table does not have. *)
Theorem X15_getPersonalityInfo_lookup (personalityId : string) :
  match Personality.getPersonalityInfo personalityId with
  | Some info =>
      Personality.id info = personalityId /\
      In info Personality.AI_PERSONALITIES
  | None =>
      ~ In personalityId (map Personality.id Personality.AI_PERSONALITIES)
  end /\
  (forall info, In info Personality.AI_PERSONALITIES ->
                Personality.getPersonalityInfo (Personality.id info) = Some info).
Proof.
  split.
  - unfold Personality.getPersonalityInfo.
    destruct (find _ Personality.AI_PERSONALITIES) as [info|] eqn:E.
    + apply find_some in E as [Hin Heq].
      apply String.eqb_eq in Heq. now split.
    + intros Hin. apply in_map_iff in Hin as (info & Hid & Hin).
      pose proof (find_none _ _ E info Hin) as Hne. cbn beta in Hne.
      rewrite Hid, String.eqb_refl in Hne. discriminate.
  - intros info Hin. simpl in Hin.
    repeat (destruct Hin as [<-|Hin]; [reflexivity|]). contradiction.
Qed.

Lemma stored_personality_truthy (w : Personality.World) (p : string) :
  Personality.stored_personality w = Some p -> Js.truthy p = true.
Proof.
  unfold Personality.stored_personality, Js.or_opt.
  destruct (Personality.config w) as [c|]; cbn; [|discriminate].
  destruct (Personality.aiPersonality c) as [[|x q]|]; cbn; try discriminate.
  intros H. injection H as <-. reflexivity.
Qed.

(** X16: when a known personality is stored and the user declines to
    modify it, [configureAiPersonality] keeps everything: it prints the
    existing personality, asks the one confirmation (whose default is no),
    prints that the personality is kept, and leaves the record and the
    files untouched. *)
Theorem X16_declined_change_keeps_everything (host : Personality.Host)
  (lang : SupportedLang) (showExisting : option bool) (w : Personality.World)
  (p : string) (info : Personality.AiPersonality)
  (Hshow : showExisting <> Some false)
  (Hstored : Personality.stored_personality w = Some p)
  (Hinfo : Personality.getPersonalityInfo p = Some info)
  (Hdeclines : Personality.confirms (Personality.user host)
                 (Wizard.modify_question host lang) = false) :
  Personality.configureAiPersonality host lang showExisting w =
  Some (Eff.Returns tt,
        {| Personality.config := Personality.config w;
           Personality.files := Personality.files w;
           Personality.asked :=
             (Personality.asked w ++ [Wizard.modify_question host lang])%list;
           Personality.console :=
             (Personality.console w ++
              [Wizard.existing_line host lang; Wizard.current_line host lang info;
               Wizard.keep_line host lang])%list |}).
Proof.
  unfold Personality.configureAiPersonality, Eff.bind at 1.
  rewrite getExistingPersonality_run, Hstored.
  assert (Hs : match showExisting with Some b => b | None => true end = true)
    by (destruct showExisting as [[]|]; congruence).
  rewrite Hs. cbn [Js.truthy_opt andb].
  rewrite (stored_personality_truthy _ _ Hstored), Hinfo.
  unfold Personality.prompt_confirm, Eff.bind.
  cbn [Personality.print Personality.record_question Eff.modify Eff.ret
         Personality.config Personality.files Personality.asked
         Personality.console].
  change (Personality.Confirm "modify"
            (Js.or_else
               (Translation.modifyPersonality (Personality.getTranslation host lang))
               "Modify AI personality?") false)
    with (Wizard.modify_question host lang).
  rewrite Hdeclines. cbn [negb].
  unfold Personality.print, Eff.modify.
  cbn [Personality.config Personality.files Personality.asked
         Personality.console].
  rewrite <- !app_assoc. reflexivity.
Qed.

Lemma X16_witness :
  Personality.configureAiPersonality
    (Scenario.host Scenario.presses_enter None) en None (Wizard.configured "mentor")
  = Some (Eff.Returns tt,
          {| Personality.config := Personality.config (Wizard.configured "mentor");
             Personality.files := [];
             Personality.asked :=
               [Wizard.modify_question (Scenario.host Scenario.presses_enter None) en];
             Personality.console :=
               [Js.Log [Js.Str (String (ascii_of_nat 10) EmptyString ++
                                "ℹ Existing AI personality configuration")];
                Js.Log [Js.Str "  Current personality: Mentor Mode"];
                Js.Log [Js.Str "✔ Keeping existing personality"]] |}).
Proof.
  apply (X16_declined_change_keeps_everything
           (Scenario.host Scenario.presses_enter None) en None
           (Wizard.configured "mentor") "mentor"
           (nth 3 Personality.AI_PERSONALITIES
                {| Personality.id := EmptyString;
                   Personality.name := {| Personality.zh := EmptyString;
                                          Personality.en_ := EmptyString |};
                   Personality.directive := {| Personality.zh := EmptyString;
                                               Personality.en_ := EmptyString |} |}));
    try reflexivity.
  discriminate.
Defined.

Lemma findIndex_find {A : Type} (pred : A -> bool) (l : list A) :
  match find pred l with
  | Some x =>
      (0 <= Personality.findIndex pred l)%Z /\
      nth_error l (Z.to_nat (Personality.findIndex pred l)) = Some x
  | None => Personality.findIndex pred l = (-1)%Z
  end.
Proof.
  induction l as [|x l IH]; simpl; [reflexivity|].
  destruct (pred x); [split; [lia | reflexivity]|].
  destruct (find pred l) as [y|].
  - destruct IH as [Hpos Hnth].
    destruct (Personality.findIndex pred l) as [|i|i] eqn:E; try lia.
    + split; [lia|]. exact Hnth.
    + split; [lia|].
      replace (Z.to_nat (Z.pos (i + 1))) with (S (Z.to_nat (Z.pos i))) by lia.
      exact Hnth.
  - now rewrite IH.
Qed.

(** X17: the number the list question is given as [default] is the
    position of the stored personality in the table, and it is -1 when the
    stored identifier is not in the table. *)
Theorem X17_list_default_is_the_stored_personality (host : Personality.Host)
  (lang : SupportedLang) (p : string)
  (Hstored : p <> EmptyString) :
  let default :=
    Wizard.default_of (Personality.personality_question host lang (Some p)) in
  match Personality.getPersonalityInfo p with
  | Some info =>
      (0 <= default)%Z /\
      nth_error Personality.AI_PERSONALITIES (Z.to_nat default) = Some info /\
      Personality.id info = p
  | None => default = (-1)%Z
  end.
Proof.
  cbn [Wizard.default_of Personality.personality_question].
  assert (Hp : Js.truthy p = true) by (destruct p; [contradiction | reflexivity]).
  rewrite Hp. unfold Personality.getPersonalityInfo.
  pose proof (findIndex_find (fun q => String.eqb (Personality.id q) p)
                Personality.AI_PERSONALITIES) as H.
  destruct (find _ Personality.AI_PERSONALITIES) as [info|] eqn:E; [|exact H].
  destruct H as [H0 Hn]. split; [exact H0|]. split; [exact Hn|].
  apply find_some in E as [_ E]. now apply String.eqb_eq.
Qed.

Lemma X17_witness :
  (0 <= Wizard.default_of
          (Personality.personality_question
             (Scenario.host Scenario.presses_enter None) en (Some "friendly")))%Z /\
  nth_error Personality.AI_PERSONALITIES
    (Z.to_nat (Wizard.default_of
                 (Personality.personality_question
                    (Scenario.host Scenario.presses_enter None) en (Some "friendly"))))
  = Some (nth 2 Personality.AI_PERSONALITIES
              {| Personality.id := EmptyString;
                 Personality.name := {| Personality.zh := EmptyString;
                                        Personality.en_ := EmptyString |};
                 Personality.directive := {| Personality.zh := EmptyString;
                                             Personality.en_ := EmptyString |} |}) /\
  Personality.id
    (nth 2 Personality.AI_PERSONALITIES
         {| Personality.id := EmptyString;
            Personality.name := {| Personality.zh := EmptyString;
                                   Personality.en_ := EmptyString |};
            Personality.directive := {| Personality.zh := EmptyString;
                                        Personality.en_ := EmptyString |} |})
  = "friendly".
Proof.
  apply (X17_list_default_is_the_stored_personality
           (Scenario.host Scenario.presses_enter None) en "friendly").
  discriminate.
Defined.

Lemma read_file_written (path content : string) (fs : list (string * string)) :
  Personality.read_file ((path, content) :: fs) path = Some content.
Proof. simpl. now rewrite String.eqb_refl. Qed.

(** X18: when the write succeeds, a personality of the table other than
    [custom], selected on a run that reaches the selection (no stored
    personality is shown, or one is shown and the user chooses to modify
    it), ends up on disk and in the record: personality.md holds its
    directive in the language of the run and the record names it. The
    questions asked are the confirmation, if a stored personality was shown,
    and the personality question; after the lines that show the stored
    personality, if any, only the success line is printed. *)
Theorem X18_selected_directive_is_written (host : Personality.Host)
  (lang : SupportedLang) (showExisting : option bool)
  (w : Personality.World) (personality : string)
  (info : Personality.AiPersonality)
  (Hwritable : Personality.io_fault host (Personality.personalityFile host) = None)
  (Hproceeds : Wizard.proceeds host lang showExisting w)
  (Hselect : Personality.selects (Personality.user host)
               (Personality.personality_question host lang
                  (Personality.stored_personality w)) = personality)
  (Hinfo : Personality.getPersonalityInfo personality = Some info)
  (Hlisted : personality <> "custom") :
  exists w',
    Personality.configureAiPersonality host lang showExisting w
    = Some (Eff.Returns tt, w') /\
    Personality.read_file (Personality.files w') (Personality.personalityFile host)
    = Some (Personality.at_lang (Personality.directive info) lang) /\
    (exists c', Personality.config w' = Some c' /\
                Personality.aiPersonality c' = Some personality) /\
    Personality.asked w' =
    (Personality.asked w ++ Wizard.shown_questions host lang showExisting w ++
     [Personality.personality_question host lang
        (Personality.stored_personality w)])%list /\
    Personality.console w' =
    (Personality.console w ++ Wizard.shown_lines host lang showExisting w ++
     [Personality.success_line host lang])%list.
Proof.
  rewrite configureAiPersonality_proceeds by exact Hproceeds.
  assert (Hp : Js.truthy personality = true).
  { destruct (find_some _ _ Hinfo) as [Hin Hid]. apply String.eqb_eq in Hid.
    rewrite <- Hid. simpl in Hin.
    destruct Hin as [<-|[<-|[<-|[<-|[<-|[]]]]]]; reflexivity. }
  unfold Personality.select_and_apply, Personality.prompt_list, Eff.bind at 1 2.
  cbn [Personality.record_question Eff.modify Eff.ret].
  rewrite Hselect, Hp. cbn [negb].
  apply String.eqb_neq in Hlisted. rewrite Hlisted.
  unfold Personality.getPersonalityInfo in Hinfo. rewrite Hinfo.
  match goal with
  | |- exists w', Personality.apply_and_save host lang ?p ?d ?w0 = _ /\ _ =>
      destruct (apply_and_save_run host lang p d w0) as (w2 & H2 & Ha & Hc & Hio)
  end.
  rewrite Hwritable in Hio. destruct Hio as [Hf Hcon].
  exists w2. split; [exact H2|].
  split; [rewrite Hf; apply read_file_written|].
  split; [exact Hc|]. split.
  - rewrite Ha. unfold Wizard.after_showing. cbn [Personality.asked].
    now rewrite <- app_assoc.
  - rewrite Hcon. unfold Wizard.after_showing. cbn [Personality.console].
    now rewrite <- app_assoc.
Qed.

(** A profile that stores [mentor]: the user chooses to modify it and
    selects [catgirl]. *)
Lemma X18_witness :
  exists w',
    Personality.configureAiPersonality
      (Scenario.host (Wizard.picks "catgirl") None) zh_CN None
      (Wizard.configured "mentor")
    = Some (Eff.Returns tt, w') /\
    Personality.read_file (Personality.files w') "/home/user/.claude/personality.md"
    = Some (Personality.at_lang (Personality.directive (Wizard.entry 1)) zh_CN) /\
    (exists c', Personality.config w' = Some c' /\
                Personality.aiPersonality c' = Some "catgirl") /\
    Personality.asked w' =
    [Wizard.modify_question (Scenario.host (Wizard.picks "catgirl") None) zh_CN;
     Personality.personality_question
       (Scenario.host (Wizard.picks "catgirl") None) zh_CN (Some "mentor")] /\
    Personality.console w' =
    [Wizard.existing_line (Scenario.host (Wizard.picks "catgirl") None) zh_CN;
     Wizard.current_line (Scenario.host (Wizard.picks "catgirl") None) zh_CN
       (Wizard.entry 3);
     Js.Log [Js.Str "✔ AI personality configured"]].
Proof.
  apply (X18_selected_directive_is_written
           (Scenario.host (Wizard.picks "catgirl") None) zh_CN None
           (Wizard.configured "mentor") "catgirl" (Wizard.entry 1)).
  - reflexivity.
  - reflexivity.
  - reflexivity.
  - reflexivity.
  - discriminate.
Defined.

(** X19: when [custom] is selected on a run that reaches the selection (no
    stored personality is shown, or one is shown and the user chooses to
    modify it), the directive written to personality.md is the first
    non-empty line the user types at the directive question, and the record
    names [custom]; while the user types only empty lines the wizard does
    not complete. *)
Theorem X19_custom_directive_is_the_typed_line (host : Personality.Host)
  (lang : SupportedLang) (showExisting : option bool)
  (w : Personality.World) (typed : list string)
  (Hwritable : Personality.io_fault host (Personality.personalityFile host) = None)
  (Hproceeds : Wizard.proceeds host lang showExisting w)
  (Hselect : Personality.selects (Personality.user host)
               (Personality.personality_question host lang
                  (Personality.stored_personality w)) = "custom")
  (Htypes : Personality.types (Personality.user host)
              (Wizard.custom_question host lang) = typed) :
  match find (fun v => negb (String.eqb v EmptyString)) typed with
  | Some d =>
      exists w',
        Personality.configureAiPersonality host lang showExisting w
        = Some (Eff.Returns tt, w') /\
        Personality.read_file (Personality.files w')
          (Personality.personalityFile host) = Some d /\
        (exists c', Personality.config w' = Some c' /\
                    Personality.aiPersonality c' = Some "custom") /\
        Personality.asked w' =
        (Personality.asked w ++ Wizard.shown_questions host lang showExisting w ++
         [Personality.personality_question host lang
            (Personality.stored_personality w);
          Wizard.custom_question host lang])%list
  | None =>
      Personality.configureAiPersonality host lang showExisting w = None
  end.
Proof.
  rewrite configureAiPersonality_proceeds by exact Hproceeds.
  unfold Personality.select_and_apply, Personality.prompt_list, Eff.bind at 1 2.
  cbn [Personality.record_question Eff.modify Eff.ret].
  rewrite Hselect. cbn [Js.truthy negb]. rewrite String.eqb_refl.
  unfold Personality.prompt_input, Eff.bind at 1 2.
  cbn [Personality.record_question Eff.modify Eff.ret].
  change (Personality.directive_question (Personality.getTranslation host lang))
    with (Wizard.custom_question host lang).
  change (Personality.validate_of (Wizard.custom_question host lang))
    with (Personality.validate_directive (Personality.getTranslation host lang)).
  rewrite Htypes.
  assert (Hfind : forall l,
             Personality.first_valid
               (Personality.validate_directive (Personality.getTranslation host lang)) l
             = find (fun v => negb (String.eqb v EmptyString)) l).
  { induction l as [|v l IH]; simpl; [reflexivity|].
    destruct v; simpl; [exact IH | reflexivity]. }
  rewrite Hfind.
  destruct (find _ typed) as [d|] eqn:Ed; [|reflexivity].
  assert (Hd : Js.truthy d = true).
  { apply find_some in Ed as [_ Ed]. destruct d; [discriminate | reflexivity]. }
  cbn [Eff.ret]. rewrite Hd. cbn [negb].
  match goal with
  | |- exists w', Personality.apply_and_save host lang ?p ?x ?w0 = _ /\ _ =>
      destruct (apply_and_save_run host lang p x w0) as (w2 & H2 & Ha & Hc & Hio)
  end.
  rewrite Hwritable in Hio. destruct Hio as [Hf _].
  exists w2. split; [exact H2|].
  split; [rewrite Hf; apply read_file_written|].
  split; [exact Hc|]. rewrite Ha. unfold Wizard.after_showing.
  cbn [Personality.asked].
  now rewrite <- !app_assoc.
Qed.

(** A profile that stores [mentor]: the user chooses to modify it, selects
    [custom], presses Enter on an empty line and then types a directive. *)
Lemma X19_witness :
  exists w',
    Personality.configureAiPersonality
      (Scenario.host (Scenario.types_custom [EmptyString; "be terse"]) None)
      en None (Wizard.configured "mentor")
    = Some (Eff.Returns tt, w') /\
    Personality.read_file (Personality.files w') "/home/user/.claude/personality.md"
    = Some "be terse" /\
    (exists c', Personality.config w' = Some c' /\
                Personality.aiPersonality c' = Some "custom") /\
    Personality.asked w' =
    [Wizard.modify_question
       (Scenario.host (Scenario.types_custom [EmptyString; "be terse"]) None) en;
     Personality.personality_question
       (Scenario.host (Scenario.types_custom [EmptyString; "be terse"]) None)
       en (Some "mentor");
     Wizard.custom_question
       (Scenario.host (Scenario.types_custom [EmptyString; "be terse"]) None) en].
Proof.
  apply (X19_custom_directive_is_the_typed_line
           (Scenario.host (Scenario.types_custom [EmptyString; "be terse"]) None)
           en None (Wizard.configured "mentor") [EmptyString; "be terse"]).
  - reflexivity.
  - reflexivity.
  - reflexivity.
  - reflexivity.
Defined.

(** X20: the guard [if (!personality)] after the personality question: on a
    run that reaches the selection (no stored personality is shown, or one
    is shown and the user chooses to modify it), a prompt that resolves
    with no selection, the empty answer, cancels the wizard: after what
    showing the stored personality asked and printed, the personality
    question is asked, the cancellation line is printed and neither the
    record nor the files change. *)
Theorem X20_empty_selection_cancels (host : Personality.Host)
  (lang : SupportedLang) (showExisting : option bool) (w : Personality.World)
  (Hproceeds : Wizard.proceeds host lang showExisting w)
  (Hselect : Personality.selects (Personality.user host)
               (Personality.personality_question host lang
                  (Personality.stored_personality w)) = EmptyString) :
  Personality.configureAiPersonality host lang showExisting w =
  Some (Eff.Returns tt,
        {| Personality.config := Personality.config w;
           Personality.files := Personality.files w;
           Personality.asked :=
             (Personality.asked w ++
              Wizard.shown_questions host lang showExisting w ++
              [Personality.personality_question host lang
                 (Personality.stored_personality w)])%list;
           Personality.console :=
             (Personality.console w ++
              Wizard.shown_lines host lang showExisting w ++
              [Wizard.cancelled_line host lang])%list |}).
Proof.
  rewrite configureAiPersonality_proceeds by exact Hproceeds.
  unfold Personality.select_and_apply, Personality.prompt_list, Eff.bind.
  cbn [Personality.record_question Eff.modify Eff.ret].
  rewrite Hselect. cbn [Js.truthy negb].
  unfold Personality.print, Eff.modify, Wizard.after_showing.
  cbn [Personality.config Personality.files Personality.asked
         Personality.console].
  rewrite <- !app_assoc. reflexivity.
Qed.

(** A profile that stores [mentor]: the user chooses to modify it and the
    prompt resolves with no selection. *)
Lemma X20_witness :
  Personality.configureAiPersonality
    (Scenario.host (Wizard.picks EmptyString) None) en None
    (Wizard.configured "mentor")
  = Some (Eff.Returns tt,
          {| Personality.config := Personality.config (Wizard.configured "mentor");
             Personality.files := [];
             Personality.asked :=
               [Wizard.modify_question
                  (Scenario.host (Wizard.picks EmptyString) None) en;
                Personality.personality_question
                  (Scenario.host (Wizard.picks EmptyString) None) en (Some "mentor")];
             Personality.console :=
               [Js.Log [Js.Str (String (ascii_of_nat 10) EmptyString ++
                                "ℹ Existing AI personality configuration")];
                Js.Log [Js.Str "  Current personality: Mentor Mode"];
                Js.Log [Js.Str "Operation cancelled"]] |}).
Proof.
  apply (X20_empty_selection_cancels
           (Scenario.host (Wizard.picks EmptyString) None) en None
           (Wizard.configured "mentor")).
  - reflexivity.
  - reflexivity.
Defined.

(** What a settled run of the selection has done: nothing to the record and
    the files, or the selection saved and personality.md written at most
    once. *)
Lemma select_and_apply_cases (host : Personality.Host) (lang : SupportedLang)
  (existing : option string) (w w' : Personality.World)
  (r : Eff.Completion Js.Error unit) :
  Personality.select_and_apply host lang existing w = Some (r, w') ->
  r = Eff.Returns tt /\
  length (Personality.asked w') <= length (Personality.asked w) + 2 /\
  ((Personality.config w' = Personality.config w /\
    Personality.files w' = Personality.files w) \/
   (exists c' p,
       Personality.config w' = Some c' /\
       Personality.aiPersonality c' = Some p /\ p <> EmptyString /\
       (Personality.files w' = Personality.files w \/
        exists d, Personality.files w' =
                  (Personality.personalityFile host, d) :: Personality.files w))).
Proof.
  unfold Personality.select_and_apply, Personality.prompt_list, Eff.bind at 1 2.
  cbn [Personality.record_question Eff.modify Eff.ret].
  set (p := Personality.selects (Personality.user host)
              (Personality.personality_question host lang existing)).
  destruct (Js.truthy p) eqn:Hp; cbn [negb].
  2:{ intros H. injection H as <- <-. split; [reflexivity|].
      cbn. rewrite length_app. simpl. split; [lia|]. left. auto. }
  assert (Hne : p <> EmptyString) by (intros E; rewrite E in Hp; discriminate).
  assert (Hend : forall d w0 r0 w1,
             Personality.config w0 = Personality.config w ->
             Personality.files w0 = Personality.files w ->
             length (Personality.asked w0) <= length (Personality.asked w) + 2 ->
             Personality.apply_and_save host lang p d w0 = Some (r0, w1) ->
             r0 = Eff.Returns tt /\
             length (Personality.asked w1) <= length (Personality.asked w) + 2 /\
             ((Personality.config w1 = Personality.config w /\
               Personality.files w1 = Personality.files w) \/
              (exists c' q,
                  Personality.config w1 = Some c' /\
                  Personality.aiPersonality c' = Some q /\ q <> EmptyString /\
                  (Personality.files w1 = Personality.files w \/
                   exists d', Personality.files w1 =
                              (Personality.personalityFile host, d')
                                :: Personality.files w)))).
  { intros d w0 r0 w1 Hc Hf Hl Hrun.
    destruct (apply_and_save_run host lang p d w0) as (w2 & H2 & Ha & Hcfg & Hio).
    rewrite H2 in Hrun. injection Hrun as <- <-.
    split; [reflexivity|]. split; [now rewrite Ha|]. right.
    destruct Hcfg as (c' & Hc' & Hp').
    exists c', p. split; [exact Hc'|]. split; [exact Hp'|]. split; [exact Hne|].
    destruct (Personality.io_fault host (Personality.personalityFile host));
      destruct Hio as [Hfiles _]; rewrite Hfiles, Hf; eauto. }
  destruct (String.eqb p "custom").
  - unfold Personality.prompt_input, Eff.bind at 1 2.
    cbn [Personality.record_question Eff.modify Eff.ret].
    change (Personality.validate_of
              (Personality.directive_question (Personality.getTranslation host lang)))
      with (Personality.validate_directive (Personality.getTranslation host lang)).
    destruct (Personality.first_valid _ _) as [v|] eqn:Ev; [|discriminate].
    cbn [Eff.ret]. rewrite (first_valid_truthy _ _ _ Ev). cbn [negb].
    apply Hend; try reflexivity.
    cbn. rewrite !length_app. simpl. lia.
  - destruct (find _ Personality.AI_PERSONALITIES);
      apply Hend; try reflexivity; cbn; rewrite length_app; simpl; lia.
Qed.

(** X21: a run of [configureAiPersonality] that settles never throws and
    asks at most three questions. It either leaves the record and the files
    as they were, or it has saved a non-empty personality in the record and
    written at most one file, personality.md. *)
Theorem X21_configureAiPersonality_effects (host : Personality.Host)
  (lang : SupportedLang) (showExisting : option bool)
  (w w' : Personality.World) (r : Eff.Completion Js.Error unit)
  (Hrun : Personality.configureAiPersonality host lang showExisting w
          = Some (r, w')) :
  r = Eff.Returns tt /\
  length (Personality.asked w') <= length (Personality.asked w) + 3 /\
  ((Personality.config w' = Personality.config w /\
    Personality.files w' = Personality.files w) \/
   (exists c' p,
       Personality.config w' = Some c' /\
       Personality.aiPersonality c' = Some p /\ p <> EmptyString /\
       (Personality.files w' = Personality.files w \/
        exists d, Personality.files w' =
                  (Personality.personalityFile host, d) :: Personality.files w))).
Proof.
  revert Hrun.
  unfold Personality.configureAiPersonality, Eff.bind at 1.
  rewrite getExistingPersonality_run.
  assert (Hsel : forall w0,
             Personality.config w0 = Personality.config w ->
             Personality.files w0 = Personality.files w ->
             length (Personality.asked w0) <= length (Personality.asked w) + 1 ->
             Personality.select_and_apply host lang
               (Personality.stored_personality w) w0 = Some (r, w') ->
             r = Eff.Returns tt /\
             length (Personality.asked w') <= length (Personality.asked w) + 3 /\
             ((Personality.config w' = Personality.config w /\
               Personality.files w' = Personality.files w) \/
              (exists c' p,
                  Personality.config w' = Some c' /\
                  Personality.aiPersonality c' = Some p /\ p <> EmptyString /\
                  (Personality.files w' = Personality.files w \/
                   exists d, Personality.files w' =
                             (Personality.personalityFile host, d)
                               :: Personality.files w)))).
  { intros w0 Hc Hf Hl H.
    apply select_and_apply_cases in H as (-> & Hlen & Hcase).
    split; [reflexivity|]. split; [lia|].
    rewrite <- Hc, <- Hf. exact Hcase. }
  destruct (match showExisting with Some b => b | None => true end
            && Js.truthy_opt (Personality.stored_personality w)).
  - destruct (Personality.getPersonalityInfo _) as [info|].
    + unfold Personality.prompt_confirm, Eff.bind.
      cbn [Personality.print Personality.record_question Eff.modify Eff.ret].
      match goal with
      | |- context [negb ?b] => destruct b
      end; cbn [negb].
      * apply Hsel; try reflexivity. cbn. rewrite length_app. simpl. lia.
      * unfold Personality.print, Eff.modify. intros H. injection H as <- <-.
        split; [reflexivity|]. cbn. rewrite length_app. simpl.
        split; [lia|]. left. auto.
    + apply Hsel; try reflexivity. lia.
  - apply Hsel; try reflexivity. lia.
Qed.

Lemma X21_witness :
  Eff.Returns (E := Js.Error) tt = Eff.Returns tt /\
  length (Personality.asked
            {| Personality.config := Personality.config (Wizard.configured "mentor");
               Personality.files := [];
               Personality.asked :=
                 [Personality.personality_question
                    (Scenario.host (Wizard.picks EmptyString) None) en
                    (Some "mentor")];
               Personality.console := [Js.Log [Js.Str "Operation cancelled"]] |})
  <= length (Personality.asked (Wizard.configured "mentor")) + 3.
Proof.
  destruct (X21_configureAiPersonality_effects
              (Scenario.host (Wizard.picks EmptyString) None) en (Some false)
              (Wizard.configured "mentor") _ _ eq_refl) as (H1 & H2 & _).
  split; [exact H1 | exact H2].
Defined.
